(** * FishOilProof: receipts, ledger, chain verification and fraud checks

    A shallow embedding of the Python sources [src/core.py], [src/chain.py],
    [src/processing.py], [src/testing.py], [src/encapsulation.py],
    [src/catch.py], [src/distribution.py] and [src/fraud.py], and the
    properties the specification states about them.

    Conventions of the embedding.
    - A Python [str] is a [string], one [ascii] per code point; this covers
      the code points below 256.  [bytes] is a [list byte].
    - A Python [float] is a primitive binary64 [float]; an [int] is a [Z].
    - A Python value is a [value]: the values [json.loads] produces and the
      stage validators build.  A [dict] is an association list in insertion
      order, updated with [dict_set]; only [str] keys are modelled.
    - The ledger file is the list of the receipts on its lines.  On the
      values of this model [json.loads (json.dumps r)] is [r], so a line is
      kept as the receipt it parses to.  One ledger is modelled (every call
      is given the same [ledger_path]).
    - [datetime.now] reads an oracle [clock]: the n-th reading made since the
      start is [clock n]; the world counts the readings.
    - SHA-256 is defined here; BLAKE3 (package [blake3]) is a parameter. *)

From Stdlib Require Import ZArith List String Ascii Bool Lia Floats Uint63.
From Stdlib.Strings Require Import Byte.
Import ListNotations.

Set Implicit Arguments.
Set Warnings "-register-all".

(* ------------------------------------------------------------------ *)
(** ** Text and bytes *)

Definition bytes := list byte.

Definition byte_to_Z (b : byte) : Z := Z.of_N (Byte.to_N b).

Definition byte_of_Z (z : Z) : byte :=
  match Byte.of_N (Z.to_N (z mod 256)) with
  | Some b => b
  | None => x00
  end.

Definition code (c : ascii) : Z := Z.of_N (N_of_ascii c).
Definition chr (z : Z) : ascii := ascii_of_N (Z.to_N z).

Definition hex_digit (d : Z) : ascii :=
  if (d <? 10)%Z then chr (48 + d) else chr (87 + d).

(** [bytes.hex()]: two lower-case digits per byte. *)
Fixpoint hex (bs : bytes) : string :=
  match bs with
  | [] => EmptyString
  | b :: rest =>
      String (hex_digit (byte_to_Z b / 16))
        (String (hex_digit (byte_to_Z b mod 16)) (hex rest))
  end.

(** [str.encode("utf-8")] on code points below 256. *)
Fixpoint encode_utf8 (s : string) : bytes :=
  match s with
  | EmptyString => []
  | String c rest =>
      let n := code c in
      if (n <? 128)%Z then byte_of_Z n :: encode_utf8 rest
      else byte_of_Z (192 + n / 64) :: byte_of_Z (128 + n mod 64) :: encode_utf8 rest
  end.

Fixpoint repeat_char (c : ascii) (n : nat) : string :=
  match n with
  | O => EmptyString
  | S k => String c (repeat_char c k)
  end.

(** [a in s] for a one-character [a]. *)
Fixpoint contains_char (c : ascii) (s : string) : bool :=
  match s with
  | EmptyString => false
  | String d rest => Ascii.eqb c d || contains_char c rest
  end.

(** [needle in hay] on strings. *)
Fixpoint contains (needle hay : string) : bool :=
  String.prefix needle hay ||
  match hay with
  | EmptyString => false
  | String _ rest => contains needle rest
  end.

(** Decimal digits of a non-negative number, most significant first. *)
Fixpoint digits_fuel (fuel : nat) (n : Z) (acc : string) : string :=
  match fuel with
  | O => acc
  | S k =>
      let acc' := String (chr (48 + n mod 10)) acc in
      if (n <? 10)%Z then acc' else digits_fuel k (n / 10) acc'
  end.

Definition digits (n : Z) : string :=
  digits_fuel (S (Z.to_nat (Z.log2 n))) n EmptyString.

(** [str(n)] for an [int]. *)
Definition str_int (n : Z) : string :=
  if (n <? 0)%Z then String "-"%char (digits (- n)) else digits n.

(* ------------------------------------------------------------------ *)
(** ** SHA-256 ([hashlib.sha256], FIPS 180-4) *)

Module SHA256.
Local Open Scope Z_scope.
Local Open Scope list_scope.

Definition w32 (x : Z) : Z := x mod 4294967296.
Definition rotr (n x : Z) : Z := Z.lor (Z.shiftr x n) (w32 (Z.shiftl x (32 - n))).
Definition Ch (x y z : Z) : Z := Z.lxor (Z.land x y) (Z.land (Z.lxor x 4294967295) z).
Definition Maj (x y z : Z) : Z := Z.lxor (Z.lxor (Z.land x y) (Z.land x z)) (Z.land y z).
Definition Sigma0 (x : Z) : Z := Z.lxor (Z.lxor (rotr 2 x) (rotr 13 x)) (rotr 22 x).
Definition Sigma1 (x : Z) : Z := Z.lxor (Z.lxor (rotr 6 x) (rotr 11 x)) (rotr 25 x).
Definition sigma0 (x : Z) : Z := Z.lxor (Z.lxor (rotr 7 x) (rotr 18 x)) (Z.shiftr x 3).
Definition sigma1 (x : Z) : Z := Z.lxor (Z.lxor (rotr 17 x) (rotr 19 x)) (Z.shiftr x 10).

(** The constants, from their definition in FIPS 180-4: the first 32 bits
    of the fractional parts of the cube roots of the first 64 primes ([K])
    and of the square roots of the first 8 primes ([H0]). *)
Definition is_prime (n : Z) : bool :=
  (1 <? n) && forallb (fun d => negb (n mod d =? 0)) (map Z.of_nat (seq 2 (Z.to_nat n - 2))).

Definition primes (count : nat) : list Z :=
  firstn count (filter is_prime (map Z.of_nat (seq 2 310))).

(** The largest [r] with [r^3 <= n], one bit after the other from the top. *)
Fixpoint cube_root_bits (bits : nat) (n r : Z) : Z :=
  match bits with
  | O => r
  | S b =>
      let r' := r + 2 ^ Z.of_nat b in
      cube_root_bits b n (if r' * r' * r' <=? n then r' else r)
  end.

Definition cube_root (n : Z) : Z := cube_root_bits 40 n 0.

Definition K : list Z :=
  Eval vm_compute in map (fun p => w32 (cube_root (p * 2 ^ 96))) (primes 64).

Definition H0 : list Z :=
  Eval vm_compute in map (fun p => w32 (Z.sqrt (p * 2 ^ 64))) (primes 8).

(** Big-endian bytes of a number, [n] of them. *)
Fixpoint be_bytes (n : nat) (x : Z) : list Z :=
  match n with
  | O => []
  | S k => (x / 256 ^ Z.of_nat k) mod 256 :: be_bytes k x
  end.

(** The message, the bit 1, zeros up to 56 mod 64, the bit length on 8 bytes. *)
Definition pad (msg : list Z) : list Z :=
  let len := Z.of_nat (List.length msg) in
  let zeros := Z.to_nat ((55 - len) mod 64) in
  msg ++ [128] ++ repeat 0 zeros ++ be_bytes 8 (8 * len).

Fixpoint words (n : nat) (bs : list Z) : list Z :=
  match n with
  | O => []
  | S k =>
      match bs with
      | a :: b :: c :: d :: rest => (((a * 256 + b) * 256 + c) * 256 + d) :: words k rest
      | _ => []
      end
  end.

(** The message schedule: [win] holds the last sixteen words, oldest first. *)
Fixpoint schedule (n : nat) (win : list Z) : list Z :=
  match n with
  | O => []
  | S k =>
      let w := w32 (sigma1 (nth 14 win 0) + nth 9 win 0 + sigma0 (nth 1 win 0) + nth 0 win 0) in
      w :: schedule k (tl win ++ [w])
  end.

Definition round (st : list Z) (kw : Z * Z) : list Z :=
  match st with
  | [a; b; c; d; e; f; g; h] =>
      let t1 := h + Sigma1 e + Ch e f g + fst kw + snd kw in
      let t2 := Sigma0 a + Maj a b c in
      [w32 (t1 + t2); a; b; c; w32 (d + t1); e; f; g]
  | _ => st
  end.

Definition compress (h : list Z) (block : list Z) : list Z :=
  let w16 := words 16 block in
  let w := w16 ++ schedule 48 w16 in
  let st := fold_left round (combine K w) h in
  map (fun p => w32 (fst p + snd p)) (combine h st).

Fixpoint blocks (n : nat) (h : list Z) (bs : list Z) : list Z :=
  match n with
  | O => h
  | S k => blocks k (compress h (firstn 64 bs)) (skipn 64 bs)
  end.

Definition digest_Z (msg : list Z) : list Z :=
  let p := pad msg in
  flat_map (be_bytes 4) (blocks (List.length p / 64) H0 p).

End SHA256.

(** [hashlib.sha256(data).digest()]. *)
Definition sha256 (data : bytes) : bytes :=
  map byte_of_Z (SHA256.digest_Z (map byte_to_Z data)).

(* ------------------------------------------------------------------ *)
(** ** Python floats: rounding and printing

    A finite non-zero float is [m * 2^e] with the sign apart ([Prim2SF]).
    [round], [repr] and the [f] format of CPython work on this exact value
    (its [dtoa] is correctly rounded), so they are computed with integer
    arithmetic. *)

Module PyFloat.
Local Open Scope Z_scope.

(** The integer nearest to [n / d], ties to the even one ([0 <= n], [0 < d]). *)
Definition div_half_even (n d : Z) : Z :=
  let q := n / d in
  let r := n mod d in
  if 2 * r <? d then q
  else if d <? 2 * r then q + 1
  else if Z.even q then q else q + 1.

(** [x * 10^nd] rounded to the nearest integer, ties to even, for the
    magnitude [m * 2^e]. *)
Definition scaled (m : positive) (e : Z) (nd : Z) : Z :=
  if 0 <=? e then Zpos m * 2 ^ e * 10 ^ nd
  else div_half_even (Zpos m * 10 ^ nd) (2 ^ (- e)).

Definition finite_of_Z (s : bool) (q : Z) : spec_float :=
  match q with
  | Zpos p => S754_finite s p 0
  | _ => S754_zero s
  end.

(** [round(x, nd)] for [0 <= nd]: the decimal with [nd] places nearest to
    [x], read back as a float.  Infinities and nan round to themselves. *)
Definition round (x : float) (nd : Z) : float :=
  match Prim2SF x with
  | S754_finite s m e =>
      SF2Prim (SFdiv prec emax (finite_of_Z s (scaled m e nd))
                                (finite_of_Z false (10 ^ nd)))
  | _ => x
  end.

(** [float(n)] for an [int]; [None] is OverflowError. *)
Definition of_int (n : Z) : option float :=
  match binary_normalize prec emax n 0 false with
  | S754_infinity _ => None
  | sf => Some (SF2Prim sf)
  end.

(** [n / d] for two [int]s, [d <> 0]; [None] is OverflowError. *)
Definition int_truediv (n d : Z) : option float :=
  match SFdiv prec emax (finite_of_Z (n <? 0) (Z.abs n)) (finite_of_Z (d <? 0) (Z.abs d)) with
  | S754_infinity _ => None
  | sf => Some (SF2Prim sf)
  end.

(** *** Shortest digits ([repr])

    The magnitude is [a * v / u] in units where a candidate [d * 10^k] is
    [d]: [u / v = 10^k / 2^(e-2)] and [a = 4 m].  The floats that round to
    [x] lie between [lo] and [hi] (in the same units of [2^(e-2)]), ends
    included when [m] is even. *)

Definition pow_pos_part (b k : Z) : Z := if 0 <=? k then b ^ k else 1.

Definition unit_u (k e2 : Z) : Z := pow_pos_part 10 k * pow_pos_part 2 (- e2).
Definition unit_v (k e2 : Z) : Z := pow_pos_part 2 e2 * pow_pos_part 10 (- k).

(** The least [k >= g] with [a * 2^e2 < 10^k], looking at most [fuel] up. *)
Fixpoint decpt_from (fuel : nat) (a e2 g : Z) : Z :=
  match fuel with
  | O => g
  | S f =>
      if a * unit_v g e2 <? unit_u g e2 then g else decpt_from f a e2 (g + 1)
  end.

Definition decpt (a e2 : Z) : Z :=
  decpt_from 4 a e2 (((Z.log2 a + e2) * 30103) / 100000).

Definition within (even : bool) (lo hi c : Z) : bool :=
  if even then (lo <=? c) && (c <=? hi) else (lo <? c) && (c <? hi).

(** The [n]-digit candidate for [m * 2^e], if one reads back as it: of the
    two decimals around the value the nearer one, the even one on a tie. *)
Definition candidate (m : positive) (e : Z) (dp : Z) (n : Z) : option Z :=
  let e2 := e - 2 in
  let a := 4 * Zpos m in
  let lo := if (Zpos m =? 2 ^ 52) && (- 1074 <? e) then a - 1 else a - 2 in
  let hi := a + 2 in
  let k := dp - n in
  let u := unit_u k e2 in
  let v := unit_v k e2 in
  let d := (a * v) / u in
  let even := Z.even (Zpos m) in
  let ok_lo := within even (lo * v) (hi * v) (d * u) in
  let ok_hi := within even (lo * v) (hi * v) ((d + 1) * u) in
  match ok_lo, ok_hi with
  | true, true =>
      let below := a * v - d * u in
      let above := (d + 1) * u - a * v in
      if below <? above then Some d
      else if above <? below then Some (d + 1)
      else if Z.even d then Some d else Some (d + 1)
  | true, false => Some d
  | false, true => Some (d + 1)
  | false, false => None
  end.

Fixpoint shortest_from (fuel : nat) (m : positive) (e dp n : Z) : Z * Z :=
  match fuel with
  | O => (Zpos m, n)
  | S f =>
      match candidate m e dp n with
      | Some d => (d, n)
      | None => shortest_from f m e dp (n + 1)
      end
  end.

(** The shortest digits that read back as [m * 2^e], and the position of
    the decimal point after them: the value is [0.digits * 10^point]. *)
Definition shortest (m : positive) (e : Z) : string * Z :=
  let dp := decpt (4 * Zpos m) (e - 2) in
  let '(d, n) := shortest_from 17 m e dp 1 in
  if d =? 10 ^ n then ("1"%string, dp + 1) else (digits d, dp).

Definition exponent_text (x : Z) : string :=
  let a := Z.abs x in
  let sign : string := if x <? 0 then "-"%string else "+"%string in
  let pad : string := if a <? 10 then "0"%string else ""%string in
  (sign ++ pad ++ digits a)%string.

(** [format_float_short] with code [r]: fixed notation when
    [-4 < point <= 16], with [.0] added to an integer. *)
Definition layout (ds : string) (point : Z) : string :=
  let len := String.length ds in
  let n := Z.of_nat len in
  let tail : string :=
    if 1 <? n then ("." ++ String.substring 1 (len - 1) ds)%string else ""%string in
  if (point <=? - 4) || (16 <? point) then
    (String.substring 0 1 ds ++ tail ++ "e" ++ exponent_text (point - 1))%string
  else if point <=? 0 then
    ("0." ++ repeat_char "0" (Z.to_nat (- point)) ++ ds)%string
  else if point <? n then
    (String.substring 0 (Z.to_nat point) ds ++ "."
       ++ String.substring (Z.to_nat point) (len - Z.to_nat point) ds)%string
  else
    (ds ++ repeat_char "0" (Z.to_nat (point - n)) ++ ".0")%string.

Definition sign_text (s : bool) : string := if s then "-"%string else ""%string.

(** [repr(x)], which is also [str(x)]. *)
Definition repr (x : float) : string :=
  match Prim2SF x with
  | S754_nan => "nan"
  | S754_infinity s => sign_text s ++ "inf"
  | S754_zero s => sign_text s ++ "0.0"
  | S754_finite s m e => let '(ds, point) := shortest m e in sign_text s ++ layout ds point
  end%string.

(** [format(x, ".<nd>f")]. *)
Definition format_f (x : float) (nd : nat) : string :=
  let fixed (q : Z) : string :=
    let p := 10 ^ Z.of_nat nd in
    let frac := digits (q mod p) in
    match nd with
    | O => digits q
    | _ => (digits (q / p) ++ "." ++ repeat_char "0" (nd - String.length frac) ++ frac)%string
    end in
  match Prim2SF x with
  | S754_nan => "nan"
  | S754_infinity s => sign_text s ++ "inf"
  | S754_zero s => sign_text s ++ fixed 0
  | S754_finite s m e => sign_text s ++ fixed (scaled m e (Z.of_nat nd))
  end%string.

(** [format(x, ".<nd>%")]: the float is multiplied by 100 first. *)
Definition format_pct (x : float) (nd : nat) : string :=
  (format_f (x * 100)%float nd ++ "%")%string.

End PyFloat.

(* ------------------------------------------------------------------ *)
(** ** Python values *)

Inductive value : Type :=
| VNone
| VBool (b : bool)
| VInt (n : Z)
| VFloat (x : float)
| VStr (s : string)
| VList (items : list value)
| VDict (fields : list (string * value)).

(** A [dict] with [str] keys, in insertion order. *)
Definition dict := list (string * value).

Fixpoint lookup (d : dict) (k : string) : option value :=
  match d with
  | [] => None
  | (k', v) :: rest => if String.eqb k k' then Some v else lookup rest k
  end.

(** [d.get(k, dflt)] and [d.get(k)]. *)
Definition get_or (d : dict) (k : string) (dflt : value) : value :=
  match lookup d k with
  | Some v => v
  | None => dflt
  end.

Definition get (d : dict) (k : string) : value := get_or d k VNone.

(** [d[k] = v]: the value is replaced in place, a new key goes last. *)
Fixpoint dict_set (d : dict) (k : string) (v : value) : dict :=
  match d with
  | [] => [(k, v)]
  | (k', v') :: rest =>
      if String.eqb k k' then (k, v) :: rest else (k', v') :: dict_set rest k v
  end.

(** [d.update(other)]. *)
Definition dict_update (d other : dict) : dict :=
  fold_left (fun acc kv => dict_set acc (fst kv) (snd kv)) other d.

Definition keys (d : dict) : list string := map fst d.

(** *** Numbers: [int], [float], and [bool] as the [int] it is *)

Inductive num : Type :=
| NInt (n : Z)
| NFloat (x : float).

Definition num_of (v : value) : option num :=
  match v with
  | VBool b => Some (NInt (if b then 1 else 0))
  | VInt n => Some (NInt n)
  | VFloat x => Some (NFloat x)
  | _ => None
  end.

(** An [int] against a [float], by their exact values; [None] with nan. *)
Definition cmp_int_float (n : Z) (x : float) : option comparison :=
  match Prim2SF x with
  | S754_nan => None
  | S754_infinity s => Some (if s then Gt else Lt)
  | S754_zero _ => Some (n ?= 0)%Z
  | S754_finite s m e =>
      let f := if s then Zneg m else Zpos m in
      Some (if (0 <=? e)%Z then (n ?= f * 2 ^ e)%Z else (n * 2 ^ (- e) ?= f)%Z)
  end.

Definition num_compare (a b : num) : option comparison :=
  match a, b with
  | NInt x, NInt y => Some (x ?= y)%Z
  | NInt x, NFloat y => cmp_int_float x y
  | NFloat x, NInt y => option_map CompOpp (cmp_int_float y x)
  | NFloat x, NFloat y =>
      match PrimFloat.compare x y with
      | FEq => Some Eq
      | FLt => Some Lt
      | FGt => Some Gt
      | FNotComparable => None
      end
  end.

Definition num_eqb (a b : num) : bool :=
  match num_compare a b with
  | Some Eq => true
  | _ => false
  end.

Definition num_gtb (a b : num) : bool :=
  match num_compare a b with
  | Some Gt => true
  | _ => false
  end.

(** [a == b].  Numbers compare by value across [bool], [int] and [float];
    dicts compare as maps.  (A nan inside a list or dict is compared by
    value too, where CPython would first try identity.) *)
Fixpoint py_eq (a b : value) {struct a} : bool :=
  match a, b with
  | VNone, VNone => true
  | VStr s, VStr t => String.eqb s t
  | VList xs, VList ys =>
      (fix all2 (xs ys : list value) {struct xs} : bool :=
         match xs, ys with
         | [], [] => true
         | x :: xs', y :: ys' => py_eq x y && all2 xs' ys'
         | _, _ => false
         end) xs ys
  | VDict d, VDict e =>
      Nat.eqb (List.length d) (List.length e) &&
      (fix each (d : list (string * value)) : bool :=
         match d with
         | [] => true
         | (k, v) :: d' =>
             match lookup e k with
             | Some w => py_eq v w
             | None => false
             end && each d'
         end) d
  | _, _ =>
      match num_of a, num_of b with
      | Some x, Some y => num_eqb x y
      | _, _ => false
      end
  end.

(** [bool(v)]. *)
Definition truthy (v : value) : bool :=
  match v with
  | VNone => false
  | VBool b => b
  | VInt n => negb (n =? 0)%Z
  | VFloat x => negb (PrimFloat.eqb x 0)
  | VStr s => negb (String.eqb s "")
  | VList xs => match xs with [] => false | _ => true end
  | VDict d => match d with [] => false | _ => true end
  end.

(** *** [str] and [repr] *)

Definition dquote : ascii := ascii_of_N 34.
Definition squote : ascii := ascii_of_N 39.
Definition backslash : ascii := ascii_of_N 92.

Definition hex2 (n : Z) : string :=
  String (hex_digit (n / 16)) (String (hex_digit (n mod 16)) EmptyString).

(** [str.isprintable] on the code points below 256. *)
Definition printable (n : Z) : bool :=
  ((32 <=? n) && (n <? 127) || (161 <=? n) && negb (n =? 173))%Z.

Definition repr_char (quote c : ascii) : string :=
  let n := code c in
  if Ascii.eqb c backslash then String backslash (String backslash EmptyString)
  else if Ascii.eqb c quote then String backslash (String quote EmptyString)
  else if (n =? 9)%Z then String backslash "t"
  else if (n =? 10)%Z then String backslash "n"
  else if (n =? 13)%Z then String backslash "r"
  else if printable n then String c EmptyString
  else (String backslash "x" ++ hex2 n)%string.

Fixpoint flat_chars (f : ascii -> string) (s : string) : string :=
  match s with
  | EmptyString => EmptyString
  | String c rest => (f c ++ flat_chars f rest)%string
  end.

(** [repr(s)] for a [str]: single quotes, unless the text has one and has no
    double quote. *)
Definition repr_str (s : string) : string :=
  let quote := if contains_char squote s && negb (contains_char dquote s)
               then dquote else squote in
  String quote (flat_chars (repr_char quote) s ++ String quote EmptyString).

Definition str_float (x : float) : string := PyFloat.repr x.

Fixpoint py_repr (v : value) : string :=
  match v with
  | VNone => "None"
  | VBool b => if b then "True" else "False"
  | VInt n => str_int n
  | VFloat x => str_float x
  | VStr s => repr_str s
  | VList xs => "[" ++ String.concat ", " (map py_repr xs) ++ "]"
  | VDict d =>
      "{" ++ String.concat ", "
               (map (fun kv : string * value =>
                       let (k, w) := kv in repr_str k ++ ": " ++ py_repr w) d) ++ "}"
  end%string.

(** [str(v)]. *)
Definition py_str (v : value) : string :=
  match v with
  | VStr s => s
  | _ => py_repr v
  end.

(** *** [json.dumps(v, sort_keys=True)] *)

(** [ensure_ascii] escaping of one character. *)
Definition json_escape (c : ascii) : string :=
  let n := code c in
  if (n =? 34)%Z then String backslash (String dquote EmptyString)
  else if (n =? 92)%Z then String backslash (String backslash EmptyString)
  else if (n =? 10)%Z then String backslash "n"
  else if (n =? 13)%Z then String backslash "r"
  else if (n =? 9)%Z then String backslash "t"
  else if (n =? 12)%Z then String backslash "f"
  else if (n =? 8)%Z then String backslash "b"
  else if ((32 <=? n) && (n <? 127))%Z then String c EmptyString
  else (String backslash "u00" ++ hex2 n)%string.

Definition json_string (s : string) : string :=
  String dquote (flat_chars json_escape s ++ String dquote EmptyString).

Definition json_float (x : float) : string :=
  match Prim2SF x with
  | S754_nan => "NaN"
  | S754_infinity s => if s then "-Infinity" else "Infinity"
  | _ => PyFloat.repr x
  end%string.

(** [sorted] on the items of a dict, by key (the keys are distinct). *)
Fixpoint insert_item (kv : string * string) (l : list (string * string)) : list (string * string) :=
  match l with
  | [] => [kv]
  | x :: rest =>
      if String.leb (fst kv) (fst x) then kv :: l else x :: insert_item kv rest
  end.

Definition sort_items (l : list (string * string)) : list (string * string) :=
  fold_right insert_item [] l.

Definition json_item (kv : string * string) : string :=
  (json_string (fst kv) ++ ": " ++ snd kv)%string.

(** The values of a dict are rendered first and the rendered items sorted by
    key, which gives the text of rendering the sorted items. *)
Fixpoint json_dumps (v : value) : string :=
  match v with
  | VNone => "null"
  | VBool b => if b then "true" else "false"
  | VInt n => str_int n
  | VFloat x => json_float x
  | VStr s => json_string s
  | VList xs => "[" ++ String.concat ", " (map json_dumps xs) ++ "]"
  | VDict d =>
      "{" ++ String.concat ", "
               (map json_item
                  (sort_items
                     (map (fun kv : string * value =>
                             let (k, w) := kv in (k, json_dumps w)) d))) ++ "}"
  end%string.

(* ------------------------------------------------------------------ *)
(** ** Effects: the ledger, the clock, exceptions *)

Record World : Type := { ledger : list dict; ticks : nat }.

Inductive exn : Type :=
| StopRule (msg : string)
| PyError (kind : string).

Inductive outcome (A : Type) : Type :=
| Return (a : A)
| Raise (e : exn).

Arguments Return {A} a.
Arguments Raise {A} e.

Definition M (A : Type) : Type := World -> World * outcome A.

Definition ret {A : Type} (a : A) : M A := fun w => (w, Return a).

Definition raise {A : Type} (e : exn) : M A := fun w => (w, Raise e).

Definition bind {A B : Type} (m : M A) (f : A -> M B) : M B :=
  fun w =>
    match m w with
    | (w', Return a) => f a w'
    | (w', Raise e) => (w', Raise e)
    end.

Declare Scope py_scope.
Delimit Scope py_scope with py.
Notation "x <- m ;; k" := (bind m (fun x => k))
  (at level 61, m at next level, right associativity) : py_scope.
Notation "m ;;; k" := (bind m (fun _ => k))
  (at level 61, right associativity) : py_scope.

(** Lifting a computation that can raise and touches nothing. *)
Definition lift {A : Type} (o : outcome A) : M A := fun w => (w, o).

Definition world_of {A : Type} (r : World * outcome A) : World := fst r.
Definition result_of {A : Type} (r : World * outcome A) : outcome A := snd r.

(* ------------------------------------------------------------------ *)
(** ** [src/core.py] *)

Definition DEFAULT_TENANT : string := "fishoilproof-demo".

Section Core.

(** [blake3.blake3(data).digest()]. *)
Variable blake3 : bytes -> bytes.

(** The value [datetime.now(timezone.utc).isoformat()] gives at its n-th
    call. *)
Variable clock : nat -> string.

Definition dual_hash (data : bytes) : string :=
  ("SHA256_" ++ hex (sha256 data) ++ ":BLAKE3_" ++ hex (blake3 data))%string.

(** One pass of the loop of [merkle_root]: nodes paired left to right, an
    odd last one with itself. *)
Fixpoint merkle_level (leaves : list bytes) : list bytes :=
  match leaves with
  | a :: b :: rest => blake3 (a ++ b) :: merkle_level rest
  | [a] => [blake3 (a ++ a)]
  | [] => []
  end.

(** [while len(leaves) > 1]; the fuel bounds the number of passes. *)
Fixpoint merkle_loop (fuel : nat) (leaves : list bytes) : list bytes :=
  match fuel with
  | O => leaves
  | S f =>
      if (1 <? List.length leaves)%nat then merkle_loop f (merkle_level leaves)
      else leaves
  end.

(** [merkle_root(items)] for a list of [str]. *)
Definition merkle_root (items : list string) : string :=
  match items with
  | [] => hex (blake3 (encode_utf8 "empty"))
  | _ =>
      let leaves := map (fun item => blake3 (encode_utf8 item)) items in
      match merkle_loop (List.length leaves) leaves with
      | root :: _ => hex root
      | [] => EmptyString
      end
  end.

Definition utc_now : M string :=
  fun w => ({| ledger := ledger w; ticks := S (ticks w) |}, Return (clock (ticks w))).

(** One line appended to the ledger file. *)
Definition append_line (receipt : dict) : M unit :=
  fun w => ({| ledger := ledger w ++ [receipt]; ticks := ticks w |}, Return tt).

Definition emit_receipt (receipt_type : string) (payload : dict) (tenant_id : value) : M dict :=
  (ts <- utc_now ;;
   let tenant := if truthy tenant_id then tenant_id else VStr DEFAULT_TENANT in
   let receipt := [("receipt_type"%string, VStr receipt_type);
                   ("ts"%string, VStr ts);
                   ("tenant_id"%string, tenant)] in
   let receipt := dict_update receipt payload in
   let payload_bytes := encode_utf8 (json_dumps (VDict receipt)) in
   let receipt := dict_set receipt "payload_hash" (VStr (dual_hash payload_bytes)) in
   let field_values := map (fun kv : string * value => py_str (snd kv)) receipt in
   let receipt := dict_set receipt "merkle_root" (VStr (merkle_root field_values)) in
   append_line receipt ;;;
   ret receipt)%py.

Definition load_ledger : M (list dict) := fun w => (w, Return (ledger w)).

Definition find_receipt (receipt_type key : string) (v : value) : M (option dict) :=
  (receipts <- load_ledger ;;
   ret (find (fun receipt : dict =>
                py_eq (get receipt "receipt_type") (VStr receipt_type)
                && py_eq (get receipt key) v) receipts))%py.

Definition verify_dual_hash (data : bytes) (expected_hash : string) : bool :=
  String.eqb (dual_hash data) expected_hash.

(* ------------------------------------------------------------------ *)
(** ** [src/chain.py] *)

Definition is_hash_field (k : string) : bool :=
  String.eqb k "payload_hash" || String.eqb k "merkle_root".

Definition verify_single_receipt (receipt : dict) : bool :=
  let stored_hash := get receipt "payload_hash" in
  if negb (truthy stored_hash) then false
  else
    let check := filter (fun kv : string * value => negb (is_hash_field (fst kv))) receipt in
    let payload_bytes := encode_utf8 (json_dumps (VDict check)) in
    let computed := dual_hash payload_bytes in
    py_eq (VStr computed) stored_hash.

Definition _find_receipt_by_hash (payload_hash : value) (receipts : list dict) : option dict :=
  find (fun r : dict => py_eq (get r "payload_hash") payload_hash) receipts.

Definition _find_distribution_by_lot (lot : string) (receipts : list dict) : option dict :=
  find (fun r : dict =>
          py_eq (get r "receipt_type") (VStr "distribution")
          && py_eq (get r "lot_number") (VStr lot)) receipts.

Definition _find_encapsulation_by_lot (lot : string) (receipts : list dict) : option dict :=
  find (fun r : dict =>
          py_eq (get r "receipt_type") (VStr "encapsulation")
          && py_eq (get r "lot_number") (VStr lot)) receipts.

(** [if not r] for the result of a lookup: [None] or an empty dict. *)
Definition present (o : option dict) : option dict :=
  match o with
  | Some r => if truthy (VDict r) then Some r else None
  | None => None
  end.

(** [v[:40]]; [None] is the TypeError of a value that has no slices. *)
Definition slice40 (v : value) : option value :=
  match v with
  | VStr s => Some (VStr (String.substring 0 40 s))
  | VList xs => Some (VList (firstn 40 xs))
  | _ => None
  end.

Record chain_result : Type := {
  lot_number : string;
  chain_length : nat;
  chain_valid : bool;
  receipts : list (value * dict);
  errors : list string;
  verified_at : string
}.

(** The loop over the expected types [testing], [processing], [catch]:
    the receipts collected and the errors found; [break] ends it. *)
Fixpoint walk_back (expected : list string) (all : list dict) (current : dict)
    (chain : list dict) (errs : list string) : outcome (list dict * list string) :=
  match expected with
  | [] => Return (chain, errs)
  | expected_type :: more =>
      let prev_hash := get current "previous_hash" in
      if negb (truthy prev_hash) then
        Return (chain,
                errs ++ ["Missing previous_hash on " ++ py_str (get current "receipt_type")
                         ++ " receipt"]%string)
      else
        match present (_find_receipt_by_hash prev_hash all) with
        | None =>
            match slice40 prev_hash with
            | Some shown =>
                Return (chain,
                        errs ++ ["Cannot find receipt with hash " ++ py_str shown ++ "..."]%string)
            | None => Raise (PyError "TypeError")
            end
        | Some prev_receipt =>
            let errs' :=
              if negb (py_eq (get prev_receipt "receipt_type") (VStr expected_type)) then
                errs ++ ["Expected " ++ expected_type ++ " receipt but found "
                         ++ py_str (get prev_receipt "receipt_type")]%string
              else errs in
            walk_back more all prev_receipt (chain ++ [prev_receipt]) errs'
        end
  end.

Definition hash_errors (chain : list dict) : list string :=
  flat_map (fun r : dict =>
              if verify_single_receipt r then []
              else ["Hash verification failed for " ++ py_str (get r "receipt_type")
                    ++ " receipt"]%string) chain.

Definition hashable (v : value) : bool :=
  match v with
  | VList _ | VDict _ => false
  | _ => true
  end.

(** [d[k] = r] on a dict keyed by values. *)
Fixpoint assoc_set (d : list (value * dict)) (k : value) (r : dict) : list (value * dict) :=
  match d with
  | [] => [(k, r)]
  | (k', r') :: rest =>
      if py_eq k k' then (k', r) :: rest else (k', r') :: assoc_set rest k r
  end.

(** [for r in chain: result["receipts"][r.get("receipt_type")] = r]. *)
Fixpoint by_type (chain : list dict) (acc : list (value * dict)) : outcome (list (value * dict)) :=
  match chain with
  | [] => Return acc
  | r :: rest =>
      let k := get r "receipt_type" in
      if hashable k then by_type rest (assoc_set acc k r)
      else Raise (PyError "TypeError")
  end.

Definition verify_chain (lot : string) : M chain_result :=
  (all <- load_ledger ;;
   now <- utc_now ;;
   let result errs n valid rs :=
     {| lot_number := lot; chain_length := n; chain_valid := valid;
        receipts := rs; errors := errs; verified_at := now |} in
   match present (_find_distribution_by_lot lot all) with
   | None =>
       ret (result ["No distribution receipt found for lot " ++ lot]%string 0%nat false [])
   | Some dist =>
       match present (_find_encapsulation_by_lot lot all) with
       | None =>
           ret (result ["No encapsulation receipt found for lot " ++ lot]%string 0%nat false [])
       | Some encap =>
           let errs :=
             if negb (py_eq (get dist "previous_hash") (get encap "payload_hash")) then
               ["Distribution previous_hash does not match encapsulation payload_hash"%string]
             else [] in
           walked <- lift (walk_back ["testing"; "processing"; "catch"]%string all encap
                             [dist; encap] errs) ;;
           let chain := fst walked in
           let errs := snd walked ++ hash_errors chain in
           rs <- lift (by_type chain []) ;;
           ret (result errs (List.length chain)
                  (Nat.eqb (List.length errs) 0 && Nat.eqb (List.length chain) 5) rs)
       end
   end)%py.

(* ------------------------------------------------------------------ *)
(** ** Numbers held in values: comparison, division, formatting *)

Local Open Scope string_scope.

(** [v > c] for a number [c]; a value that is no number raises TypeError. *)
Definition gt_num (v : value) (c : num) : outcome bool :=
  match num_of v with
  | Some n => Return (num_gtb n c)
  | None => Raise (PyError "TypeError")
  end.

Definition float_of_num (n : num) : outcome float :=
  match n with
  | NFloat x => Return x
  | NInt z =>
      match PyFloat.of_int z with
      | Some x => Return x
      | None => Raise (PyError "OverflowError")
      end
  end.

(** [a / b]. *)
Definition py_truediv (a b : value) : outcome float :=
  match num_of a, num_of b with
  | Some (NInt x), Some (NInt y) =>
      if (y =? 0)%Z then Raise (PyError "ZeroDivisionError")
      else match PyFloat.int_truediv x y with
           | Some q => Return q
           | None => Raise (PyError "OverflowError")
           end
  | Some x, Some y =>
      match float_of_num x, float_of_num y with
      | Return fx, Return fy =>
          if PrimFloat.eqb fy 0 then Raise (PyError "ZeroDivisionError")
          else Return (fx / fy)%float
      | Raise e, _ => Raise e
      | _, Raise e => Raise e
      end
  | _, _ => Raise (PyError "TypeError")
  end.

(** [format(v, spec)] for the specs [.<nd>f] and [.<nd>%]: a number is
    formatted as the float it converts to. *)
Definition format_with (fmt : float -> nat -> string) (v : value) (nd : nat) : outcome string :=
  match v with
  | VStr _ => Raise (PyError "ValueError")
  | _ =>
      match num_of v with
      | Some n =>
          match float_of_num n with
          | Return x => Return (fmt x nd)
          | Raise e => Raise e
          end
      | None => Raise (PyError "TypeError")
      end
  end.

Definition format_fixed : value -> nat -> outcome string := format_with PyFloat.format_f.
Definition format_percent : value -> nat -> outcome string := format_with PyFloat.format_pct.

(** [v.get]: only a dict has it. *)
Definition as_dict (v : value) : outcome dict :=
  match v with
  | VDict d => Return d
  | _ => Raise (PyError "AttributeError")
  end.

Definition mem_str (s : string) (l : list string) : bool := existsb (String.eqb s) l.

Definition opt_str (o : option string) : value :=
  match o with
  | Some s => VStr s
  | None => VNone
  end.

(* ------------------------------------------------------------------ *)
(** ** [src/catch.py] *)

Definition APPROVED_SPECIES : list (string * string) :=
  [ ("Engraulis ringens", "Peruvian Anchoveta");
    ("Sardina pilchardus", "European Sardine");
    ("Brevoortia tyrannus", "Atlantic Menhaden");
    ("Brevoortia patronus", "Gulf Menhaden");
    ("Clupea harengus", "Atlantic Herring");
    ("Scomber scombrus", "Atlantic Mackerel");
    ("Mallotus villosus", "Capelin");
    ("Salmo salar", "Atlantic Salmon");
    ("Oncorhynchus mykiss", "Rainbow Trout");
    ("Gadus morhua", "Atlantic Cod");
    ("Pollachius virens", "Pollock");
    ("Thunnus albacares", "Yellowfin Tuna");
    ("Katsuwonus pelamis", "Skipjack Tuna");
    ("Sprattus sprattus", "European Sprat");
    ("Micromesistius poutassou", "Blue Whiting") ]%string.

Definition FISHERY_CERT_TYPES : list string := ["MSC"; "FriendOfSea"; "None"]%string.

Fixpoint species_common_name (table : list (string * string)) (species : string) : option string :=
  match table with
  | [] => None
  | (k, v) :: rest => if String.eqb species k then Some v else species_common_name rest species
  end.

Definition validate_species (species : string) : bool :=
  match species_common_name APPROVED_SPECIES species with
  | Some _ => true
  | None => false
  end.

Definition create_catch_receipt (species fishery_registry import_docs_hash fishery_cert_type : string)
    (fishery_cert_id fishery_cert_hash : option string) (tenant_id : option string) : M dict :=
  if negb (validate_species species) then
    raise (StopRule ("Species not FDA-approved for fish oil: " ++ species))
  else if negb (mem_str fishery_cert_type FISHERY_CERT_TYPES) then
    raise (StopRule ("Invalid fishery cert type: " ++ fishery_cert_type))
  else if negb (String.eqb fishery_cert_type "None") && negb (truthy (opt_str fishery_cert_hash)) then
    raise (StopRule ("Fishery cert type " ++ fishery_cert_type
                     ++ " claimed but no cert hash provided"))
  else
    match species_common_name APPROVED_SPECIES species with
    | None => raise (PyError "KeyError")
    | Some species_common =>
        let payload :=
          [ ("species", VStr species);
            ("species_common", VStr species_common);
            ("fishery_approved", VBool true);
            ("fishery_registry", VStr fishery_registry);
            ("import_docs_hash", VStr import_docs_hash);
            ("fishery_cert_type", VStr fishery_cert_type);
            ("fishery_cert_id", opt_str fishery_cert_id);
            ("fishery_cert_hash", opt_str fishery_cert_hash) ] in
        emit_receipt "catch" payload (opt_str tenant_id)
    end%string.

(* ------------------------------------------------------------------ *)
(** ** [src/processing.py] *)

Definition EXTRACTION_METHODS : list string :=
  ["MolecularDistillation"; "Winterization"; "SupercriticalCO2"]%string.
Definition GMP_CERT_TYPES : list string := ["NSF"; "USP"; "Other"]%string.

(** 0.12 and 0.18 as the floats Python reads them. *)
Definition YIELD_MIN : float := 0x1.eb851eb851eb8p-4%float.
Definition YIELD_MAX : float := 0x1.70a3d70a3d70ap-3%float.

Definition validate_yield (input_kg output_kg : float) : outcome (float * string) :=
  if (input_kg <=? 0)%float || (output_kg <=? 0)%float then
    Raise (StopRule ("Invalid yield values: input=" ++ str_float input_kg
                     ++ ", output=" ++ str_float output_kg))
  else
    let ratio := (output_kg / input_kg)%float in
    if (ratio <? YIELD_MIN)%float then Return (ratio, "LOW")
    else if (YIELD_MAX <? ratio)%float then Return (ratio, "HIGH_DILUTION_FLAG")
    else Return (ratio, "NORMAL")%string.

Definition link_to_catch (batch_id : string) : M (option dict) :=
  find_receipt "catch" "batch_id" (VStr batch_id).

Definition create_processing_receipt
    (facility_id facility_name gmp_cert_type gmp_cert_id gmp_cert_hash batch_id
       extraction_method : string)
    (extraction_temp_c yield_input_kg yield_output_kg : float)
    (previous_hash : string) (tenant_id : option string) : M dict :=
  if negb (mem_str gmp_cert_type GMP_CERT_TYPES) then
    raise (StopRule ("Invalid GMP cert type: " ++ gmp_cert_type))
  else if negb (mem_str extraction_method EXTRACTION_METHODS) then
    raise (StopRule ("Invalid extraction method: " ++ extraction_method))
  else if negb (contains_char ":" gmp_cert_hash) then
    raise (StopRule "GMP cert hash must be dual-hash format (SHA256:BLAKE3)")
  else
    (yielded <- lift (validate_yield yield_input_kg yield_output_kg) ;;
     let yield_ratio := fst yielded in
     let yield_status := snd yielded in
     let payload :=
       [ ("facility_id", VStr facility_id);
         ("facility_name", VStr facility_name);
         ("gmp_cert_type", VStr gmp_cert_type);
         ("gmp_cert_id", VStr gmp_cert_id);
         ("gmp_cert_hash", VStr gmp_cert_hash);
         ("batch_id", VStr batch_id);
         ("extraction_method", VStr extraction_method);
         ("extraction_temp_c", VFloat extraction_temp_c);
         ("yield_input_kg", VFloat yield_input_kg);
         ("yield_output_kg", VFloat yield_output_kg);
         ("yield_ratio", VFloat (PyFloat.round yield_ratio 4));
         ("yield_expected_min", VFloat YIELD_MIN);
         ("yield_expected_max", VFloat YIELD_MAX);
         ("yield_status", VStr yield_status);
         ("previous_hash", VStr previous_hash) ]%string in
     emit_receipt "processing" payload (opt_str tenant_id))%py.

(* ------------------------------------------------------------------ *)
(** ** [src/testing.py] *)

Definition LAB_CERT_TYPES : list string := ["ISO17025"; "Other"].

(** The GOED/FDA limits 0.1, 0.09, 3.0, 5.0, 20.0 and 26.0. *)
Definition LIMITS : list (string * float) :=
  [ ("mercury_ppm", 0x1.999999999999ap-4%float);
    ("pcbs_ppm", 0x1.70a3d70a3d70ap-4%float);
    ("dioxins_pg_per_g", 3%float);
    ("peroxide_meq_per_kg", 5%float);
    ("anisidine", 20%float);
    ("totox", 26%float) ].

(** [LIMITS[k]] for a key of the table. *)
Definition limit (k : string) : float :=
  match find (fun kv : string * float => String.eqb k (fst kv)) LIMITS with
  | Some kv => snd kv
  | None => PrimFloat.nan
  end.

(** 0.95. *)
Definition POTENCY_THRESHOLD : float := 0x1.e666666666666p-1%float.

Definition TOTOX_WARNING : float := 19%float.

Definition validate_contaminants (mercury pcbs dioxins : float) : dict :=
  let mercury_pass := (mercury <=? limit "mercury_ppm")%float in
  let pcbs_pass := (pcbs <=? limit "pcbs_ppm")%float in
  let dioxins_pass := (dioxins <=? limit "dioxins_pg_per_g")%float in
  [ ("mercury_ppm", VFloat mercury);
    ("mercury_pass", VBool mercury_pass);
    ("pcbs_ppm", VFloat pcbs);
    ("pcbs_pass", VBool pcbs_pass);
    ("dioxins_pg_per_g", VFloat dioxins);
    ("dioxins_pass", VBool dioxins_pass);
    ("all_pass", VBool (mercury_pass && pcbs_pass && dioxins_pass)) ].

Definition validate_potency (epa_mg dha_mg label_claim_mg : float) : dict :=
  let total := (epa_mg + dha_mg)%float in
  let potency_pass := (label_claim_mg * POTENCY_THRESHOLD <=? total)%float in
  [ ("epa_mg", VFloat epa_mg);
    ("dha_mg", VFloat dha_mg);
    ("total_omega3_mg", VFloat total);
    ("label_claim_mg", VFloat label_claim_mg);
    ("potency_pass", VBool potency_pass) ].

Definition validate_oxidation (peroxide anisidine : float) : dict :=
  let totox := (2 * peroxide + anisidine)%float in
  let oxidation_pass :=
    (peroxide <=? limit "peroxide_meq_per_kg")%float
    && (anisidine <=? limit "anisidine")%float
    && (totox <=? limit "totox")%float in
  [ ("peroxide_meq_per_kg", VFloat peroxide);
    ("anisidine", VFloat anisidine);
    ("totox", VFloat (PyFloat.round totox 2));
    ("oxidation_pass", VBool oxidation_pass) ].

Definition _emit_testing (lab_name lab_cert_type lab_cert_id lab_cert_hash batch_id : string)
    (contaminants potency oxidation : dict) (overall_pass : bool)
    (previous_hash : string) (tenant_id : option string) : M dict :=
  let payload :=
    [ ("lab_name", VStr lab_name);
      ("lab_cert_type", VStr lab_cert_type);
      ("lab_cert_id", VStr lab_cert_id);
      ("lab_cert_hash", VStr lab_cert_hash);
      ("batch_id", VStr batch_id);
      ("contaminants", VDict contaminants);
      ("potency", VDict potency);
      ("oxidation", VDict oxidation);
      ("overall_pass", VBool overall_pass);
      ("previous_hash", VStr previous_hash) ] in
  emit_receipt "testing" payload (opt_str tenant_id).

(** One entry of [failed]. *)
Definition failed_entry (name : string) (measured : float) (unit key : string) : string :=
  name ++ "=" ++ str_float measured ++ unit ++ " (limit " ++ str_float (limit key) ++ ")".

(** The entries of [failed], in the order they are appended. *)
Definition failed_contaminants (contaminants : dict)
    (mercury_ppm pcbs_ppm dioxins_pg_per_g : float) : list string :=
  List.app
    (if negb (truthy (get contaminants "mercury_pass"))
     then [failed_entry "mercury" mercury_ppm "ppm" "mercury_ppm"] else [])
    (List.app
       (if negb (truthy (get contaminants "pcbs_pass"))
        then [failed_entry "pcbs" pcbs_ppm "ppm" "pcbs_ppm"] else [])
       (if negb (truthy (get contaminants "dioxins_pass"))
        then [failed_entry "dioxins" dioxins_pg_per_g "pg/g" "dioxins_pg_per_g"] else [])).

Definition create_testing_receipt
    (lab_name lab_cert_type lab_cert_id lab_cert_hash batch_id : string)
    (mercury_ppm pcbs_ppm dioxins_pg_per_g epa_mg dha_mg label_claim_mg
       peroxide_meq_per_kg anisidine : float)
    (previous_hash : string) (tenant_id : option string) : M dict :=
  if negb (mem_str lab_cert_type LAB_CERT_TYPES) then
    raise (StopRule ("Invalid lab cert type: " ++ lab_cert_type))
  else if negb (contains_char ":" lab_cert_hash) then
    raise (StopRule "Lab cert hash must be dual-hash format (SHA256:BLAKE3)")
  else
    let contaminants := validate_contaminants mercury_ppm pcbs_ppm dioxins_pg_per_g in
    let potency := validate_potency epa_mg dha_mg label_claim_mg in
    let oxidation := validate_oxidation peroxide_meq_per_kg anisidine in
    let overall_pass :=
      truthy (get contaminants "all_pass")
      && truthy (get potency "potency_pass")
      && truthy (get oxidation "oxidation_pass") in
    let emit :=
      _emit_testing lab_name lab_cert_type lab_cert_id lab_cert_hash batch_id
        contaminants potency oxidation overall_pass previous_hash tenant_id in
    if negb (truthy (get contaminants "all_pass")) then
      let failed := failed_contaminants contaminants mercury_ppm pcbs_ppm dioxins_pg_per_g in
      (receipt <- emit ;;
       raise (StopRule ("CONTAMINANT_EXCEED: " ++ String.concat ", " failed
                        ++ ". Receipt emitted: " ++ py_str (get receipt "payload_hash"))))%py
    else
      (rancid <- lift (gt_num (get oxidation "totox") (NFloat (limit "totox"))) ;;
       if (rancid : bool) then
         receipt <- emit ;;
         raise (StopRule ("TOTOX_EXCEED: " ++ py_str (get oxidation "totox") ++ " > "
                          ++ str_float (limit "totox")
                          ++ ". Receipt emitted: " ++ py_str (get receipt "payload_hash")))
       else emit)%py.

(* ------------------------------------------------------------------ *)
(** ** [src/encapsulation.py] *)

Section Encapsulation.

(** Whether [datetime.fromisoformat] accepts the text. *)
Variable fromisoformat_ok : string -> bool.

Definition FACILITY_CERT_TYPES : list string := ["NSF"; "USP"; "Other"].

Definition link_to_testing (batch_id : string) : M (option dict) :=
  find_receipt "testing" "batch_id" (VStr batch_id).

Definition create_encapsulation_receipt
    (facility_id facility_name facility_cert_type facility_cert_id facility_cert_hash
       lot fill_date batch_id : string)
    (capsule_count : Z) (mg_per_capsule : float)
    (previous_hash : string) (tenant_id : option string) : M dict :=
  if negb (mem_str facility_cert_type FACILITY_CERT_TYPES) then
    raise (StopRule ("Invalid facility cert type: " ++ facility_cert_type))
  else if negb (contains_char ":" facility_cert_hash) then
    raise (StopRule "Facility cert hash must be dual-hash format (SHA256:BLAKE3)")
  else
    (existing <- load_ledger ;;
     if existsb (fun r : dict =>
                   py_eq (get r "receipt_type") (VStr "encapsulation")
                   && py_eq (get r "lot_number") (VStr lot)) existing then
       raise (StopRule ("Lot number already exists: " ++ lot))
     else if negb (fromisoformat_ok fill_date) then
       raise (StopRule ("Invalid fill_date format (must be ISO8601): " ++ fill_date))
     else
       let payload :=
         [ ("facility_id", VStr facility_id);
           ("facility_name", VStr facility_name);
           ("facility_cert_type", VStr facility_cert_type);
           ("facility_cert_id", VStr facility_cert_id);
           ("facility_cert_hash", VStr facility_cert_hash);
           ("lot_number", VStr lot);
           ("fill_date", VStr fill_date);
           ("batch_id", VStr batch_id);
           ("capsule_count", VInt capsule_count);
           ("mg_per_capsule", VFloat mg_per_capsule);
           ("previous_hash", VStr previous_hash) ] in
       emit_receipt "encapsulation" payload (opt_str tenant_id))%py.

End Encapsulation.

(* ------------------------------------------------------------------ *)
(** ** [src/distribution.py] *)

Definition link_to_encapsulation (lot : string) : M (option dict) :=
  find_receipt "encapsulation" "lot_number" (VStr lot).

Definition cold_chain_untracked : dict :=
  [ ("enabled", VBool false);
    ("avg_temp_c", VNone);
    ("min_temp_c", VNone);
    ("max_temp_c", VNone);
    ("duration_days", VInt 0);
    ("deviations_count", VInt 0);
    ("temp_log_hash", VNone);
    ("cold_chain_pass", VBool false) ].

Definition create_distribution_receipt
    (distributor_id distributor_name warehouse_id warehouse_location lot : string)
    (cold_chain_data : option dict) (previous_hash : string)
    (tenant_id : option string) : M dict :=
  let cold_chain_data :=
    match cold_chain_data with
    | Some d => d
    | None => cold_chain_untracked
    end in
  let payload :=
    [ ("distributor_id", VStr distributor_id);
      ("distributor_name", VStr distributor_name);
      ("warehouse_id", VStr warehouse_id);
      ("warehouse_location", VStr warehouse_location);
      ("lot_number", VStr lot);
      ("cold_chain", VDict cold_chain_data);
      ("previous_hash", VStr previous_hash) ] in
  emit_receipt "distribution" payload (opt_str tenant_id).

(* ------------------------------------------------------------------ *)
(** ** [src/fraud.py] *)

Definition detect_yield_anomaly (processing_receipt : dict) : M (option dict) :=
  let yield_status := get processing_receipt "yield_status" in
  let yield_ratio := get_or processing_receipt "yield_ratio" (VInt 0) in
  if py_eq yield_status (VStr "HIGH_DILUTION_FLAG") then
    (shown <- lift (format_percent yield_ratio 1) ;;
     anomaly <- emit_receipt "anomaly"
       [ ("anomaly_type", VStr "YIELD_HIGH");
         ("severity", VStr "FLAG");
         ("source_receipt_hash", get_or processing_receipt "payload_hash" (VStr ""));
         ("details", VDict
            [ ("yield_ratio", yield_ratio);
              ("yield_input_kg", get processing_receipt "yield_input_kg");
              ("yield_output_kg", get processing_receipt "yield_output_kg");
              ("expected_max", get_or processing_receipt "yield_expected_max" (VFloat YIELD_MAX));
              ("message", VStr ("Yield " ++ shown
                 ++ " exceeds expected max 18%. Possible dilution with cheaper oils.")) ]) ]
       (get processing_receipt "tenant_id") ;;
     ret (Some anomaly))%py
  else if py_eq yield_status (VStr "LOW") then
    (shown <- lift (format_percent yield_ratio 1) ;;
     anomaly <- emit_receipt "anomaly"
       [ ("anomaly_type", VStr "YIELD_LOW");
         ("severity", VStr "WARNING");
         ("source_receipt_hash", get_or processing_receipt "payload_hash" (VStr ""));
         ("details", VDict
            [ ("yield_ratio", yield_ratio);
              ("yield_input_kg", get processing_receipt "yield_input_kg");
              ("yield_output_kg", get processing_receipt "yield_output_kg");
              ("expected_min", get_or processing_receipt "yield_expected_min" (VFloat YIELD_MIN));
              ("message", VStr ("Yield " ++ shown
                 ++ " below expected min 12%. Possible extraction issue.")) ]) ]
       (get processing_receipt "tenant_id") ;;
     ret (Some anomaly))%py
  else ret None.

(** [round(pct, 1)]: [pct] is a float, or the int 0. *)
Definition round1 (pct : value) : value :=
  match pct with
  | VFloat x => VFloat (PyFloat.round x 1)
  | other => other
  end.

Definition detect_label_fraud (testing_receipt : dict) : M (option dict) :=
  (potency <- lift (as_dict (get_or testing_receipt "potency" (VDict []))) ;;
   if negb (truthy (get_or potency "potency_pass" (VBool true))) then
     let total := get_or potency "total_omega3_mg" (VInt 0) in
     let claim := get_or potency "label_claim_mg" (VInt 0) in
     positive <- lift (gt_num claim (NInt 0)) ;;
     pct <- (if (positive : bool) then
               ratio <- lift (py_truediv total claim) ;;
               ret (VFloat (ratio * 100)%float)
             else ret (VInt 0)) ;;
     total_text <- lift (format_fixed total 0) ;;
     pct_text <- lift (format_fixed pct 1) ;;
     claim_text <- lift (format_fixed claim 0) ;;
     anomaly <- emit_receipt "anomaly"
       [ ("anomaly_type", VStr "LABEL_FRAUD");
         ("severity", VStr "FLAG");
         ("source_receipt_hash", get_or testing_receipt "payload_hash" (VStr ""));
         ("details", VDict
            [ ("actual_mg", total);
              ("label_claim_mg", claim);
              ("percentage_of_claim", round1 pct);
              ("threshold", VStr "95%");
              ("message", VStr ("Actual potency " ++ total_text ++ "mg is " ++ pct_text
                 ++ "% of label claim " ++ claim_text ++ "mg (below 95% threshold).")) ]) ]
       (get testing_receipt "tenant_id") ;;
     ret (Some anomaly)
   else ret None)%py.

(** The dict [failed] of [detect_contaminant_exceed]. *)
Definition failed_levels (contaminants : dict) : dict :=
  let add (flag level : string) (failed : dict) : dict :=
    if negb (truthy (get_or contaminants flag (VBool true)))
    then dict_set failed level (get contaminants level) else failed in
  add "dioxins_pass" "dioxins_pg_per_g"
    (add "pcbs_pass" "pcbs_ppm" (add "mercury_pass" "mercury_ppm" [])).

Definition detect_contaminant_exceed (testing_receipt : dict) : M (option dict) :=
  (contaminants <- lift (as_dict (get_or testing_receipt "contaminants" (VDict []))) ;;
   if negb (truthy (get_or contaminants "all_pass" (VBool true))) then
     anomaly <- emit_receipt "anomaly"
       [ ("anomaly_type", VStr "CONTAMINANT_EXCEED");
         ("severity", VStr "REJECT");
         ("source_receipt_hash", get_or testing_receipt "payload_hash" (VStr ""));
         ("details", VDict
            [ ("failed_contaminants", VDict (failed_levels contaminants));
              ("message", VStr
                 "One or more contaminants exceed FDA/GOED limits. Product cannot ship.") ]) ]
       (get testing_receipt "tenant_id") ;;
     ret (Some anomaly)
   else ret None)%py.

(** The degree sign, code point 176. *)
Definition degree : string := String (ascii_of_N 176) EmptyString.

Definition is_none (v : value) : bool :=
  match v with
  | VNone => true
  | _ => false
  end.

Definition detect_cold_chain_degradation (distribution_receipt : dict) : M (option dict) :=
  (cold_chain <- lift (as_dict (get_or distribution_receipt "cold_chain" (VDict []))) ;;
   if negb (truthy (get_or cold_chain "enabled" (VBool false))) then ret None
   else
     let max_temp := get cold_chain "max_temp_c" in
     let deviations := get_or cold_chain "deviations_count" (VInt 0) in
     too_warm <- (if is_none max_temp then ret false
                  else lift (gt_num max_temp (NFloat 8%float))) ;;
     if (too_warm : bool) then
       anomaly <- emit_receipt "anomaly"
         [ ("anomaly_type", VStr "COLD_CHAIN_DEGRADATION");
           ("severity", VStr "FLAG");
           ("source_receipt_hash", get_or distribution_receipt "payload_hash" (VStr ""));
           ("details", VDict
              [ ("max_temp_c", max_temp);
                ("avg_temp_c", get cold_chain "avg_temp_c");
                ("deviations_count", deviations);
                ("threshold_max_c", VFloat 8%float);
                ("message", VStr ("Max temperature " ++ py_str max_temp ++ degree
                   ++ "C exceeds 8" ++ degree ++ "C threshold. Oxidation risk.")) ]) ]
         (get distribution_receipt "tenant_id") ;;
       ret (Some anomaly)
     else
       many <- lift (gt_num deviations (NInt 3)) ;;
       if (many : bool) then
         anomaly <- emit_receipt "anomaly"
           [ ("anomaly_type", VStr "COLD_CHAIN_DEGRADATION");
             ("severity", VStr "WARNING");
             ("source_receipt_hash", get_or distribution_receipt "payload_hash" (VStr ""));
             ("details", VDict
                [ ("max_temp_c", max_temp);
                  ("deviations_count", deviations);
                  ("threshold_deviations", VInt 3);
                  ("message", VStr (py_str deviations
                     ++ " temperature deviations exceed threshold of 3.")) ]) ]
           (get distribution_receipt "tenant_id") ;;
         ret (Some anomaly)
       else ret None)%py.

(** [if result: anomalies.append(result)]. *)
Definition append_found (anomalies : list dict) (result : option dict) : list dict :=
  match result with
  | Some r => if truthy (VDict r) then List.app anomalies [r] else anomalies
  | None => anomalies
  end.

(** The body of the loop of [run_all_fraud_checks] for one receipt. *)
Definition check_receipt (receipt : dict) (anomalies : list dict) : M (list dict) :=
  let rtype := get receipt "receipt_type" in
  if py_eq rtype (VStr "processing") then
    (result <- detect_yield_anomaly receipt ;;
     ret (append_found anomalies result))%py
  else if py_eq rtype (VStr "testing") then
    (label_result <- detect_label_fraud receipt ;;
     let anomalies := append_found anomalies label_result in
     contaminant_result <- detect_contaminant_exceed receipt ;;
     ret (append_found anomalies contaminant_result))%py
  else if py_eq rtype (VStr "distribution") then
    (cold_result <- detect_cold_chain_degradation receipt ;;
     ret (append_found anomalies cold_result))%py
  else ret anomalies.

Fixpoint check_each (chain : list dict) (anomalies : list dict) : M (list dict) :=
  match chain with
  | [] => ret anomalies
  | receipt :: rest =>
      (anomalies' <- check_receipt receipt anomalies ;; check_each rest anomalies')%py
  end.

Definition run_all_fraud_checks (chain : list dict) : M (list dict) :=
  check_each chain [].

(* ------------------------------------------------------------------ *)
(** * Properties *)

(** ** SHA-256: the test vectors of FIPS 180-4 *)

Example sha256_empty :
  hex (sha256 []) = "e3b0c44298fc1c149afbf4c8996fb92427ae41e4649b934ca495991b7852b855"%string.
Proof. vm_compute. reflexivity. Qed.

Example sha256_abc :
  hex (sha256 (encode_utf8 "abc")) =
  "ba7816bf8f01cfea414140de5dae2223b00361a396177a9cb410ff61f20015ad"%string.
Proof. vm_compute. reflexivity. Qed.

(** ** Strings *)

Lemma string_app_assoc (a b c : string) : (a ++ b) ++ c = a ++ (b ++ c).
Proof. induction a as [|x a IH]; simpl; [reflexivity | now rewrite IH]. Qed.

Lemma string_app_nil_r (a : string) : a ++ "" = a.
Proof. induction a as [|x a IH]; simpl; [reflexivity | now rewrite IH]. Qed.

Lemma string_length_app (a b : string) :
  String.length (a ++ b) = (String.length a + String.length b)%nat.
Proof. induction a as [|x a IH]; simpl; [reflexivity | now rewrite IH]. Qed.

Lemma string_app_inv_head (a b c : string) : a ++ b = a ++ c -> b = c.
Proof.
  induction a as [|x a IH]; simpl; intro H; [exact H | injection H as H; auto].
Qed.

Lemma list_of_string_app (a b : string) :
  list_ascii_of_string (a ++ b) = (list_ascii_of_string a ++ list_ascii_of_string b)%list.
Proof. induction a as [|x a IH]; simpl; [reflexivity | now rewrite IH]. Qed.

Lemma list_of_string_inj (a b : string) :
  list_ascii_of_string a = list_ascii_of_string b -> a = b.
Proof.
  intro H.
  rewrite <- (string_of_list_ascii_of_string a), <- (string_of_list_ascii_of_string b).
  now rewrite H.
Qed.

Lemma string_app_inv_tail (a b c : string) : a ++ c = b ++ c -> a = b.
Proof.
  intro H. apply list_of_string_inj.
  apply (f_equal list_ascii_of_string) in H.
  rewrite !list_of_string_app in H.
  now apply app_inv_tail in H.
Qed.

(** ** Merkle root *)

(** A level of even length, as the pairs the loop combines. *)
Fixpoint flatten_pairs (ps : list (bytes * bytes)) : list bytes :=
  match ps with
  | [] => []
  | (a, b) :: rest => a :: b :: flatten_pairs rest
  end.

Definition combine_pair (p : bytes * bytes) : bytes := blake3 (fst p ++ snd p)%list.

Lemma merkle_level_pairs (ps : list (bytes * bytes)) (tail : list bytes) :
  merkle_level (flatten_pairs ps ++ tail)%list = (map combine_pair ps ++ merkle_level tail)%list.
Proof.
  induction ps as [|[a b] ps IH]; [reflexivity|].
  cbn [flatten_pairs map app]. cbn [merkle_level]. now rewrite IH.
Qed.

Lemma merkle_level_shrinks (n : nat) :
  forall leaves : list bytes,
    (List.length leaves <= n)%nat ->
    (2 <= List.length leaves)%nat ->
    (1 <= List.length (merkle_level leaves) < List.length leaves)%nat.
Proof.
  induction n as [|n IH]; intros leaves Hn H2; [lia|].
  destruct leaves as [|a [|b rest]]; cbn [List.length] in *; try lia.
  cbn [merkle_level List.length].
  destruct rest as [|c [|d rest']].
  - cbn. lia.
  - cbn. lia.
  - assert (Hrec : (1 <= List.length (merkle_level (c :: d :: rest'))
                    < List.length (c :: d :: rest'))%nat).
    { apply IH; cbn [List.length] in *; lia. }
    cbn [List.length] in *. lia.
Qed.

Lemma merkle_loop_single (fuel : nat) :
  forall leaves : list bytes,
    (1 <= List.length leaves <= fuel)%nat ->
    exists root, merkle_loop fuel leaves = [root].
Proof.
  induction fuel as [|fuel IH]; intros leaves H; [lia|].
  cbn [merkle_loop].
  destruct (1 <? List.length leaves)%nat eqn:E.
  - apply Nat.ltb_lt in E.
    pose proof (@merkle_level_shrinks (List.length leaves) leaves (Nat.le_refl _) E).
    apply IH. lia.
  - apply Nat.ltb_ge in E.
    destruct leaves as [|a [|b rest]]; cbn [List.length] in *; try lia.
    now exists a.
Qed.

Definition leaf (item : string) : bytes := blake3 (encode_utf8 item).

(** C9.  The Merkle root of the empty list is the BLAKE3 digest of the five
    bytes [empty], in hex: a fixed value and no error.  On a level of odd
    length the last node is combined with itself.  The root of three items
    hashes the first two leaves together, the third leaf with itself, and
    the two results together.  On a non-empty list the loop ends with one
    root. *)
Theorem merkle_root_sentinel_and_odd_level :
  merkle_root [] = hex (blake3 (encode_utf8 "empty"))
  /\ (forall (ps : list (bytes * bytes)) (a : bytes),
         merkle_level (flatten_pairs ps ++ [a])%list
         = (map combine_pair ps ++ [blake3 (a ++ a)])%list)
  /\ (forall a b c : string,
         merkle_root [a; b; c]
         = hex (blake3 (blake3 (leaf a ++ leaf b) ++ blake3 (leaf c ++ leaf c))%list))
  /\ (forall (item : string) (items : list string),
         exists root,
           merkle_loop (List.length (item :: items)) (map leaf (item :: items)) = [root]
           /\ merkle_root (item :: items) = hex root).
Proof.
  split; [reflexivity|].
  split; [intros ps a; now rewrite merkle_level_pairs|].
  split; [reflexivity|].
  intros item items.
  destruct (@merkle_loop_single (List.length (item :: items)) (map leaf (item :: items)))
    as [root Hroot].
  { rewrite length_map. cbn [List.length]. lia. }
  exists root. split; [exact Hroot|].
  unfold merkle_root. fold leaf. rewrite length_map. now rewrite Hroot.
Qed.

(** ** Floats: comparison *)

Lemma compare_cont_antisym (p q : positive) (c : comparison) :
  Pos.compare_cont (CompOpp c) q p = CompOpp (Pos.compare_cont c p q).
Proof. symmetry. apply Pos.compare_cont_antisym. Qed.

Lemma SFcompare_antisym (x y : spec_float) :
  SFcompare y x = option_map CompOpp (SFcompare x y).
Proof.
  destruct x as [sx|sx| |sx mx ex], y as [sy|sy| |sy my ey]; cbn;
    try reflexivity;
    repeat match goal with s : bool |- _ => destruct s end; cbn; try reflexivity.
  - rewrite (Z.compare_antisym ex ey).
    destruct (ex ?= ey)%Z; cbn; try reflexivity.
    f_equal. rewrite <- (compare_cont_antisym mx my Eq). reflexivity.
  - rewrite (Z.compare_antisym ex ey).
    destruct (ex ?= ey)%Z; cbn; try reflexivity.
    f_equal. apply (compare_cont_antisym mx my Eq).
Qed.

(** [x] is a nan: it is unordered with everything and with itself. *)
Definition is_nan (x : float) : bool := negb (PrimFloat.eqb x x).

Lemma is_nan_spec (x : float) : is_nan x = true <-> Prim2SF x = S754_nan.
Proof.
  unfold is_nan. rewrite FloatAxioms.eqb_spec. unfold SFeqb.
  destruct (Prim2SF x) as [s|s| |s m e]; cbn.
  - split; discriminate.
  - destruct s; cbn; split; discriminate.
  - split; reflexivity.
  - destruct s; cbn; rewrite Z.compare_refl, Pos.compare_cont_refl; cbn; split; discriminate.
Qed.

Lemma SFcompare_some (x y : spec_float) :
  x <> S754_nan -> y <> S754_nan -> exists c, SFcompare x y = Some c.
Proof.
  destruct x as [sx|sx| |sx mx ex], y as [sy|sy| |sy my ey]; cbn; intros Hx Hy;
    try congruence; eauto.
Qed.

(** Among floats that are not nan, [x <= y] fails exactly when [y < x]. *)
Lemma leb_false_ltb (x y : float) :
  is_nan x = false -> is_nan y = false ->
  (x <=? y)%float = negb (y <? x)%float.
Proof.
  intros Hx Hy. rewrite FloatAxioms.leb_spec, FloatAxioms.ltb_spec. unfold SFleb, SFltb.
  rewrite (SFcompare_antisym (Prim2SF x) (Prim2SF y)).
  destruct (@SFcompare_some (Prim2SF x) (Prim2SF y)) as [c Hc].
  - intro E. apply is_nan_spec in E. congruence.
  - intro E. apply is_nan_spec in E. congruence.
  - rewrite Hc. now destruct c.
Qed.

Lemma ltb_nan_l (x y : float) : is_nan x = true -> (x <? y)%float = false.
Proof.
  intro H. apply is_nan_spec in H. rewrite FloatAxioms.ltb_spec. unfold SFltb. now rewrite H.
Qed.

Lemma ltb_nan_r (x y : float) : is_nan y = true -> (x <? y)%float = false.
Proof.
  intro H. apply is_nan_spec in H. rewrite FloatAxioms.ltb_spec. unfold SFltb. rewrite H.
  now destruct (Prim2SF x).
Qed.

Lemma leb_nan_l (x y : float) : is_nan x = true -> (x <=? y)%float = false.
Proof.
  intro H. apply is_nan_spec in H. rewrite FloatAxioms.leb_spec. unfold SFleb. now rewrite H.
Qed.

Lemma leb_nan_r (x y : float) : is_nan y = true -> (x <=? y)%float = false.
Proof.
  intro H. apply is_nan_spec in H. rewrite FloatAxioms.leb_spec. unfold SFleb. rewrite H.
  now destruct (Prim2SF x).
Qed.

(** ** [validate_yield] *)

(** X2.  The behaviour of [validate_yield] on every pair of floats: it stops
    exactly when an argument is [<= 0]; otherwise it returns the float
    quotient, with LOW below 0.12, HIGH_DILUTION_FLAG above 0.18 and NORMAL
    in the remaining case.  For arguments that are not nan, [<= 0] is "not
    strictly positive"; for a quotient that is not nan, the remaining case
    is [0.12 <= ratio <= 0.18]. *)
Theorem validate_yield_behaviour (input_kg output_kg : float) :
  let ratio := (output_kg / input_kg)%float in
  (if (input_kg <=? 0)%float || (output_kg <=? 0)%float
   then exists msg, validate_yield input_kg output_kg = Raise (StopRule msg)
   else validate_yield input_kg output_kg
        = Return (ratio,
                  if (ratio <? YIELD_MIN)%float then "LOW"
                  else if (YIELD_MAX <? ratio)%float then "HIGH_DILUTION_FLAG"
                  else "NORMAL"))
  /\ (is_nan input_kg = false -> (input_kg <=? 0)%float = negb (0 <? input_kg)%float)
  /\ (is_nan output_kg = false -> (output_kg <=? 0)%float = negb (0 <? output_kg)%float)
  /\ (is_nan ratio = false ->
      negb (ratio <? YIELD_MIN)%float && negb (YIELD_MAX <? ratio)%float
      = (YIELD_MIN <=? ratio)%float && (ratio <=? YIELD_MAX)%float).
Proof.
  intro ratio. repeat split.
  - unfold validate_yield. fold ratio.
    destruct ((input_kg <=? 0)%float || (output_kg <=? 0)%float).
    + eexists. reflexivity.
    + destruct (ratio <? YIELD_MIN)%float; [reflexivity|].
      destruct (YIELD_MAX <? ratio)%float; reflexivity.
  - intro H. now apply leb_false_ltb.
  - intro H. now apply leb_false_ltb.
  - intro H.
    rewrite (@leb_false_ltb YIELD_MIN ratio), (@leb_false_ltb ratio YIELD_MAX);
      auto; reflexivity.
Qed.

(** C8 at a nan input: no stop is raised, and the nan quotient is NORMAL. *)
Theorem validate_yield_accepts_nan :
  validate_yield PrimFloat.nan 1 = Return (PrimFloat.nan, "NORMAL")
  /\ (0 <? PrimFloat.nan)%float = false
  /\ (YIELD_MIN <=? PrimFloat.nan)%float = false.
Proof. repeat split. Qed.

(** ** Dicts *)

Lemma lookup_dict_set_eq (d : dict) (k : string) (v : value) :
  lookup (dict_set d k v) k = Some v.
Proof.
  induction d as [|[k' v'] d IH]; cbn.
  - now rewrite String.eqb_refl.
  - destruct (String.eqb k k') eqn:E; cbn.
    + now rewrite String.eqb_refl.
    + now rewrite E.
Qed.

Lemma lookup_dict_set_neq (d : dict) (k k' : string) (v : value) :
  k' <> k -> lookup (dict_set d k v) k' = lookup d k'.
Proof.
  intro Hne. induction d as [|[k0 v0] d IH]; cbn.
  - apply String.eqb_neq in Hne. now rewrite Hne.
  - destruct (String.eqb k k0) eqn:E; cbn.
    + apply String.eqb_eq in E. subst k0.
      apply String.eqb_neq in Hne. now rewrite Hne.
    + now rewrite IH.
Qed.

Lemma lookup_None_iff (d : dict) (k : string) :
  lookup d k = None <-> ~ In k (keys d).
Proof.
  induction d as [|[k' v'] d IH]; cbn.
  - tauto.
  - destruct (String.eqb k k') eqn:E.
    + apply String.eqb_eq in E. subst. split; [discriminate | intro H; exfalso; auto].
    + apply String.eqb_neq in E. rewrite IH. split.
      * intros H [H1|H1]; [congruence | auto].
      * intros H H1. auto.
Qed.

Lemma dict_set_absent (d : dict) (k : string) (v : value) :
  lookup d k = None -> dict_set d k v = (d ++ [(k, v)])%list.
Proof.
  induction d as [|[k' v'] d IH]; cbn; [reflexivity|].
  destruct (String.eqb k k'); [discriminate|].
  intro H. now rewrite IH.
Qed.

Lemma keys_dict_set (d : dict) (k k' : string) (v : value) :
  In k' (keys (dict_set d k v)) <-> k' = k \/ In k' (keys d).
Proof.
  induction d as [|[k0 v0] d IH]; cbn.
  - intuition.
  - destruct (String.eqb k k0) eqn:E; cbn.
    + apply String.eqb_eq in E. subst. intuition.
    + rewrite IH. intuition.
Qed.

Lemma keys_dict_update (d other : dict) (k : string) :
  In k (keys (dict_update d other)) <-> In k (keys d) \/ In k (keys other).
Proof.
  unfold dict_update. revert d.
  induction other as [|[k0 v0] other IH]; intro d; cbn.
  - tauto.
  - rewrite IH, keys_dict_set. intuition.
Qed.

Lemma lookup_app (d e : dict) (k : string) :
  lookup (d ++ e)%list k = match lookup d k with Some v => Some v | None => lookup e k end.
Proof.
  induction d as [|[k' v'] d IH]; cbn; [reflexivity|].
  now destruct (String.eqb k k').
Qed.

(** The envelope without its two hash fields, as [verify_single_receipt]
    rebuilds it. *)
Definition without_hashes (receipt : dict) : dict :=
  filter (fun kv : string * value => negb (is_hash_field (fst kv))) receipt.

Lemma without_hashes_id (d : dict) :
  (forall k, In k (keys d) -> is_hash_field k = false) -> without_hashes d = d.
Proof.
  induction d as [|[k v] d IH]; cbn; intro H; [reflexivity|].
  rewrite (H k (or_introl eq_refl)). cbn. f_equal. apply IH. intros; apply H; now right.
Qed.

Lemma dual_hash_nonempty (data : bytes) : String.eqb (dual_hash data) "" = false.
Proof. reflexivity. Qed.

(** The envelope [emit_receipt] hashes. *)
Definition envelope (receipt_type ts : string) (tenant_id : value) (payload : dict) : dict :=
  dict_update
    [("receipt_type", VStr receipt_type);
     ("ts", VStr ts);
     ("tenant_id", if truthy tenant_id then tenant_id else VStr DEFAULT_TENANT)]
    payload.

Definition canonical_bytes (d : dict) : bytes := encode_utf8 (json_dumps (VDict d)).

(** The receipt [emit_receipt] builds from an envelope. *)
Definition sealed (env : dict) : dict :=
  let with_hash := dict_set env "payload_hash" (VStr (dual_hash (canonical_bytes env))) in
  dict_set with_hash "merkle_root"
    (VStr (merkle_root (map (fun kv : string * value => py_str (snd kv)) with_hash))).

Lemma emit_receipt_unfold (receipt_type : string) (payload : dict) (tenant_id : value) (w : World) :
  emit_receipt receipt_type payload tenant_id w
  = ({| ledger := (ledger w ++ [sealed (envelope receipt_type (clock (ticks w)) tenant_id payload)])%list;
        ticks := S (ticks w) |},
     Return (sealed (envelope receipt_type (clock (ticks w)) tenant_id payload))).
Proof. reflexivity. Qed.

Lemma envelope_keys (receipt_type ts : string) (tenant_id : value) (payload : dict) (k : string) :
  In k (keys (envelope receipt_type ts tenant_id payload))
  <-> k = "receipt_type" \/ k = "ts" \/ k = "tenant_id" \/ In k (keys payload).
Proof. unfold envelope. rewrite keys_dict_update. cbn. intuition. Qed.

Lemma sealed_plain (env : dict) :
  (forall k, In k (keys env) -> is_hash_field k = false) ->
  exists h m,
    sealed env = (env ++ [("payload_hash", VStr h); ("merkle_root", VStr m)])%list
    /\ h = dual_hash (canonical_bytes env).
Proof.
  intro H. unfold sealed.
  assert (Hph : lookup env "payload_hash" = None).
  { apply lookup_None_iff. intro Hin. apply H in Hin. discriminate. }
  assert (Hmr : lookup env "merkle_root" = None).
  { apply lookup_None_iff. intro Hin. apply H in Hin. discriminate. }
  rewrite (dict_set_absent _ _ _ Hph).
  rewrite dict_set_absent.
  - rewrite <- app_assoc. cbn [app]. eauto.
  - rewrite lookup_app, Hmr. reflexivity.
Qed.

Lemma verify_sealed_plain (env : dict) :
  (forall k, In k (keys env) -> is_hash_field k = false) ->
  verify_single_receipt (sealed env) = true
  /\ without_hashes (sealed env) = env
  /\ get (sealed env) "payload_hash" = VStr (dual_hash (canonical_bytes env)).
Proof.
  intro H. destruct (sealed_plain env H) as (h & m & Hs & Hh).
  assert (Hph : lookup env "payload_hash" = None).
  { apply lookup_None_iff. intro Hin. apply H in Hin. discriminate. }
  assert (Hget : get (sealed env) "payload_hash" = VStr h).
  { unfold get, get_or. rewrite Hs, lookup_app, Hph. reflexivity. }
  assert (Hwo : without_hashes (sealed env) = env).
  { rewrite Hs. unfold without_hashes. rewrite filter_app.
    fold (without_hashes env). rewrite (without_hashes_id env H). cbn. apply app_nil_r. }
  split; [|split; [exact Hwo | now rewrite Hget, Hh]].
  unfold verify_single_receipt. fold (without_hashes (sealed env)).
  rewrite Hget, Hwo. cbn [truthy]. rewrite Hh, dual_hash_nonempty. cbn [negb].
  fold (canonical_bytes env). cbn [py_eq]. apply String.eqb_refl.
Qed.

(** C1, as amended.  For a payload that has no field named [payload_hash] or
    [merkle_root], the receipt [emit_receipt] returns and appends verifies:
    the dual hash of the canonical JSON of its fields other than the two
    hash fields is its stored [payload_hash]. *)
Theorem emit_receipt_verifies (receipt_type : string) (payload : dict) (tenant_id : value)
    (w : World) :
  (forall k, In k (keys payload) -> is_hash_field k = false) ->
  exists receipt,
    emit_receipt receipt_type payload tenant_id w
    = ({| ledger := (ledger w ++ [receipt])%list; ticks := S (ticks w) |}, Return receipt)
    /\ verify_single_receipt receipt = true
    /\ get receipt "payload_hash"
       = VStr (dual_hash (canonical_bytes (without_hashes receipt))).
Proof.
  intro H. rewrite emit_receipt_unfold.
  set (env := envelope receipt_type (clock (ticks w)) tenant_id payload).
  assert (Henv : forall k, In k (keys env) -> is_hash_field k = false).
  { intros k Hk. apply envelope_keys in Hk.
    destruct Hk as [->|[->|[->|Hk]]]; try reflexivity. now apply H. }
  destruct (verify_sealed_plain env Henv) as (Hv & Hwo & Hget).
  exists (sealed env). split; [reflexivity|]. split; [exact Hv|].
  now rewrite Hwo.
Qed.

(** ** One changed value in a dict, and the canonical JSON text *)

(** Two association lists that are the same except for the value under one
    occurrence of the key [k]. *)
Inductive one_off {A : Type} (k : string) (x x' : A) :
    list (string * A) -> list (string * A) -> Prop :=
| one_off_here (l : list (string * A)) : one_off k x x' ((k, x) :: l) ((k, x') :: l)
| one_off_there (a : string * A) (l l' : list (string * A)) :
    one_off k x x' l l' -> one_off k x x' (a :: l) (a :: l').

Lemma one_off_dict_set (d : dict) (k : string) (v v' : value) :
  lookup d k = Some v -> one_off k v v' d (dict_set d k v').
Proof.
  induction d as [|[k0 v0] d IH]; cbn; [discriminate|].
  destruct (String.eqb k k0) eqn:E.
  - apply String.eqb_eq in E. subst k0. intro H. injection H as ->. constructor.
  - intro H. constructor. auto.
Qed.

Lemma one_off_set_other (k k0 : string) (v v' u : value) (d d' : dict) :
  one_off k v v' d d' -> k0 <> k ->
  one_off k v v' (dict_set d k0 u) (dict_set d' k0 u).
Proof.
  intros H Hne. induction H as [l|[k1 v1] l l' H IH]; cbn.
  - apply String.eqb_neq in Hne. rewrite Hne. constructor.
  - destruct (String.eqb k0 k1); constructor; auto.
Qed.

Lemma one_off_update (k : string) (v v' : value) (other d d' : dict) :
  one_off k v v' d d' -> ~ In k (keys other) ->
  one_off k v v' (dict_update d other) (dict_update d' other).
Proof.
  unfold dict_update. revert d d'.
  induction other as [|[k0 v0] other IH]; intros d d' H Hk; cbn; [exact H|].
  apply IH.
  - apply one_off_set_other; [exact H|]. intro E. apply Hk. left. now subst.
  - intro Hin. apply Hk. now right.
Qed.

Lemma one_off_filter {A : Type} (p : string -> bool) (k : string) (x x' : A)
    (l l' : list (string * A)) :
  one_off k x x' l l' -> p k = true ->
  one_off k x x' (filter (fun kv => p (fst kv)) l) (filter (fun kv => p (fst kv)) l').
Proof.
  intros H Hp. induction H as [l|a l l' H IH]; cbn.
  - rewrite Hp. constructor.
  - destruct (p (fst a)); [constructor|]; auto.
Qed.

Lemma one_off_lookup (k k0 : string) (v v' : value) (d d' : dict) :
  one_off k v v' d d' -> k0 <> k -> lookup d k0 = lookup d' k0.
Proof.
  intros H Hne. induction H as [l|[k1 v1] l l' H IH]; cbn.
  - apply String.eqb_neq in Hne. now rewrite Hne.
  - now rewrite IH.
Qed.

Definition render (d : dict) : list (string * string) :=
  map (fun kv : string * value => let (k, w) := kv in (k, json_dumps w)) d.

Lemma json_dumps_dict (d : dict) :
  json_dumps (VDict d)
  = "{" ++ String.concat ", " (map json_item (sort_items (render d))) ++ "}".
Proof. reflexivity. Qed.

Lemma one_off_render (k : string) (v v' : value) (d d' : dict) :
  one_off k v v' d d' -> one_off k (json_dumps v) (json_dumps v') (render d) (render d').
Proof.
  intro H. induction H as [l|[k1 v1] l l' H IH]; cbn; constructor; auto.
Qed.

Lemma one_off_insert_there (k : string) (x x' : string) (a : string * string)
    (l l' : list (string * string)) :
  one_off k x x' l l' -> one_off k x x' (insert_item a l) (insert_item a l').
Proof.
  intro H. induction H as [l|b l l' H IH]; cbn.
  - destruct (String.leb (fst a) k); repeat constructor.
  - destruct (String.leb (fst a) (fst b)); repeat constructor; auto.
Qed.

Lemma one_off_insert_here (k : string) (x x' : string) (l : list (string * string)) :
  one_off k x x' (insert_item (k, x) l) (insert_item (k, x') l).
Proof.
  induction l as [|b l IH]; cbn; [constructor|].
  destruct (String.leb k (fst b)); constructor; auto.
Qed.

Lemma one_off_sort (k : string) (x x' : string) (l l' : list (string * string)) :
  one_off k x x' l l' -> one_off k x x' (sort_items l) (sort_items l').
Proof.
  intro H. induction H as [l|a l l' H IH]; cbn.
  - apply one_off_insert_here.
  - now apply one_off_insert_there.
Qed.

Lemma concat_cons (sep a : string) (l : list string) :
  l <> [] -> String.concat sep (a :: l) = a ++ sep ++ String.concat sep l.
Proof. destruct l; [congruence | reflexivity]. Qed.

Lemma one_off_concat (k : string) (x x' : string) (l l' : list (string * string)) :
  one_off k x x' l l' -> x <> x' ->
  String.concat ", " (map json_item l) <> String.concat ", " (map json_item l').
Proof.
  intros H Hne. induction H as [l|a l l' H IH].
  - cbn [map]. unfold json_item at 1 3. cbn [fst snd].
    destruct (map json_item l) as [|b rest] eqn:E.
    + cbn [String.concat]. intro Heq.
      apply string_app_inv_head in Heq. apply string_app_inv_head in Heq. auto.
    + rewrite (@concat_cons ", " (json_string k ++ ": " ++ x) (b :: rest)) by discriminate.
      rewrite (@concat_cons ", " (json_string k ++ ": " ++ x') (b :: rest)) by discriminate.
      rewrite !string_app_assoc.
      intro Heq. apply string_app_inv_head in Heq. apply string_app_inv_head in Heq.
      apply string_app_inv_tail in Heq. auto.
  - cbn [map].
    assert (Hl : map json_item l <> []) by (destruct H; discriminate).
    assert (Hl' : map json_item l' <> []) by (destruct H; discriminate).
    rewrite (@concat_cons ", " (json_item a) (map json_item l)) by assumption.
    rewrite (@concat_cons ", " (json_item a) (map json_item l')) by assumption.
    intro Heq. apply string_app_inv_head in Heq. apply string_app_inv_head in Heq. auto.
Qed.

(** Changing the JSON text of one value changes the canonical text of the
    dict. *)
Lemma one_off_json_dumps (k : string) (v v' : value) (d d' : dict) :
  one_off k v v' d d' -> json_dumps v <> json_dumps v' ->
  json_dumps (VDict d) <> json_dumps (VDict d').
Proof.
  intros H Hne. rewrite !json_dumps_dict. intro Heq.
  apply string_app_inv_head in Heq. apply string_app_inv_tail in Heq.
  revert Heq. apply (@one_off_concat k (json_dumps v) (json_dumps v')); [|exact Hne].
  apply one_off_sort. now apply one_off_render.
Qed.

(** ** Encodings are injective *)

Lemma byte_to_Z_range (b : byte) : (0 <= byte_to_Z b < 256)%Z.
Proof. unfold byte_to_Z. pose proof (Byte.to_N_bounded b). lia. Qed.

Lemma byte_to_Z_inj (a b : byte) : byte_to_Z a = byte_to_Z b -> a = b.
Proof.
  unfold byte_to_Z. intro H. apply N2Z.inj in H.
  pose proof (Byte.of_to_N a) as Ha. pose proof (Byte.of_to_N b) as Hb.
  rewrite H in Ha. congruence.
Qed.

Lemma byte_to_of_Z (z : Z) : (0 <= z < 256)%Z -> byte_to_Z (byte_of_Z z) = z.
Proof.
  intro H. unfold byte_of_Z, byte_to_Z. rewrite Z.mod_small by lia.
  destruct (Byte.of_N (Z.to_N z)) as [b|] eqn:E.
  - apply Byte.to_of_N in E. rewrite E. lia.
  - apply Byte.of_N_None_iff in E. lia.
Qed.

Lemma code_range (c : ascii) : (0 <= code c < 256)%Z.
Proof. unfold code. pose proof (N_ascii_bounded c). lia. Qed.

Lemma code_inj (c d : ascii) : code c = code d -> c = d.
Proof.
  unfold code. intro H. apply N2Z.inj in H.
  rewrite <- (ascii_N_embedding c), <- (ascii_N_embedding d). now rewrite H.
Qed.

Definition hex_val (c : ascii) : Z :=
  let n := code c in if (n <? 58)%Z then (n - 48)%Z else (n - 87)%Z.

Lemma hex_val_digit (d : Z) : (0 <= d < 16)%Z -> hex_val (hex_digit d) = d.
Proof.
  intro H.
  assert (E : (d = 0 \/ d = 1 \/ d = 2 \/ d = 3 \/ d = 4 \/ d = 5 \/ d = 6 \/ d = 7 \/ d = 8
               \/ d = 9 \/ d = 10 \/ d = 11 \/ d = 12 \/ d = 13 \/ d = 14 \/ d = 15)%Z) by lia.
  repeat (destruct E as [->|E]; [reflexivity|]). now subst.
Qed.

Lemma hex_digit_not_colon (d : Z) : (0 <= d < 16)%Z -> Ascii.eqb ":" (hex_digit d) = false.
Proof.
  intro H.
  assert (E : (d = 0 \/ d = 1 \/ d = 2 \/ d = 3 \/ d = 4 \/ d = 5 \/ d = 6 \/ d = 7 \/ d = 8
               \/ d = 9 \/ d = 10 \/ d = 11 \/ d = 12 \/ d = 13 \/ d = 14 \/ d = 15)%Z) by lia.
  repeat (destruct E as [->|E]; [reflexivity|]). now subst.
Qed.

Lemma byte_nibbles (b : byte) :
  (0 <= byte_to_Z b / 16 < 16)%Z /\ (0 <= byte_to_Z b mod 16 < 16)%Z.
Proof.
  pose proof (byte_to_Z_range b). split.
  - split; [apply Z.div_pos; lia | apply Z.div_lt_upper_bound; lia].
  - apply Z.mod_pos_bound. lia.
Qed.

Lemma hex_inj (a b : bytes) : hex a = hex b -> a = b.
Proof.
  revert b. induction a as [|x a IH]; intros [|y b]; cbn; try discriminate; [reflexivity|].
  intro H. injection H as H1 H2 H3.
  destruct (byte_nibbles x) as [Hx1 Hx2]. destruct (byte_nibbles y) as [Hy1 Hy2].
  apply (f_equal hex_val) in H1, H2. rewrite !hex_val_digit in H1, H2 by assumption.
  f_equal; [|now apply IH].
  apply byte_to_Z_inj.
  rewrite (Z.div_mod (byte_to_Z x) 16), (Z.div_mod (byte_to_Z y) 16) by lia. now rewrite H1, H2.
Qed.

Lemma hex_no_colon (bs : bytes) : contains_char ":" (hex bs) = false.
Proof.
  induction bs as [|b bs IH]; [reflexivity|]. cbn [hex contains_char].
  destruct (byte_nibbles b) as [H1 H2].
  now rewrite !hex_digit_not_colon, IH by assumption.
Qed.

Lemma split_at_colon (x x' y y' : string) :
  contains_char ":" x = false -> contains_char ":" x' = false ->
  x ++ String ":" y = x' ++ String ":" y' -> x = x' /\ y = y'.
Proof.
  revert x'. induction x as [|c x IH]; intros [|c' x'] Hx Hx' H;
    cbn [String.append] in H; cbn [contains_char] in Hx, Hx'.
  - injection H as H. auto.
  - injection H as Hc _. subst c'. rewrite Ascii.eqb_refl in Hx'. discriminate.
  - injection H as Hc _. subst c. rewrite Ascii.eqb_refl in Hx. discriminate.
  - injection H as Hc H. subst c'.
    apply orb_false_iff in Hx, Hx'.
    destruct (IH x' (proj2 Hx) (proj2 Hx') H) as [-> ->]. auto.
Qed.

(** Two inputs with one dual hash have one SHA-256 digest and one BLAKE3
    digest. *)
Lemma dual_hash_parts (a b : bytes) :
  dual_hash a = dual_hash b -> sha256 a = sha256 b /\ blake3 a = blake3 b.
Proof.
  unfold dual_hash. cbn [String.append]. intro H.
  injection H as H.
  apply split_at_colon in H; try apply hex_no_colon.
  destruct H as [H1 H2]. injection H2 as H2.
  split; now apply hex_inj.
Qed.

Lemma cons_inj {A : Type} (a b : A) (l m : list A) : a :: l = b :: m -> a = b /\ l = m.
Proof. intro H. injection H as H1 H2. auto. Qed.

Lemma encode_utf8_inj (s t : string) : encode_utf8 s = encode_utf8 t -> s = t.
Proof.
  revert t. induction s as [|c s IH]; intros [|d t]; cbn [encode_utf8].
  - reflexivity.
  - destruct (code d <? 128)%Z; discriminate.
  - destruct (code c <? 128)%Z; discriminate.
  - pose proof (code_range c) as Hc. pose proof (code_range d) as Hd.
    assert (Hc6 : (0 <= code c / 64 < 4)%Z)
      by (split; [apply Z.div_pos; lia | apply Z.div_lt_upper_bound; lia]).
    assert (Hd6 : (0 <= code d / 64 < 4)%Z)
      by (split; [apply Z.div_pos; lia | apply Z.div_lt_upper_bound; lia]).
    pose proof (Z.mod_pos_bound (code c) 64 ltac:(lia)) as Hcm.
    pose proof (Z.mod_pos_bound (code d) 64 ltac:(lia)) as Hdm.
    destruct (code c <? 128)%Z eqn:Ec, (code d <? 128)%Z eqn:Ed; intro H.
    + apply cons_inj in H as [H1 H2]. apply (f_equal byte_to_Z) in H1.
      rewrite !byte_to_of_Z in H1 by lia. f_equal; [now apply code_inj | now apply IH].
    + apply cons_inj in H as [H1 _]. apply (f_equal byte_to_Z) in H1.
      apply Z.ltb_lt in Ec. rewrite !byte_to_of_Z in H1 by lia. lia.
    + apply cons_inj in H as [H1 _]. apply (f_equal byte_to_Z) in H1.
      apply Z.ltb_lt in Ed. rewrite !byte_to_of_Z in H1 by lia. lia.
    + apply cons_inj in H as [H1 H]. apply cons_inj in H as [H2 H3].
      apply (f_equal byte_to_Z) in H1, H2.
      rewrite !byte_to_of_Z in H1, H2 by lia.
      f_equal; [|now apply IH]. apply code_inj.
      rewrite (Z.div_mod (code c) 64), (Z.div_mod (code d) 64) by lia. lia.
Qed.

(** Reading back one escaped character. *)
Definition unescape (s : string) : option (ascii * string) :=
  match s with
  | EmptyString => None
  | String c rest =>
      if Ascii.eqb c backslash then
        match rest with
        | EmptyString => None
        | String e rest' =>
            if Ascii.eqb e "n" then Some (chr 10, rest')
            else if Ascii.eqb e "r" then Some (chr 13, rest')
            else if Ascii.eqb e "t" then Some (chr 9, rest')
            else if Ascii.eqb e "f" then Some (chr 12, rest')
            else if Ascii.eqb e "b" then Some (chr 8, rest')
            else if Ascii.eqb e "u" then
              match rest' with
              | String _ (String _ (String h (String l rest''))) =>
                  Some (chr (16 * hex_val h + hex_val l), rest'')
              | _ => None
              end
            else Some (e, rest')
        end
      else Some (c, rest)
  end.

Lemma unescape_escape (c : ascii) (rest : string) :
  unescape (json_escape c ++ rest) = Some (c, rest).
Proof. destruct c as [[] [] [] [] [] [] [] []]; reflexivity. Qed.

Lemma escaped_inj (s t : string) :
  flat_chars json_escape s = flat_chars json_escape t -> s = t.
Proof.
  revert t. induction s as [|c s IH]; intros [|d t]; cbn [flat_chars]; intro H.
  - reflexivity.
  - apply (f_equal unescape) in H. rewrite unescape_escape in H. discriminate.
  - apply (f_equal unescape) in H. rewrite unescape_escape in H. discriminate.
  - apply (f_equal unescape) in H. rewrite !unescape_escape in H.
    injection H as -> H. f_equal. now apply IH.
Qed.

Lemma json_string_inj (s t : string) : json_string s = json_string t -> s = t.
Proof.
  unfold json_string. intro H. injection H as H.
  apply string_app_inv_tail in H. now apply escaped_inj.
Qed.

(** Two texts do not collide: they have one dual hash only if they are one
    text.  For the text of a receipt before and after a change this is an
    assumption on SHA-256 and BLAKE3, under which the changed text has a
    changed hash. *)
Definition no_collision (a b : bytes) : Prop :=
  dual_hash a = dual_hash b -> a = b.

Lemma hex_differs (a b : bytes) : String.eqb (hex a) (hex b) = false -> a <> b.
Proof. intros H E. subst b. rewrite String.eqb_refl in H. discriminate. Qed.

(** Texts with different SHA-256 digests do not collide, whatever BLAKE3
    is. *)
Lemma sha256_differs (a b : bytes) :
  String.eqb (hex (sha256 a)) (hex (sha256 b)) = false -> no_collision a b.
Proof.
  intros H E. apply dual_hash_parts in E. destruct E as [E _].
  now apply hex_differs in H.
Qed.

(** ** Receipts: what [emit_receipt] stores, and what tampering changes *)

Lemma lookup_dict_update_absent (d other : dict) (k : string) :
  ~ In k (keys other) -> lookup (dict_update d other) k = lookup d k.
Proof.
  unfold dict_update. revert d.
  induction other as [|[k0 v0] other IH]; intros d Hk; cbn; [reflexivity|].
  rewrite IH by (intro Hin; apply Hk; now right).
  apply lookup_dict_set_neq. intro E. apply Hk. left. now subst.
Qed.

Lemma sealed_lookup (env : dict) (k : string) :
  is_hash_field k = false -> lookup (sealed env) k = lookup env k.
Proof.
  intro Hk. unfold sealed.
  rewrite !lookup_dict_set_neq; [reflexivity| |];
    intro E; subst k; discriminate.
Qed.

Lemma sealed_payload_hash (env : dict) :
  get (sealed env) "payload_hash" = VStr (dual_hash (canonical_bytes env)).
Proof.
  unfold get, get_or, sealed.
  rewrite lookup_dict_set_neq by discriminate. now rewrite lookup_dict_set_eq.
Qed.

Lemma py_eq_str_l (s : string) (b : value) : py_eq (VStr s) b = true -> b = VStr s.
Proof.
  destruct b; cbn; try discriminate. intro H. apply String.eqb_eq in H. now subst.
Qed.

Lemma VStr_inj (s t : string) : VStr s = VStr t -> s = t.
Proof. intro H. now injection H. Qed.

Lemma py_eq_str_refl (s : string) : py_eq (VStr s) (VStr s) = true.
Proof. cbn. apply String.eqb_refl. Qed.

Lemma changed_text_changes_hash (k : string) (v v' : value) (d d' : dict) :
  no_collision (canonical_bytes d) (canonical_bytes d') ->
  one_off k v v' d d' -> json_dumps v <> json_dumps v' ->
  dual_hash (canonical_bytes d) <> dual_hash (canonical_bytes d').
Proof.
  intros Hfree Hoff Hne Heq. apply Hfree in Heq.
  unfold canonical_bytes in Heq. apply encode_utf8_inj in Heq.
  revert Heq. now apply (one_off_json_dumps Hoff).
Qed.

(** A receipt that verifies stores the dual hash of its canonical bytes. *)
Lemma verified_stored_hash (r : dict) :
  verify_single_receipt r = true ->
  get r "payload_hash" = VStr (dual_hash (canonical_bytes (without_hashes r))).
Proof.
  unfold verify_single_receipt. fold (without_hashes r).
  destruct (truthy (get r "payload_hash")); cbn [negb]; [|discriminate].
  fold (canonical_bytes (without_hashes r)). apply py_eq_str_l.
Qed.

(** One field of a verified receipt given a value of another JSON text: the
    recomputation fails. *)
Lemma tampered_receipt_fails (r : dict) (k : string) (v v' : value) :
  no_collision (canonical_bytes (without_hashes (dict_set r k v')))
    (canonical_bytes (without_hashes r)) ->
  verify_single_receipt r = true ->
  lookup r k = Some v ->
  is_hash_field k = false ->
  json_dumps v' <> json_dumps v ->
  verify_single_receipt (dict_set r k v') = false.
Proof.
  intros Hfree Hv Hk Hf Hne.
  pose proof (verified_stored_hash r Hv) as Hstored.
  assert (Hget : get (dict_set r k v') "payload_hash" = get r "payload_hash").
  { unfold get, get_or. rewrite lookup_dict_set_neq; [reflexivity|].
    intro E. subst k. discriminate. }
  unfold verify_single_receipt. fold (without_hashes (dict_set r k v')).
  rewrite Hget, Hstored. cbn [truthy]. rewrite dual_hash_nonempty. cbn [negb].
  fold (canonical_bytes (without_hashes (dict_set r k v'))). cbn [py_eq].
  apply String.eqb_neq.
  apply (@changed_text_changes_hash k v' v); [exact Hfree | | exact Hne].
  unfold without_hashes.
  apply (one_off_filter (fun key => negb (is_hash_field key))); [|now rewrite Hf].
  assert (Hoff : one_off k v v' r (dict_set r k v')) by now apply one_off_dict_set.
  clear - Hoff. induction Hoff; constructor; auto.
Qed.

(** C7, as amended.  A payload with no field [ts], emitted at two readings
    of the clock that differ, gives two receipts with different [ts] and, when
    the two hashed texts do not collide, different [payload_hash]; every
    field other than [ts], [payload_hash] and [merkle_root] is the same in
    both. *)
Theorem reemit_changes_payload_hash (receipt_type : string) (payload : dict) (tenant_id : value)
    (w1 w2 : World) :
  no_collision
    (canonical_bytes (envelope receipt_type (clock (ticks w1)) tenant_id payload))
    (canonical_bytes (envelope receipt_type (clock (ticks w2)) tenant_id payload)) ->
  ~ In "ts" (keys payload) ->
  clock (ticks w1) <> clock (ticks w2) ->
  exists r1 r2,
    result_of (emit_receipt receipt_type payload tenant_id w1) = Return r1
    /\ result_of (emit_receipt receipt_type payload tenant_id w2) = Return r2
    /\ get r1 "payload_hash" <> get r2 "payload_hash"
    /\ get r1 "ts" <> get r2 "ts"
    /\ forall k, k <> "ts" -> is_hash_field k = false -> lookup r1 k = lookup r2 k.
Proof.
  intros Hfree Hts Hclock. rewrite !emit_receipt_unfold.
  set (t1 := clock (ticks w1)) in *. set (t2 := clock (ticks w2)) in *.
  set (env1 := envelope receipt_type t1 tenant_id payload).
  set (env2 := envelope receipt_type t2 tenant_id payload).
  exists (sealed env1), (sealed env2). cbn [result_of snd].
  assert (Hoff : one_off "ts" (VStr t1) (VStr t2) env1 env2).
  { apply one_off_update; [|exact Hts]. constructor. constructor. }
  assert (Hts1 : forall t, lookup (envelope receipt_type t tenant_id payload) "ts"
                           = Some (VStr t)).
  { intro t. unfold envelope. now rewrite lookup_dict_update_absent. }
  repeat split.
  - rewrite !sealed_payload_hash. intro E. apply VStr_inj in E. revert E.
    apply (changed_text_changes_hash Hfree Hoff). cbn [json_dumps].
    intro E. apply json_string_inj in E. contradiction.
  - unfold get, get_or. rewrite !sealed_lookup by reflexivity.
    unfold env1, env2. rewrite !Hts1. congruence.
  - intros k Hk Hf. rewrite !sealed_lookup by assumption.
    now apply (one_off_lookup Hoff).
Qed.

(** ** Lot numbers are unique among encapsulation receipts *)

Definition is_encapsulation (r : dict) : bool :=
  py_eq (get r "receipt_type") (VStr "encapsulation").

Definition has_lot (lot : string) (r : dict) : bool :=
  is_encapsulation r && py_eq (get r "lot_number") (VStr lot).

(** The lot numbers of the encapsulation receipts, in ledger order. *)
Definition encapsulation_lots (l : list dict) : list value :=
  map (fun r => get r "lot_number") (filter is_encapsulation l).

Lemma sealed_receipt_type (receipt_type ts : string) (tenant_id : value) (payload : dict) :
  ~ In "receipt_type" (keys payload) ->
  get (sealed (envelope receipt_type ts tenant_id payload)) "receipt_type" = VStr receipt_type.
Proof.
  intro H. unfold get, get_or. rewrite sealed_lookup by reflexivity.
  unfold envelope. now rewrite lookup_dict_update_absent.
Qed.

Lemma sealed_payload_field (receipt_type ts : string) (tenant_id : value) (payload : dict)
    (k : string) (v : value) :
  is_hash_field k = false -> NoDup (keys payload) -> In (k, v) payload ->
  get (sealed (envelope receipt_type ts tenant_id payload)) k = v.
Proof.
  intros Hk Hnd Hin. unfold get, get_or. rewrite sealed_lookup by assumption.
  unfold envelope, dict_update.
  generalize ([("receipt_type", VStr receipt_type); ("ts", VStr ts);
               ("tenant_id", if truthy tenant_id then tenant_id else VStr DEFAULT_TENANT)] : dict).
  induction payload as [|[k0 v0] payload IH]; intro base; [contradiction|].
  cbn [fold_left fst snd]. cbn [keys map fst] in Hnd. inversion Hnd as [|? ? Hnot Hnd']; subst.
  destruct Hin as [E|Hin].
  - injection E as -> ->.
    fold (dict_update (dict_set base k v) payload).
    rewrite lookup_dict_update_absent by exact Hnot. now rewrite lookup_dict_set_eq.
  - now apply IH.
Qed.

Definition appended (w w' : World) (r : dict) : Prop :=
  ledger w' = (ledger w ++ [r])%list.

Lemma emit_world (receipt_type : string) (payload : dict) (tenant_id : value) (w : World) :
  appended w (world_of (emit_receipt receipt_type payload tenant_id w))
    (sealed (envelope receipt_type (clock (ticks w)) tenant_id payload)).
Proof. reflexivity. Qed.

Lemma bind_emit_world {B : Type} (receipt_type : string) (payload : dict) (tenant_id : value)
    (k : dict -> M B) (w : World) :
  (forall r w', world_of (k r w') = w') ->
  world_of (bind (emit_receipt receipt_type payload tenant_id) k w)
  = world_of (emit_receipt receipt_type payload tenant_id w).
Proof. intro H. unfold bind. rewrite emit_receipt_unfold. now rewrite H. Qed.

Definition not_encapsulation_step (w w' : World) : Prop :=
  ledger w' = ledger w
  \/ exists r, ledger w' = (ledger w ++ [r])%list /\ is_encapsulation r = false.

Ltac keys_absent := cbn; intuition discriminate.

Section Lots.

(** Whether [datetime.fromisoformat] accepts the text. *)
Variable fromisoformat_ok : string -> bool.

(** A call of one of the five stage validators. *)
Inductive stage_call : Type :=
| CallCatch (species fishery_registry import_docs_hash fishery_cert_type : string)
    (fishery_cert_id fishery_cert_hash tenant_id : option string)
| CallProcessing (facility_id facility_name gmp_cert_type gmp_cert_id gmp_cert_hash batch_id
                    extraction_method : string)
    (extraction_temp_c yield_input_kg yield_output_kg : float)
    (previous_hash : string) (tenant_id : option string)
| CallTesting (lab_name lab_cert_type lab_cert_id lab_cert_hash batch_id : string)
    (mercury_ppm pcbs_ppm dioxins_pg_per_g epa_mg dha_mg label_claim_mg
       peroxide_meq_per_kg anisidine : float)
    (previous_hash : string) (tenant_id : option string)
| CallEncapsulation (facility_id facility_name facility_cert_type facility_cert_id
                       facility_cert_hash lot fill_date batch_id : string)
    (capsule_count : Z) (mg_per_capsule : float)
    (previous_hash : string) (tenant_id : option string)
| CallDistribution (distributor_id distributor_name warehouse_id warehouse_location lot : string)
    (cold_chain_data : option dict) (previous_hash : string) (tenant_id : option string).

Definition run_stage (c : stage_call) : M dict :=
  match c with
  | CallCatch a1 a2 a3 a4 a5 a6 a7 => create_catch_receipt a1 a2 a3 a4 a5 a6 a7
  | CallProcessing a1 a2 a3 a4 a5 a6 a7 a8 a9 a10 a11 a12 =>
      create_processing_receipt a1 a2 a3 a4 a5 a6 a7 a8 a9 a10 a11 a12
  | CallTesting a1 a2 a3 a4 a5 a6 a7 a8 a9 a10 a11 a12 a13 a14 a15 =>
      create_testing_receipt a1 a2 a3 a4 a5 a6 a7 a8 a9 a10 a11 a12 a13 a14 a15
  | CallEncapsulation a1 a2 a3 a4 a5 a6 a7 a8 a9 a10 a11 a12 =>
      create_encapsulation_receipt fromisoformat_ok a1 a2 a3 a4 a5 a6 a7 a8 a9 a10 a11 a12
  | CallDistribution a1 a2 a3 a4 a5 a6 a7 a8 => create_distribution_receipt a1 a2 a3 a4 a5 a6 a7 a8
  end.

(** The ledgers the stage validators can build from an absent ledger file. *)
Inductive reachable : World -> Prop :=
| reachable_start (n : nat) : reachable {| ledger := []; ticks := n |}
| reachable_step (w : World) (c : stage_call) :
    reachable w -> reachable (world_of (run_stage c w)).

Lemma emit_other_type (receipt_type : string) (payload : dict) (tenant_id : value) (w : World) :
  ~ In "receipt_type" (keys payload) ->
  String.eqb receipt_type "encapsulation" = false ->
  not_encapsulation_step w (world_of (emit_receipt receipt_type payload tenant_id w)).
Proof.
  intros Hk Ht. right. eexists. split; [apply emit_world|].
  unfold is_encapsulation. rewrite sealed_receipt_type by exact Hk. exact Ht.
Qed.

Lemma catch_step (species fishery_registry import_docs_hash fishery_cert_type : string)
    (fishery_cert_id fishery_cert_hash tenant_id : option string) (w : World) :
  not_encapsulation_step w
    (world_of (create_catch_receipt species fishery_registry import_docs_hash
                 fishery_cert_type fishery_cert_id fishery_cert_hash tenant_id w)).
Proof.
  unfold create_catch_receipt.
  destruct (negb (validate_species species)); [now left|].
  destruct (negb (mem_str fishery_cert_type FISHERY_CERT_TYPES)); [now left|].
  destruct (negb (String.eqb fishery_cert_type "None") && _); [now left|].
  destruct (species_common_name APPROVED_SPECIES species); [|now left].
  apply emit_other_type; [keys_absent | reflexivity].
Qed.

Lemma processing_step (facility_id facility_name gmp_cert_type gmp_cert_id gmp_cert_hash batch_id
                         extraction_method : string)
    (extraction_temp_c yield_input_kg yield_output_kg : float)
    (previous_hash : string) (tenant_id : option string) (w : World) :
  not_encapsulation_step w
    (world_of (create_processing_receipt facility_id facility_name gmp_cert_type gmp_cert_id
                 gmp_cert_hash batch_id extraction_method extraction_temp_c yield_input_kg
                 yield_output_kg previous_hash tenant_id w)).
Proof.
  unfold create_processing_receipt.
  destruct (negb (mem_str gmp_cert_type GMP_CERT_TYPES)); [now left|].
  destruct (negb (mem_str extraction_method EXTRACTION_METHODS)); [now left|].
  destruct (negb (contains_char ":" gmp_cert_hash)); [now left|].
  unfold bind, lift.
  destruct (validate_yield yield_input_kg yield_output_kg) as [[ratio status]|e]; [|now left].
  cbn [fst snd]. apply emit_other_type; [keys_absent | reflexivity].
Qed.

Lemma testing_world (lab_name lab_cert_type lab_cert_id lab_cert_hash batch_id : string)
    (mercury_ppm pcbs_ppm dioxins_pg_per_g epa_mg dha_mg label_claim_mg
       peroxide_meq_per_kg anisidine : float)
    (previous_hash : string) (tenant_id : option string) (w : World) :
  let w' := world_of (create_testing_receipt lab_name lab_cert_type lab_cert_id lab_cert_hash
                        batch_id mercury_ppm pcbs_ppm dioxins_pg_per_g epa_mg dha_mg
                        label_claim_mg peroxide_meq_per_kg anisidine previous_hash tenant_id w) in
  w' = w
  \/ exists payload,
       ~ In "receipt_type" (keys payload)
       /\ w' = world_of (emit_receipt "testing" payload (opt_str tenant_id) w).
Proof.
  unfold create_testing_receipt.
  destruct (negb (mem_str lab_cert_type LAB_CERT_TYPES)); [now left|].
  destruct (negb (contains_char ":" lab_cert_hash)); [now left|].
  unfold _emit_testing.
  match goal with
  | |- context [emit_receipt "testing" ?p _] => set (payload := p)
  end.
  assert (Hk : ~ In "receipt_type" (keys payload)) by (subst payload; keys_absent).
  cbv zeta.
  destruct (negb (truthy (get (validate_contaminants mercury_ppm pcbs_ppm dioxins_pg_per_g)
                            "all_pass"))).
  - right. exists payload. split; [exact Hk|]. now apply bind_emit_world.
  - unfold bind at 1. unfold lift. cbn [gt_num validate_oxidation get get_or lookup
                                         String.eqb Ascii.eqb Bool.eqb num_of].
    destruct (num_gtb _ _).
    + right. exists payload. split; [exact Hk|]. now apply bind_emit_world.
    + right. exists payload. split; [exact Hk|]. reflexivity.
Qed.

Lemma testing_step (lab_name lab_cert_type lab_cert_id lab_cert_hash batch_id : string)
    (mercury_ppm pcbs_ppm dioxins_pg_per_g epa_mg dha_mg label_claim_mg
       peroxide_meq_per_kg anisidine : float)
    (previous_hash : string) (tenant_id : option string) (w : World) :
  not_encapsulation_step w
    (world_of (create_testing_receipt lab_name lab_cert_type lab_cert_id lab_cert_hash
                 batch_id mercury_ppm pcbs_ppm dioxins_pg_per_g epa_mg dha_mg
                 label_claim_mg peroxide_meq_per_kg anisidine previous_hash tenant_id w)).
Proof.
  destruct (testing_world lab_name lab_cert_type lab_cert_id lab_cert_hash batch_id
              mercury_ppm pcbs_ppm dioxins_pg_per_g epa_mg dha_mg label_claim_mg
              peroxide_meq_per_kg anisidine previous_hash tenant_id w) as [E|(p & Hk & E)];
    rewrite E.
  - now left.
  - apply emit_other_type; [exact Hk | reflexivity].
Qed.

Lemma distribution_step (distributor_id distributor_name warehouse_id warehouse_location lot : string)
    (cold_chain_data : option dict) (previous_hash : string) (tenant_id : option string)
    (w : World) :
  not_encapsulation_step w
    (world_of (create_distribution_receipt distributor_id distributor_name warehouse_id
                 warehouse_location lot cold_chain_data previous_hash tenant_id w)).
Proof.
  unfold create_distribution_receipt. apply emit_other_type; [keys_absent | reflexivity].
Qed.

Lemma py_eq_str_r (s : string) (a : value) : py_eq a (VStr s) = true -> a = VStr s.
Proof.
  destruct a; cbn; try discriminate.
  intro H. apply String.eqb_eq in H. now subst.
Qed.

Lemma encapsulation_lots_app (l m : list dict) :
  encapsulation_lots (l ++ m) = (encapsulation_lots l ++ encapsulation_lots m)%list.
Proof. unfold encapsulation_lots. now rewrite filter_app, map_app. Qed.

Lemma not_encapsulation_step_lots (w w' : World) :
  not_encapsulation_step w w' ->
  encapsulation_lots (ledger w') = encapsulation_lots (ledger w).
Proof.
  intros [E|(r & E & Hr)]; rewrite E; [reflexivity|].
  rewrite encapsulation_lots_app. unfold encapsulation_lots at 2. cbn [filter].
  rewrite Hr. cbn. apply app_nil_r.
Qed.

Lemma no_duplicate_lot (lot : string) (l : list dict) :
  existsb (has_lot lot) l = false -> ~ In (VStr lot) (encapsulation_lots l).
Proof.
  intros H Hin. unfold encapsulation_lots in Hin.
  apply in_map_iff in Hin. destruct Hin as (r & Hlot & Hr).
  apply filter_In in Hr. destruct Hr as [Hr Henc].
  assert (Hex : existsb (has_lot lot) l = true).
  { apply existsb_exists. exists r. split; [exact Hr|].
    unfold has_lot. rewrite Henc, Hlot. apply py_eq_str_refl. }
  congruence.
Qed.

(** The steps of [create_encapsulation_receipt]: it stops and leaves the
    world as it is, or no encapsulation receipt has the lot yet and it
    appends one with that lot. *)
Lemma encapsulation_step
    (facility_id facility_name facility_cert_type facility_cert_id facility_cert_hash
       lot fill_date batch_id : string)
    (capsule_count : Z) (mg_per_capsule : float)
    (previous_hash : string) (tenant_id : option string) (w : World) :
  let out := create_encapsulation_receipt fromisoformat_ok facility_id facility_name facility_cert_type
               facility_cert_id facility_cert_hash lot fill_date batch_id capsule_count
               mg_per_capsule previous_hash tenant_id w in
  (exists msg, out = (w, Raise (StopRule msg)))
  \/ (existsb (has_lot lot) (ledger w) = false
      /\ exists r, out = ({| ledger := (ledger w ++ [r])%list; ticks := S (ticks w) |}, Return r)
                   /\ get r "receipt_type" = VStr "encapsulation"
                   /\ get r "lot_number" = VStr lot).
Proof.
  cbv zeta. unfold create_encapsulation_receipt.
  destruct (negb (mem_str facility_cert_type FACILITY_CERT_TYPES)); [left; eexists; reflexivity|].
  destruct (negb (contains_char ":" facility_cert_hash)); [left; eexists; reflexivity|].
  unfold bind, load_ledger. cbv beta iota.
  change (existsb _ (ledger w)) with (existsb (has_lot lot) (ledger w)).
  destruct (existsb (has_lot lot) (ledger w)) eqn:E; [left; eexists; reflexivity|].
  destruct (negb (fromisoformat_ok fill_date)); [left; eexists; reflexivity|].
  right. split; [reflexivity|]. rewrite emit_receipt_unfold.
  eexists. split; [reflexivity|]. split.
  - apply sealed_receipt_type. keys_absent.
  - apply sealed_payload_field; [reflexivity| |].
    + cbn. repeat constructor; cbn; intuition discriminate.
    + cbn. tauto.
Qed.

Lemma run_stage_keeps_lots_distinct (c : stage_call) (w : World) :
  NoDup (encapsulation_lots (ledger w)) ->
  NoDup (encapsulation_lots (ledger (world_of (run_stage c w)))).
Proof.
  intro H. destruct c; cbn [run_stage].
  - now rewrite (not_encapsulation_step_lots (catch_step _ _ _ _ _ _ _ w)).
  - now rewrite (not_encapsulation_step_lots (processing_step _ _ _ _ _ _ _ _ _ _ _ _ w)).
  - now rewrite (not_encapsulation_step_lots (testing_step _ _ _ _ _ _ _ _ _ _ _ _ _ _ _ w)).
  - destruct (encapsulation_step facility_id facility_name facility_cert_type facility_cert_id
                facility_cert_hash lot fill_date batch_id capsule_count mg_per_capsule
                previous_hash tenant_id w) as [[msg E]|(Hfresh & r & E & Ht & Hl)];
      rewrite E; cbn [world_of fst ledger]; [exact H|].
    rewrite encapsulation_lots_app. unfold encapsulation_lots at 2. cbn [filter].
    unfold is_encapsulation. rewrite Ht. cbn [py_eq String.eqb Ascii.eqb Bool.eqb map].
    rewrite Hl. apply NoDup_app; [exact H | repeat constructor; intros [] | ].
    intros v Hv [Hv'|[]]. subst v. revert Hv. now apply no_duplicate_lot.
  - now rewrite (not_encapsulation_step_lots (distribution_step _ _ _ _ _ _ _ _ w)).
Qed.

Lemma reachable_lots_distinct (w : World) :
  reachable w -> NoDup (encapsulation_lots (ledger w)).
Proof.
  induction 1 as [n|w c Hw IH]; [constructor|]. now apply run_stage_keeps_lots_distinct.
Qed.

Lemma no_lot_no_match (lot : string) (l : list dict) :
  ~ In (VStr lot) (encapsulation_lots l) -> filter (has_lot lot) l = [].
Proof.
  induction l as [|r l IH]; intro H; [reflexivity|].
  unfold encapsulation_lots in H. cbn [filter] in *. unfold has_lot at 1.
  destruct (is_encapsulation r) eqn:E; cbn [andb].
  - cbn [map] in H.
    destruct (py_eq (get r "lot_number") (VStr lot)) eqn:El.
    + apply py_eq_str_r in El. exfalso. apply H. now left.
    + apply IH. intro Hin. apply H. now right.
  - apply IH. exact H.
Qed.

Lemma distinct_lots_at_most_one (lot : string) (l : list dict) :
  NoDup (encapsulation_lots l) -> (List.length (filter (has_lot lot) l) <= 1)%nat.
Proof.
  induction l as [|r l IH]; intro H; [cbn; lia|].
  unfold encapsulation_lots in H. cbn [filter] in *. unfold has_lot at 1.
  destruct (is_encapsulation r) eqn:E; cbn [andb].
  - cbn [map] in H. inversion H as [|? ? Hnot Hnd]; subst.
    destruct (py_eq (get r "lot_number") (VStr lot)) eqn:El.
    + apply py_eq_str_r in El. rewrite El in Hnot.
      fold (encapsulation_lots l) in Hnot.
      rewrite (no_lot_no_match lot l Hnot). cbn. lia.
    + now apply IH.
  - now apply IH.
Qed.

(** C5.  [create_encapsulation_receipt] stops, and leaves the ledger as it
    is, whenever an encapsulation receipt of the ledger has the lot number;
    and a ledger built by the stage validators from an absent file has at
    most one encapsulation receipt for each lot number. *)
Theorem lot_number_unique :
  (forall (facility_id facility_name facility_cert_type facility_cert_id facility_cert_hash
             lot fill_date batch_id : string)
          (capsule_count : Z) (mg_per_capsule : float)
          (previous_hash : string) (tenant_id : option string) (w : World),
      existsb (has_lot lot) (ledger w) = true ->
      exists msg,
        create_encapsulation_receipt fromisoformat_ok facility_id facility_name facility_cert_type
          facility_cert_id facility_cert_hash lot fill_date batch_id capsule_count
          mg_per_capsule previous_hash tenant_id w
        = (w, Raise (StopRule msg)))
  /\ (forall w : World,
         reachable w ->
         forall lot : string, (List.length (filter (has_lot lot) (ledger w)) <= 1)%nat).
Proof.
  split.
  - intros. 
    destruct (encapsulation_step facility_id facility_name facility_cert_type facility_cert_id
                facility_cert_hash lot fill_date batch_id capsule_count mg_per_capsule
                previous_hash tenant_id w) as [Hstop|[Hfresh _]]; [exact Hstop | congruence].
  - intros w Hw lot. apply distinct_lots_at_most_one. now apply reachable_lots_distinct.
Qed.

End Lots.

(** ** Fraud checks *)

Lemma pair_inj {A B : Type} (a c : A) (b d : B) : (a, b) = (c, d) -> a = c /\ b = d.
Proof. intro H. injection H as H1 H2. auto. Qed.

Lemma Return_inj {A : Type} (a b : A) : Return a = Return b -> a = b.
Proof. intro H. now injection H. Qed.

Lemma dict_set_truthy (d : dict) (k : string) (v : value) : truthy (VDict (dict_set d k v)) = true.
Proof. destruct d as [|[k0 v0] d]; cbn; [reflexivity|]. now destruct (String.eqb k k0). Qed.

Lemma sealed_truthy (env : dict) : truthy (VDict (sealed env)) = true.
Proof. apply dict_set_truthy. Qed.

(** What a check reports about a receipt: the kind of anomaly and its
    severity. *)
Definition verdict : Type := (string * string)%type.

(** The part of a receipt under one field, [receipt.get(k, {})], when it is
    a dict. *)
Definition part (r : dict) (k : string) : dict :=
  match get_or r k (VDict []) with
  | VDict d => d
  | _ => []
  end.

(** A stored number above a limit; a field that holds no number is not. *)
Definition above (v : value) (c : num) : bool :=
  match num_of v with
  | Some n => num_gtb n c
  | None => false
  end.

(** The yield check: a processing receipt flagged for dilution is reported
    as [YIELD_HIGH], one with a low yield as [YIELD_LOW]. *)
Definition yield_verdict (r : dict) : option verdict :=
  match get r "yield_status" with
  | VStr status =>
      if String.eqb status "HIGH_DILUTION_FLAG" then Some ("YIELD_HIGH", "FLAG")
      else if String.eqb status "LOW" then Some ("YIELD_LOW", "WARNING")
      else None
  | _ => None
  end.

(** The label check: a potency that did not pass is reported as
    [LABEL_FRAUD]. *)
Definition label_verdict (r : dict) : option verdict :=
  if truthy (get_or (part r "potency") "potency_pass" (VBool true)) then None
  else Some ("LABEL_FRAUD", "FLAG").

(** The contaminant check: contaminants that did not all pass are reported
    as [CONTAMINANT_EXCEED]. *)
Definition contaminant_verdict (r : dict) : option verdict :=
  if truthy (get_or (part r "contaminants") "all_pass" (VBool true)) then None
  else Some ("CONTAMINANT_EXCEED", "REJECT").

(** The cold-chain check: a tracked cold chain with a maximum above 8.0
    degrees, or else with more than 3 deviations, is reported as
    [COLD_CHAIN_DEGRADATION]. *)
Definition cold_chain_verdict (r : dict) : option verdict :=
  let cold_chain := part r "cold_chain" in
  if truthy (get_or cold_chain "enabled" (VBool false)) then
    if above (get cold_chain "max_temp_c") (NFloat 8) then
      Some ("COLD_CHAIN_DEGRADATION", "FLAG")
    else if above (get_or cold_chain "deviations_count" (VInt 0)) (NInt 3) then
      Some ("COLD_CHAIN_DEGRADATION", "WARNING")
    else None
  else None.

(** The checks made on a receipt, by its type, in the order they are made. *)
Definition checks_of (r : dict) : list (dict -> option verdict) :=
  match get r "receipt_type" with
  | VStr receipt_type =>
      if String.eqb receipt_type "processing" then [yield_verdict]
      else if String.eqb receipt_type "testing" then [label_verdict; contaminant_verdict]
      else if String.eqb receipt_type "distribution" then [cold_chain_verdict]
      else []
  | _ => []
  end.

Definition reported (o : option verdict) : list verdict :=
  match o with
  | Some vd => [vd]
  | None => []
  end.

(** What the checks of a receipt report, in their order. *)
Definition verdicts (r : dict) : list verdict :=
  flat_map (fun check : dict -> option verdict => reported (check r)) (checks_of r).

(** The anomaly receipt [a] is the report [vd] about the receipt [r]: it
    has the kind and the severity of the report and names the hash of [r] as
    its source. *)
Definition reports (r : dict) (vd : verdict) (a : dict) : Prop :=
  get a "receipt_type" = VStr "anomaly"
  /\ get a "anomaly_type" = VStr (fst vd)
  /\ get a "severity" = VStr (snd vd)
  /\ get a "source_receipt_hash" = get_or r "payload_hash" (VStr "").

(** The findings about one receipt of the chain: one anomaly receipt for
    each report of its checks, in the order of the checks. *)
Definition findings_about (r : dict) (fs : list dict) : Prop :=
  Forall2 (reports r) (verdicts r) fs.

Lemma emit_anomaly (r payload : dict) (vd : verdict) (tenant_id : value) (w w1 : World)
    (o : option dict) :
  NoDup (keys payload) ->
  ~ In "receipt_type" (keys payload) ->
  In ("anomaly_type", VStr (fst vd)) payload ->
  In ("severity", VStr (snd vd)) payload ->
  In ("source_receipt_hash", get_or r "payload_hash" (VStr "")) payload ->
  bind (emit_receipt "anomaly" payload tenant_id) (fun anomaly => ret (Some anomaly)) w
  = (w1, Return o) ->
  exists a, o = Some a /\ ledger w1 = (ledger w ++ [a])%list
            /\ reports r vd a /\ truthy (VDict a) = true.
Proof.
  intros Hnd Hrt Hkind Hsev Hsrc H. unfold bind in H. rewrite emit_receipt_unfold in H.
  unfold ret in H. apply pair_inj in H as [Hw Ho]. apply Return_inj in Ho.
  subst w1 o. eexists. split; [reflexivity|]. split; [reflexivity|].
  split; [|apply sealed_truthy].
  split; [now apply sealed_receipt_type|].
  split; [|split]; now apply sealed_payload_field.
Qed.

(** What a detector does when it returns: it reports nothing and leaves the
    world as it is, or it appends one anomaly receipt to the ledger and
    returns it, according to the verdict of its check. *)
Definition detects (detect : dict -> M (option dict)) (check : dict -> option verdict) : Prop :=
  forall (r : dict) (w w1 : World) (o : option dict),
    detect r w = (w1, Return o) ->
    match check r with
    | None => o = None /\ w1 = w
    | Some vd =>
        exists a, o = Some a /\ ledger w1 = (ledger w ++ [a])%list
                  /\ reports r vd a /\ truthy (VDict a) = true
    end.

Ltac nodup_keys := cbn; repeat constructor; cbn; intuition discriminate.

Ltac found_anomaly H :=
  eapply emit_anomaly; [| | | | | exact H];
  [nodup_keys | keys_absent | cbn; tauto | cbn; tauto | cbn; tauto].

Ltac nothing_found H :=
  unfold ret in H; apply pair_inj in H as [Hw Ho]; apply Return_inj in Ho; auto.

Lemma py_eq_text (v : value) (s : string) :
  py_eq v (VStr s) = match v with VStr t => String.eqb t s | _ => false end.
Proof. destruct v; reflexivity. Qed.

Lemma as_dict_part (r : dict) (k : string) (d : dict) :
  as_dict (get_or r k (VDict [])) = Return d -> part r k = d.
Proof.
  unfold part. destruct (get_or r k (VDict [])); cbn; try discriminate.
  intro H. now apply Return_inj in H.
Qed.

Lemma gt_num_above (v : value) (c : num) (b : bool) :
  gt_num v c = Return b -> above v c = b.
Proof.
  unfold gt_num, above. destruct (num_of v); [|discriminate].
  intro H. now apply Return_inj in H.
Qed.

Lemma detect_yield_anomaly_detects : detects detect_yield_anomaly yield_verdict.
Proof.
  intros r w w1 o H. unfold detect_yield_anomaly in H. unfold yield_verdict.
  rewrite !py_eq_text in H.
  destruct (get r "yield_status") as [| | | |status| |]; try (nothing_found H).
  destruct (String.eqb status "HIGH_DILUTION_FLAG").
  - unfold bind at 1 in H. unfold lift in H.
    destruct (format_percent (get_or r "yield_ratio" (VInt 0)) 1) as [shown|e];
      [|discriminate H].
    found_anomaly H.
  - destruct (String.eqb status "LOW").
    + unfold bind at 1 in H. unfold lift in H.
      destruct (format_percent (get_or r "yield_ratio" (VInt 0)) 1) as [shown|e];
        [|discriminate H].
      found_anomaly H.
    + nothing_found H.
Qed.

Lemma detect_label_fraud_detects : detects detect_label_fraud label_verdict.
Proof.
  intros r w w1 o H. unfold detect_label_fraud in H. unfold label_verdict.
  unfold bind at 1 in H. unfold lift at 1 in H.
  destruct (as_dict (get_or r "potency" (VDict []))) as [potency|e] eqn:Ep; [|discriminate H].
  rewrite (as_dict_part _ _ Ep).
  destruct (truthy (get_or potency "potency_pass" (VBool true))); cbn [negb] in H;
    [nothing_found H|].
  unfold bind at 1 in H. unfold lift at 1 in H.
  destruct (gt_num (get_or potency "label_claim_mg" (VInt 0)) (NInt 0)) as [positive|e];
    [|discriminate H].
  unfold bind at 1 in H.
  match type of H with
  | match ?m w with _ => _ end = _ => destruct (m w) as [w2 [pct|e]] eqn:Epct; [|discriminate H]
  end.
  assert (Hw2 : w2 = w).
  { destruct positive.
    - unfold bind, lift in Epct.
      destruct (py_truediv _ _); [|discriminate Epct].
      unfold ret in Epct. now apply pair_inj in Epct as [-> _].
    - unfold ret in Epct. now apply pair_inj in Epct as [-> _]. }
  subst w2.
  unfold bind at 1 in H. unfold lift at 1 in H.
  destruct (format_fixed (get_or potency "total_omega3_mg" (VInt 0)) 0) as [total_text|e];
    [|discriminate H].
  unfold bind at 1 in H. unfold lift at 1 in H.
  destruct (format_fixed pct 1) as [pct_text|e]; [|discriminate H].
  unfold bind at 1 in H. unfold lift at 1 in H.
  destruct (format_fixed (get_or potency "label_claim_mg" (VInt 0)) 0) as [claim_text|e];
    [|discriminate H].
  found_anomaly H.
Qed.

Lemma detect_contaminant_exceed_detects :
  detects detect_contaminant_exceed contaminant_verdict.
Proof.
  intros r w w1 o H. unfold detect_contaminant_exceed in H. unfold contaminant_verdict.
  unfold bind at 1 in H. unfold lift at 1 in H.
  destruct (as_dict (get_or r "contaminants" (VDict []))) as [contaminants|e] eqn:Ec;
    [|discriminate H].
  rewrite (as_dict_part _ _ Ec).
  destruct (truthy (get_or contaminants "all_pass" (VBool true))); cbn [negb] in H;
    [nothing_found H|].
  found_anomaly H.
Qed.

Lemma detect_cold_chain_degradation_detects :
  detects detect_cold_chain_degradation cold_chain_verdict.
Proof.
  intros r w w1 o H. unfold detect_cold_chain_degradation in H. unfold cold_chain_verdict.
  unfold bind at 1 in H. unfold lift at 1 in H.
  destruct (as_dict (get_or r "cold_chain" (VDict []))) as [cold_chain|e] eqn:Ec;
    [|discriminate H].
  rewrite (as_dict_part _ _ Ec). cbv zeta.
  destruct (truthy (get_or cold_chain "enabled" (VBool false))); cbn [negb] in H;
    [|nothing_found H].
  unfold bind at 1 in H.
  match type of H with
  | match ?m w with _ => _ end = _ => destruct (m w) as [w2 [too_warm|e]] eqn:Ewarm; [|discriminate H]
  end.
  assert (Hwarm : w2 = w /\ above (get cold_chain "max_temp_c") (NFloat 8) = too_warm).
  { destruct (get cold_chain "max_temp_c") eqn:Emax; cbn [is_none] in Ewarm;
      try (unfold lift in Ewarm; apply pair_inj in Ewarm as [-> Eb];
           split; [reflexivity | now apply gt_num_above]).
    unfold ret in Ewarm. apply pair_inj in Ewarm as [-> Eb]. apply Return_inj in Eb.
    subst too_warm. split; reflexivity. }
  destruct Hwarm as [-> ->]. destruct too_warm.
  - found_anomaly H.
  - unfold bind at 1 in H. unfold lift at 1 in H.
    destruct (gt_num (get_or cold_chain "deviations_count" (VInt 0)) (NInt 3)) as [many|e] eqn:Em;
      [|discriminate H].
    rewrite (gt_num_above _ _ Em).
    destruct many; [found_anomaly H | nothing_found H].
Qed.

Lemma append_found_spec (r : dict) (check : option verdict) (acc : list dict) (w w1 : World)
    (o : option dict) :
  match check with
  | None => o = None /\ w1 = w
  | Some vd =>
      exists a, o = Some a /\ ledger w1 = (ledger w ++ [a])%list
                /\ reports r vd a /\ truthy (VDict a) = true
  end ->
  exists fs, append_found acc o = (acc ++ fs)%list
             /\ ledger w1 = (ledger w ++ fs)%list
             /\ Forall2 (reports r) (reported check) fs.
Proof.
  destruct check as [vd|].
  - intros (a & -> & Hl & Hf & Ht). exists [a]. cbn [append_found reported]. rewrite Ht.
    repeat split; auto.
  - intros [-> ->]. exists []. cbn. rewrite !app_nil_r. repeat split; auto.
Qed.

Lemma check_receipt_findings (r : dict) (acc acc1 : list dict) (w w1 : World) :
  check_receipt r acc w = (w1, Return acc1) ->
  exists fs, acc1 = (acc ++ fs)%list
             /\ ledger w1 = (ledger w ++ fs)%list
             /\ findings_about r fs.
Proof.
  unfold check_receipt, findings_about, verdicts, checks_of. intro H.
  rewrite !py_eq_text in H.
  assert (Hnone : (w1, Return acc1) = ret acc w ->
                  exists fs, acc1 = (acc ++ fs)%list /\ ledger w1 = (ledger w ++ fs)%list
                             /\ Forall2 (reports r) [] fs).
  { intro E. unfold ret in E. apply pair_inj in E as [-> Ha]. apply Return_inj in Ha.
    subst acc1. exists []. rewrite !app_nil_r. auto. }
  destruct (get r "receipt_type") as [| | | |receipt_type| |];
    try (cbn [flat_map]; apply Hnone; now symmetry).
  destruct (String.eqb receipt_type "processing").
  - unfold bind in H.
    destruct (detect_yield_anomaly r w) as [w2 [o|e]] eqn:E; [|discriminate H].
    unfold ret in H. apply pair_inj in H as [-> Ha]. apply Return_inj in Ha. subst acc1.
    apply detect_yield_anomaly_detects in E.
    destruct (@append_found_spec r (yield_verdict r) acc w w1 o E) as (fs & H1 & H2 & H3).
    exists fs. cbn [flat_map]. rewrite app_nil_r. auto.
  - destruct (String.eqb receipt_type "testing").
    + unfold bind at 1 in H.
      destruct (detect_label_fraud r w) as [w2 [o|e]] eqn:E; [|discriminate H].
      unfold bind in H.
      destruct (detect_contaminant_exceed r w2) as [w3 [o'|e]] eqn:E'; [|discriminate H].
      unfold ret in H. apply pair_inj in H as [-> Ha]. apply Return_inj in Ha. subst acc1.
      apply detect_label_fraud_detects in E. apply detect_contaminant_exceed_detects in E'.
      destruct (@append_found_spec r (label_verdict r) acc w w2 o E) as (fs & H1 & H2 & H3).
      destruct (@append_found_spec r (contaminant_verdict r) (append_found acc o) w2 w1 o' E')
        as (fs' & H1' & H2' & H3').
      exists (fs ++ fs')%list. rewrite H1', H1, H2', H2, !app_assoc.
      cbn [flat_map]. rewrite app_nil_r.
      repeat split; auto. now apply Forall2_app.
    + destruct (String.eqb receipt_type "distribution").
      * unfold bind in H.
        destruct (detect_cold_chain_degradation r w) as [w2 [o|e]] eqn:E; [|discriminate H].
        unfold ret in H. apply pair_inj in H as [-> Ha]. apply Return_inj in Ha. subst acc1.
        apply detect_cold_chain_degradation_detects in E.
        destruct (@append_found_spec r (cold_chain_verdict r) acc w w1 o E) as (fs & H1 & H2 & H3).
        exists fs. cbn [flat_map]. rewrite app_nil_r. auto.
      * cbn [flat_map]. apply Hnone. now symmetry.
Qed.

Lemma check_each_findings (chain : list dict) :
  forall (acc found : list dict) (w w' : World),
    check_each chain acc w = (w', Return found) ->
    exists per : list (list dict),
      found = (acc ++ List.concat per)%list
      /\ ledger w' = (ledger w ++ List.concat per)%list
      /\ Forall2 findings_about chain per.
Proof.
  induction chain as [|r chain IH]; intros acc found w w' H; cbn [check_each] in H.
  - unfold ret in H. apply pair_inj in H as [-> Ha]. apply Return_inj in Ha. subst found.
    exists []. cbn. rewrite !app_nil_r. auto.
  - unfold bind in H.
    destruct (check_receipt r acc w) as [w1 [acc1|e]] eqn:E; [|discriminate H].
    apply check_receipt_findings in E. destruct E as (fs & -> & Hl & Hf).
    apply IH in H. destruct H as (per & -> & Hl' & Hper).
    exists (fs :: per). cbn [List.concat]. rewrite Hl', Hl, !app_assoc. auto.
Qed.

(** C6, as amended.  The checks are made receipt by receipt in the order of
    the given list, each receipt by the checks of its type: a processing
    receipt by the yield check, a testing receipt by the label check and
    then the contaminant check, a distribution receipt by the cold-chain
    check, any other receipt by none.  The list returned holds one anomaly
    receipt for each report of a check, of the kind and severity of the
    report and naming the checked receipt as its source, grouped by receipt
    in the order of the list; and these findings are what the call appends
    to the ledger, in that order. *)
Theorem fraud_checks_follow_list_order (chain found : list dict) (w w' : World) :
  run_all_fraud_checks chain w = (w', Return found) ->
  exists per : list (list dict),
    found = List.concat per
    /\ ledger w' = (ledger w ++ found)%list
    /\ Forall2 findings_about chain per.
Proof.
  intro H. apply check_each_findings in H. destruct H as (per & -> & Hl & Hper).
  exists per. auto.
Qed.

(** ** Chain verification *)

Definition tick (w : World) : World := {| ledger := ledger w; ticks := S (ticks w) |}.

Definition link_errors (dist encap : dict) : list string :=
  if negb (py_eq (get dist "previous_hash") (get encap "payload_hash")) then
    ["Distribution previous_hash does not match encapsulation payload_hash"]
  else [].

Definition chain_report (lot now : string) (errs : list string) (chain : list dict)
    (rs : list (value * dict)) : chain_result :=
  {| lot_number := lot;
     chain_length := List.length chain;
     chain_valid := Nat.eqb (List.length errs) 0 && Nat.eqb (List.length chain) 5;
     receipts := rs;
     errors := errs;
     verified_at := now |}.

(** [verify_chain], one decision after the other. *)
Lemma verify_chain_unfold (lot : string) (w : World) :
  verify_chain lot w
  = (tick w,
     match present (_find_distribution_by_lot lot (ledger w)) with
     | None =>
         Return {| lot_number := lot; chain_length := 0; chain_valid := false;
                   receipts := [];
                   errors := ["No distribution receipt found for lot " ++ lot];
                   verified_at := clock (ticks w) |}
     | Some dist =>
         match present (_find_encapsulation_by_lot lot (ledger w)) with
         | None =>
             Return {| lot_number := lot; chain_length := 0; chain_valid := false;
                       receipts := [];
                       errors := ["No encapsulation receipt found for lot " ++ lot];
                       verified_at := clock (ticks w) |}
         | Some encap =>
             match walk_back ["testing"; "processing"; "catch"] (ledger w) encap
                     [dist; encap] (link_errors dist encap) with
             | Raise e => Raise e
             | Return walked =>
                 match by_type (fst walked) [] with
                 | Raise e => Raise e
                 | Return rs =>
                     Return (chain_report lot (clock (ticks w))
                               (snd walked ++ hash_errors (fst walked))%list (fst walked) rs)
                 end
             end
         end
     end).
Proof.
  unfold verify_chain, bind, load_ledger, utc_now, lift, ret, tick, link_errors, chain_report.
  cbn [ledger ticks].
  destruct (present (_find_distribution_by_lot lot (ledger w))); [|reflexivity].
  destruct (present (_find_encapsulation_by_lot lot (ledger w))); [|reflexivity].
  destruct (walk_back _ _ _ _ _) as [walked|e]; [|reflexivity].
  destruct (by_type (fst walked) []); reflexivity.
Qed.

(** One hop of the walk: the current receipt names a previous hash, the
    first receipt of the ledger with that payload hash is [prev], and [prev]
    has the expected type. *)
Definition hop (all : list dict) (current prev : dict) (expected_type : string) : Prop :=
  truthy (get current "previous_hash") = true
  /\ _find_receipt_by_hash (get current "previous_hash") all = Some prev
  /\ py_eq (get prev "receipt_type") (VStr expected_type) = true.

Fixpoint hops (all : list dict) (current : dict) (expected : list string) (prevs : list dict)
    : Prop :=
  match expected, prevs with
  | [], [] => True
  | expected_type :: more, prev :: rest =>
      hop all current prev expected_type /\ hops all prev more rest
  | _, _ => False
  end.

Lemma py_eq_none_l (b : value) : py_eq VNone b = true -> b = VNone.
Proof. destruct b; cbn; try discriminate. reflexivity. Qed.

Lemma get_nil (k : string) : get [] k = VNone.
Proof. reflexivity. Qed.

Lemma found_by_hash_truthy (h : value) (all : list dict) (r : dict) :
  _find_receipt_by_hash h all = Some r -> truthy h = true -> truthy (VDict r) = true.
Proof.
  intros H Ht. unfold _find_receipt_by_hash in H. apply find_some in H as [_ H].
  destruct r as [|kv r]; [|reflexivity].
  rewrite get_nil in H. apply py_eq_none_l in H. subst h. discriminate.
Qed.

Lemma found_by_type_truthy (p : dict -> bool) (ty : string) (all : list dict) (r : dict) :
  find (fun r => py_eq (get r "receipt_type") (VStr ty) && p r) all = Some r ->
  truthy (VDict r) = true /\ get r "receipt_type" = VStr ty /\ p r = true.
Proof.
  intro H. apply find_some in H as [_ H]. apply andb_true_iff in H as [H1 H2].
  apply py_eq_str_r in H1. repeat split; auto.
  destruct r; [discriminate H1 | reflexivity].
Qed.

Lemma present_some (o : option dict) (r : dict) :
  present o = Some r <-> o = Some r /\ truthy (VDict r) = true.
Proof.
  unfold present. destruct o as [r0|]; [|split; [discriminate | intros [? _]; discriminate]].
  destruct (truthy (VDict r0)) eqn:E; split.
  - intro H. injection H as ->. auto.
  - intros [H _]. exact H.
  - discriminate.
  - intros [H Ht]. injection H as ->. congruence.
Qed.

Lemma app_eq_nil_l {A : Type} (l m : list A) : (l ++ m)%list = [] -> l = [] /\ m = [].
Proof. destruct l; cbn; [auto | discriminate]. Qed.

Lemma walk_back_clean (expected : list string) (all : list dict) :
  forall (current : dict) (chain chain' : list dict) (errs : list string),
    walk_back expected all current chain errs = Return (chain', []) ->
    List.length chain' = (List.length chain + List.length expected)%nat ->
    errs = [] /\ exists prevs, chain' = (chain ++ prevs)%list /\ hops all current expected prevs.
Proof.
  induction expected as [|ty more IH]; intros current chain chain' errs H Hlen; cbn [walk_back] in H.
  - apply Return_inj in H. apply pair_inj in H as [-> ->].
    split; [reflexivity|]. exists []. now rewrite app_nil_r.
  - destruct (truthy (get current "previous_hash")) eqn:Et; cbn [negb] in H.
    2:{ apply Return_inj in H. apply pair_inj in H as [_ H].
        apply app_eq_nil_l in H as [_ H]. discriminate. }
    destruct (present (_find_receipt_by_hash (get current "previous_hash") all)) as [prev|] eqn:Ef.
    2:{ destruct (slice40 (get current "previous_hash")); [|discriminate].
        apply Return_inj in H. apply pair_inj in H as [_ H].
        apply app_eq_nil_l in H as [_ H]. discriminate. }
    apply IH in H.
    2:{ rewrite Hlen, length_app. cbn. lia. }
    destruct H as (Herrs & prevs & -> & Hhops).
    apply present_some in Ef as [Ef _].
    destruct (py_eq (get prev "receipt_type") (VStr ty)) eqn:Ety; cbn [negb] in Herrs.
    2:{ apply app_eq_nil_l in Herrs as [_ H]. discriminate. }
    split; [exact Herrs|]. exists (prev :: prevs). rewrite <- app_assoc.
    split; [reflexivity|]. cbn [hops]. unfold hop. auto.
Qed.

Lemma walk_back_hops (expected : list string) (all : list dict) :
  forall (current : dict) (prevs chain : list dict) (errs : list string),
    hops all current expected prevs ->
    walk_back expected all current chain errs = Return ((chain ++ prevs)%list, errs).
Proof.
  induction expected as [|ty more IH]; intros current [|prev prevs] chain errs H;
    cbn [hops] in H; try contradiction.
  - cbn. now rewrite app_nil_r.
  - destruct H as [(Ht & Hf & Hty) Hrest]. cbn [walk_back].
    rewrite Ht. cbn [negb].
    assert (Hp : present (_find_receipt_by_hash (get current "previous_hash") all) = Some prev).
    { apply present_some. split; [exact Hf|]. now apply (found_by_hash_truthy _ _ Hf). }
    rewrite Hp, Hty. cbn [negb].
    rewrite (IH prev prevs (chain ++ [prev])%list errs Hrest).
    now rewrite <- app_assoc.
Qed.

Lemma hops_length (all : list dict) (expected : list string) :
  forall (current : dict) (prevs : list dict),
    hops all current expected prevs -> List.length prevs = List.length expected.
Proof.
  induction expected as [|ty more IH]; intros current [|prev prevs] H; cbn [hops] in H;
    try contradiction; [reflexivity|].
  destruct H as [_ H]. cbn. f_equal. eauto.
Qed.

Lemma hash_errors_nil (chain : list dict) :
  hash_errors chain = [] <-> forallb verify_single_receipt chain = true.
Proof.
  unfold hash_errors. induction chain as [|r chain IH]; cbn; [tauto|].
  destruct (verify_single_receipt r); cbn; [exact IH|].
  split; discriminate.
Qed.

Lemma by_type_returns (chain : list dict) :
  forall acc : list (value * dict),
    Forall (fun r => hashable (get r "receipt_type") = true) chain ->
    exists rs, by_type chain acc = Return rs.
Proof.
  induction chain as [|r chain IH]; intros acc H; cbn [by_type]; [eauto|].
  inversion H as [|? ? Hr Hrest]; subst. rewrite Hr. now apply IH.
Qed.

(** What the walk of [verify_chain] finds when it reports no error: five
    receipts, found by its lookups, of the five stage types, linked by their
    hashes, each of which verifies. *)
Definition walked_chain (lot : string) (all : list dict) (chain : list dict) : Prop :=
  exists dist encap testing processing catch,
    chain = [dist; encap; testing; processing; catch]
    /\ _find_distribution_by_lot lot all = Some dist
    /\ _find_encapsulation_by_lot lot all = Some encap
    /\ py_eq (get dist "previous_hash") (get encap "payload_hash") = true
    /\ hop all encap testing "testing"
    /\ hop all testing processing "processing"
    /\ hop all processing catch "catch"
    /\ forallb verify_single_receipt chain = true.

Lemma walked_chain_accepted (lot : string) (w : World) (chain : list dict) :
  walked_chain lot (ledger w) chain ->
  exists rs,
    verify_chain lot w = (tick w, Return (chain_report lot (clock (ticks w)) [] chain rs)).
Proof.
  intros (dist & encap & testing & processing & catch & -> & Hd & He & Hlink & Ht & Hp & Hc & Hv).
  rewrite verify_chain_unfold.
  pose proof Hd as Hd'. pose proof He as He'.
  unfold _find_distribution_by_lot in Hd'. apply found_by_type_truthy in Hd' as (Hdt & Hdty & _).
  unfold _find_encapsulation_by_lot in He'. apply found_by_type_truthy in He' as (Het & Hety & _).
  rewrite (proj2 (present_some _ dist) (conj Hd Hdt)).
  rewrite (proj2 (present_some _ encap) (conj He Het)).
  unfold link_errors. rewrite Hlink. cbn [negb].
  rewrite (@walk_back_hops ["testing"; "processing"; "catch"] (ledger w) encap
             [testing; processing; catch] [dist; encap] []).
  2:{ cbn [hops]. auto. }
  cbn [fst snd app].
  destruct (@by_type_returns [dist; encap; testing; processing; catch] []) as [rs Hrs].
  { destruct Ht as (_ & _ & Ht). destruct Hp as (_ & _ & Hp). destruct Hc as (_ & _ & Hc).
    apply py_eq_str_r in Ht, Hp, Hc.
    repeat constructor; try rewrite Hdty; try rewrite Hety; try rewrite Ht; try rewrite Hp;
      try rewrite Hc; reflexivity. }
  rewrite Hrs. exists rs.
  rewrite (proj2 (hash_errors_nil _) Hv). reflexivity.
Qed.

Lemma accepted_walked_chain (lot : string) (w : World) (res : chain_result) :
  result_of (verify_chain lot w) = Return res ->
  chain_valid res = true ->
  chain_length res = 5%nat /\ errors res = []
  /\ exists chain, walked_chain lot (ledger w) chain.
Proof.
  rewrite verify_chain_unfold. cbn [result_of snd].
  destruct (present (_find_distribution_by_lot lot (ledger w))) as [dist|] eqn:Ed.
  2:{ intro H. apply Return_inj in H. subst res. discriminate. }
  destruct (present (_find_encapsulation_by_lot lot (ledger w))) as [encap|] eqn:Ee.
  2:{ intro H. apply Return_inj in H. subst res. discriminate. }
  destruct (walk_back _ _ _ _ _) as [[chain errs]|e] eqn:Ew; [|discriminate].
  cbn [fst snd]. destruct (by_type chain []) as [rs|e]; [|discriminate].
  intro H. apply Return_inj in H. subst res. cbn [chain_report chain_valid chain_length errors].
  intro Hvalid. apply andb_true_iff in Hvalid as [Herr Hlen].
  apply Nat.eqb_eq in Herr, Hlen. apply length_zero_iff_nil in Herr.
  apply app_eq_nil_l in Herr as [Herrs Hhash]. subst errs.
  split; [exact Hlen|]. split; [now rewrite Hhash|].
  apply walk_back_clean in Ew; [|rewrite Hlen; reflexivity].
  destruct Ew as (Hlink & prevs & -> & Hhops).
  apply present_some in Ed as [Ed _]. apply present_some in Ee as [Ee _].
  destruct prevs as [|testing prevs]; cbn [hops] in Hhops; [contradiction|].
  destruct Hhops as [Ht Hhops].
  destruct prevs as [|processing prevs]; cbn [hops] in Hhops; [contradiction|].
  destruct Hhops as [Hp Hhops].
  destruct prevs as [|catch prevs]; cbn [hops] in Hhops; [contradiction|].
  destruct Hhops as [Hc Hhops].
  destruct prevs as [|extra prevs]; cbn [hops] in Hhops; [|contradiction].
  exists [dist; encap; testing; processing; catch].
  exists dist, encap, testing, processing, catch.
  repeat split; try tauto; try apply Ht; try apply Hp; try apply Hc.
  - unfold link_errors in Hlink.
    destruct (py_eq (get dist "previous_hash") (get encap "payload_hash"));
      [reflexivity | discriminate].
  - now apply hash_errors_nil.
Qed.

(** *** The valid chain of the specification *)

(** The payload hash a receipt stores is the dual hash of its canonical
    text, the two hash fields left out. *)
Definition hash_recomputes (r : dict) : Prop :=
  get r "payload_hash" = VStr (dual_hash (canonical_bytes (without_hashes r))).

(** [r] is the first receipt of the ledger with the property [P]. *)
Definition first_such (P : dict -> Prop) (all : list dict) (r : dict) : Prop :=
  exists before after : list dict,
    all = (before ++ r :: after)%list /\ P r /\ forall x, In x before -> ~ P x.

(** A receipt of one stage that carries the lot number. *)
Definition stage_of_lot (receipt_type lot : string) (r : dict) : Prop :=
  get r "receipt_type" = VStr receipt_type /\ get r "lot_number" = VStr lot.

(** A receipt with the payload hash that [current] names as its previous
    hash. *)
Definition named_by (current : dict) (x : dict) : Prop :=
  get x "payload_hash" = get current "previous_hash".

(** One hop back: [prev] is the first receipt of the ledger that [current]
    names, and it is of the expected stage. *)
Definition linked (all : list dict) (current prev : dict) (expected_type : string) : Prop :=
  first_such (named_by current) all prev
  /\ get prev "receipt_type" = VStr expected_type.

(** The chain the specification calls valid for a lot, read off the ledger:
    five receipts were collected, the first distribution and the first
    encapsulation receipt of the lot and then, hop by hop, the first receipt
    with the hash the receipt before names; each is of its stage, the
    previous hash of each is the payload hash of the next, and the payload
    hash each one stores is the recomputed one. *)
Definition valid_chain (lot : string) (all : list dict) (chain : list dict) : Prop :=
  exists dist encap testing processing catch,
    chain = [dist; encap; testing; processing; catch]
    /\ first_such (stage_of_lot "distribution" lot) all dist
    /\ first_such (stage_of_lot "encapsulation" lot) all encap
    /\ get dist "previous_hash" = get encap "payload_hash"
    /\ linked all encap testing "testing"
    /\ linked all testing processing "processing"
    /\ linked all processing catch "catch"
    /\ Forall hash_recomputes chain.

Lemma verify_single_receipt_recomputes (r : dict) :
  verify_single_receipt r = true <-> hash_recomputes r.
Proof.
  split; [apply verified_stored_hash|].
  unfold hash_recomputes, verify_single_receipt. fold (without_hashes r).
  fold (canonical_bytes (without_hashes r)). intro H. rewrite H.
  cbn [truthy]. rewrite dual_hash_nonempty. cbn [negb]. apply py_eq_str_refl.
Qed.

Lemma all_verified (chain : list dict) :
  forallb verify_single_receipt chain = true <-> Forall hash_recomputes chain.
Proof.
  rewrite forallb_forall, Forall_forall.
  split; intros H x Hx; apply verify_single_receipt_recomputes; auto.
Qed.

Lemma find_first {A : Type} (p : A -> bool) (l : list A) (r : A) :
  find p l = Some r <->
  exists before after : list A,
    l = (before ++ r :: after)%list /\ p r = true /\ forall x, In x before -> p x = false.
Proof.
  split.
  - induction l as [|a l IH]; cbn [find]; [discriminate|].
    destruct (p a) eqn:Ea.
    + intro H. injection H as ->. exists [], l. repeat split; [exact Ea | contradiction].
    + intro H. destruct (IH H) as (before & after & -> & Hr & Hb).
      exists (a :: before), after. repeat split; [exact Hr|].
      intros x [<-|Hx]; auto.
  - intros (before & after & -> & Hr & Hb).
    induction before as [|a before IH]; cbn [app find].
    + now rewrite Hr.
    + rewrite (Hb a (or_introl eq_refl)). apply IH. intros x Hx. apply Hb. now right.
Qed.

(** The first receipt with a property that a test decides is the one the
    loop of the lookup returns. *)
Lemma first_such_find (P : dict -> Prop) (p : dict -> bool) (all : list dict) (r : dict) :
  (forall x, P x <-> p x = true) ->
  first_such P all r <-> find p all = Some r.
Proof.
  intro Hp. rewrite find_first. unfold first_such.
  split; intros (before & after & E & Hr & Hb); exists before, after;
    (split; [exact E|]); (split; [now apply Hp|]); intros x Hx.
  - destruct (p x) eqn:Ex; [|reflexivity]. exfalso. apply (Hb x Hx). now apply Hp.
  - intro HP. apply Hp in HP. rewrite (Hb x Hx) in HP. discriminate.
Qed.

Lemma py_eq_str_iff (v : value) (s : string) : py_eq v (VStr s) = true <-> v = VStr s.
Proof. split; [apply py_eq_str_r | intros ->; apply py_eq_str_refl]. Qed.

Lemma stage_of_lot_test (receipt_type lot : string) (x : dict) :
  stage_of_lot receipt_type lot x
  <-> py_eq (get x "receipt_type") (VStr receipt_type) && py_eq (get x "lot_number") (VStr lot)
      = true.
Proof. unfold stage_of_lot. now rewrite andb_true_iff, !py_eq_str_iff. Qed.

Lemma named_by_test (current : dict) (h : string) (x : dict) :
  get current "previous_hash" = VStr h ->
  named_by current x <-> py_eq (get x "payload_hash") (get current "previous_hash") = true.
Proof. intro H. unfold named_by. rewrite H. now rewrite py_eq_str_iff. Qed.

(** A hop of the walk to a receipt that verifies is a link of the
    specification, and the other way round. *)
Lemma linked_hop (all : list dict) (current prev : dict) (expected_type : string) :
  hash_recomputes prev ->
  linked all current prev expected_type <-> hop all current prev expected_type.
Proof.
  intro Hprev. unfold linked, hop, _find_receipt_by_hash. rewrite py_eq_str_iff.
  split.
  - intros [Hfirst Hty].
    assert (Hh : get current "previous_hash"
                 = VStr (dual_hash (canonical_bytes (without_hashes prev)))).
    { destruct Hfirst as (_ & _ & _ & Hnamed & _). unfold named_by in Hnamed.
      now rewrite <- Hnamed. }
    split; [|split; [|exact Hty]].
    + rewrite Hh. cbn [truthy]. now rewrite dual_hash_nonempty.
    + now apply (proj1 (@first_such_find _ _ all prev
                          (fun x => @named_by_test current _ x Hh))).
  - intros (_ & Hfind & Hty). split; [|exact Hty].
    assert (Hh : get current "previous_hash"
                 = VStr (dual_hash (canonical_bytes (without_hashes prev)))).
    { apply find_some in Hfind as [_ Hfind]. rewrite Hprev in Hfind.
      now apply py_eq_str_l in Hfind. }
    now apply (proj2 (@first_such_find _ _ all prev
                        (fun x => @named_by_test current _ x Hh))).
Qed.

Lemma valid_chain_walked (lot : string) (all chain : list dict) :
  valid_chain lot all chain <-> walked_chain lot all chain.
Proof.
  unfold valid_chain, walked_chain, _find_distribution_by_lot, _find_encapsulation_by_lot.
  split; intros (dist & encap & testing & processing & catch & -> & Hd & He & Hlink & Ht & Hp
                 & Hc & Hv);
    exists dist, encap, testing, processing, catch; (split; [reflexivity|]).
  - pose proof Hv as Hv'. apply all_verified in Hv'.
    inversion Hv as [|? ? _ Hv1]; subst. inversion Hv1 as [|? ? Hve Hv2]; subst.
    inversion Hv2 as [|? ? Hvt Hv3]; subst. inversion Hv3 as [|? ? Hvp Hv4]; subst.
    inversion Hv4 as [|? ? Hvc _]; subst.
    split; [now apply (proj1 (@first_such_find _ _ all dist
                                (stage_of_lot_test "distribution" lot)))|].
    split; [now apply (proj1 (@first_such_find _ _ all encap
                                (stage_of_lot_test "encapsulation" lot)))|].
    split; [rewrite Hlink, Hve; apply py_eq_str_refl|].
    split; [now apply linked_hop|]. split; [now apply linked_hop|].
    split; [now apply linked_hop | exact Hv'].
  - apply all_verified in Hv.
    inversion Hv as [|? ? _ Hv1]; subst. inversion Hv1 as [|? ? Hve Hv2]; subst.
    inversion Hv2 as [|? ? Hvt Hv3]; subst. inversion Hv3 as [|? ? Hvp Hv4]; subst.
    inversion Hv4 as [|? ? Hvc _]; subst.
    split; [now apply (proj2 (@first_such_find _ _ all dist
                                (stage_of_lot_test "distribution" lot)))|].
    split; [now apply (proj2 (@first_such_find _ _ all encap
                                (stage_of_lot_test "encapsulation" lot)))|].
    split; [rewrite Hve in Hlink |- *; now apply py_eq_str_r|].
    split; [now apply linked_hop|]. split; [now apply linked_hop|].
    split; [now apply linked_hop | exact Hv].
Qed.

(** The five receipts of one lot, fully built and not tampered with: each
    stores its recomputed hash and has its stage type, each names the
    payload hash of the stage before it, and the last two carry the lot
    number. *)
Record built_chain (lot : string) (catch processing testing encap dist : dict) : Prop := {
  built_untampered : Forall hash_recomputes [catch; processing; testing; encap; dist];
  built_types :
    map (fun r => get r "receipt_type") [catch; processing; testing; encap; dist]
    = [VStr "catch"; VStr "processing"; VStr "testing"; VStr "encapsulation";
       VStr "distribution"];
  built_links :
    map (fun r => get r "previous_hash") [processing; testing; encap; dist]
    = map (fun r => get r "payload_hash") [catch; processing; testing; encap];
  built_lots : get encap "lot_number" = VStr lot /\ get dist "lot_number" = VStr lot
}.

(** A receipt with the payload hash of [r]. *)
Definition same_hash (r x : dict) : Prop := get x "payload_hash" = get r "payload_hash".

(** The receipts of the chain are the ones the lookups find in the ledger:
    its distribution and its encapsulation receipt are the first of the lot,
    and its testing, processing and catch receipts are each the first
    receipt with their payload hash. *)
Definition found_first (lot : string) (all : list dict)
    (catch processing testing encap dist : dict) : Prop :=
  first_such (stage_of_lot "distribution" lot) all dist
  /\ first_such (stage_of_lot "encapsulation" lot) all encap
  /\ first_such (same_hash testing) all testing
  /\ first_such (same_hash processing) all processing
  /\ first_such (same_hash catch) all catch.

Lemma first_such_ext (P Q : dict -> Prop) (all : list dict) (r : dict) :
  (forall x, P x <-> Q x) -> first_such P all r -> first_such Q all r.
Proof.
  intros H (before & after & E & Hr & Hb). exists before, after.
  split; [exact E|]. split; [now apply H|]. intros x Hx HQ. apply (Hb x Hx). now apply H.
Qed.

Lemma built_chain_valid (lot : string) (all : list dict)
    (catch processing testing encap dist : dict) :
  built_chain lot catch processing testing encap dist ->
  found_first lot all catch processing testing encap dist ->
  valid_chain lot all [dist; encap; testing; processing; catch].
Proof.
  intros [Hv Hty Hlinks [Hle Hld]] (Hfd & Hfe & Hft & Hfp & Hfc).
  cbn [map] in Hty, Hlinks.
  injection Hty as Htc Htp Htt Hte Htd. injection Hlinks as Hlp Hlt Hlen Hld'.
  exists dist, encap, testing, processing, catch.
  split; [reflexivity|]. split; [exact Hfd|]. split; [exact Hfe|]. split; [exact Hld'|].
  split; [|split; [|split]].
  - split; [|exact Htt]. revert Hft. apply first_such_ext.
    intro x. unfold same_hash, named_by. now rewrite Hlen.
  - split; [|exact Htp]. revert Hfp. apply first_such_ext.
    intro x. unfold same_hash, named_by. now rewrite Hlt.
  - split; [|exact Htc]. revert Hfc. apply first_such_ext.
    intro x. unfold same_hash, named_by. now rewrite Hlp.
  - inversion Hv as [|? ? Hvc Hv1]; subst. inversion Hv1 as [|? ? Hvp Hv2]; subst.
    inversion Hv2 as [|? ? Hvt Hv3]; subst. inversion Hv3 as [|? ? Hve Hv4]; subst.
    inversion Hv4 as [|? ? Hvd _]; subst.
    repeat constructor; assumption.
Qed.

(** C2, as amended.  [verify_chain] reports [chain_valid = true] exactly
    when the walk collects five receipts (the first distribution and the
    first encapsulation receipt of the lot, then hop by hop the first
    receipt with the hash the one before names), of the stage types
    distribution, encapsulation, testing, processing and catch, every
    previous hash is the payload hash of the stage before, and every stored
    payload hash is the recomputed one; it then reports length 5 and no
    error.  A fully built, untampered chain of five receipts for the lot is
    reported valid, with length 5 and no error, in every ledger in which
    its receipts are the ones the lookups find. *)
Theorem verify_chain_valid_iff :
  (forall (lot : string) (w : World),
      (exists res, result_of (verify_chain lot w) = Return res /\ chain_valid res = true)
      <-> (exists chain, valid_chain lot (ledger w) chain))
  /\ (forall (lot : string) (w : World) (res : chain_result),
         result_of (verify_chain lot w) = Return res ->
         chain_valid res = true ->
         chain_length res = 5%nat /\ errors res = [])
  /\ (forall (lot : string) (w : World) (catch processing testing encap dist : dict),
         built_chain lot catch processing testing encap dist ->
         found_first lot (ledger w) catch processing testing encap dist ->
         exists res,
           result_of (verify_chain lot w) = Return res
           /\ chain_valid res = true /\ chain_length res = 5%nat /\ errors res = []).
Proof.
  split; [|split].
  - intros lot w. split.
    + intros (res & Hres & Hvalid).
      destruct (accepted_walked_chain lot w Hres Hvalid) as (_ & _ & chain & H).
      exists chain. now apply valid_chain_walked.
    + intros (chain & Hchain). apply valid_chain_walked in Hchain.
      pose proof Hchain as (d & e & t & p & c & -> & _).
      destruct (@walked_chain_accepted lot w _ Hchain) as (rs & Hrun).
      rewrite Hrun. eexists. split; reflexivity.
  - intros lot w res Hres Hvalid.
    destruct (accepted_walked_chain lot w Hres Hvalid) as (H1 & H2 & _). auto.
  - intros lot w catch processing testing encap dist Hbuilt Hfound.
    pose proof (@built_chain_valid lot (ledger w) catch processing testing encap dist
                  Hbuilt Hfound) as Hvalid.
    apply valid_chain_walked in Hvalid.
    destruct (@walked_chain_accepted lot w _ Hvalid) as (rs & Hrun).
    rewrite Hrun. eexists. split; [reflexivity|]. repeat split.
Qed.

(** ** One line of the ledger rewritten *)

Lemma find_over_app {A : Type} (p : A -> bool) (l m : list A) :
  find p (l ++ m)%list = match find p l with Some x => Some x | None => find p m end.
Proof. induction l as [|a l IH]; cbn; [reflexivity|]. now destruct (p a). Qed.

Section Rewritten.

Variables (pre post : list dict) (r : dict) (k : string) (v v' : value).

Hypothesis first_copy : ~ In r pre.
Hypothesis field_present : lookup r k = Some v.
Hypothesis no_link_field :
  ~ In k ["payload_hash"; "merkle_root"; "previous_hash"; "receipt_type"; "lot_number"].
Hypothesis text_changed : json_dumps v' <> json_dumps v.
Hypothesis no_clash :
  no_collision (canonical_bytes (without_hashes (dict_set r k v')))
    (canonical_bytes (without_hashes r)).

Let r' : dict := dict_set r k v'.

(** A receipt of the ledger and the receipt on its line after the rewrite. *)
Definition rewritten (x x' : dict) : Prop :=
  (x = r /\ x' = r') \/ (x <> r /\ x' = x).

Lemma rewritten_field (key : string) :
  In key ["payload_hash"; "previous_hash"; "receipt_type"; "lot_number"] ->
  get r' key = get r key.
Proof.
  intro H. unfold get, get_or, r'. rewrite lookup_dict_set_neq; [reflexivity|].
  intro E. subst key. apply no_link_field. cbn in *. tauto.
Qed.

Lemma rewritten_get (x x' : dict) (key : string) :
  rewritten x x' ->
  In key ["payload_hash"; "previous_hash"; "receipt_type"; "lot_number"] ->
  get x' key = get x key.
Proof. intros [[-> ->]|[_ ->]] H; [now apply rewritten_field | reflexivity]. Qed.

Lemma find_rewritten (p : dict -> bool) (x : dict) :
  p r' = p r ->
  find p (pre ++ r :: post)%list = Some x ->
  exists x', rewritten x x' /\ find p (pre ++ r' :: post)%list = Some x'.
Proof.
  intros Hp H. rewrite find_over_app in *.
  destruct (find p pre) as [y|] eqn:Ey.
  - injection H as ->. exists x. split; [|reflexivity]. right. split; [|reflexivity].
    intro E. subst x. apply find_some in Ey as [Hin _]. contradiction.
  - cbn [find] in *. rewrite Hp. destruct (p r) eqn:Er.
    + injection H as <-. exists r'. split; [|reflexivity]. left. auto.
    + exists x. split; [|exact H]. right. split; [|reflexivity].
      intro E. subst x. apply find_some in H as [_ H]. congruence.
Qed.

Lemma hop_rewritten (current current' prev : dict) (ty : string) :
  rewritten current current' ->
  hop (pre ++ r :: post)%list current prev ty ->
  exists prev', rewritten prev prev' /\ hop (pre ++ r' :: post)%list current' prev' ty.
Proof.
  intros Hc (Ht & Hf & Hty).
  assert (Hprev : get current' "previous_hash" = get current "previous_hash")
    by (apply rewritten_get; cbn; tauto).
  unfold _find_receipt_by_hash in Hf. apply find_rewritten in Hf.
  2:{ rewrite rewritten_field by (cbn; tauto). reflexivity. }
  destruct Hf as (prev' & Hsw & Hf). exists prev'. split; [exact Hsw|].
  unfold hop, _find_receipt_by_hash. rewrite Hprev.
  rewrite (rewritten_get Hsw) by (cbn; tauto). auto.
Qed.

Definition mismatch (x : dict) : string :=
  "Hash verification failed for " ++ py_str (get x "receipt_type") ++ " receipt".

Lemma r_fails : verify_single_receipt r = true -> verify_single_receipt r' = false.
Proof.
  intros Hv. apply (@tampered_receipt_fails r k v v'); auto.
  destruct (is_hash_field k) eqn:E; [|reflexivity].
  exfalso. apply no_link_field. unfold is_hash_field in E.
  apply orb_true_iff in E as [E|E]; apply String.eqb_eq in E; subst; cbn; tauto.
Qed.

Lemma hash_errors_rewritten (x x' : dict) :
  rewritten x x' -> verify_single_receipt x = true ->
  (x = r /\ hash_errors [x'] = [mismatch r]) \/ (x <> r /\ hash_errors [x'] = []).
Proof.
  intros [[-> ->]|[Hne ->]] Hv.
  - left. split; [reflexivity|]. unfold hash_errors. cbn [flat_map].
    rewrite (r_fails Hv). unfold mismatch.
    rewrite rewritten_field by (cbn; tauto). reflexivity.
  - right. split; [exact Hne|]. unfold hash_errors. cbn [flat_map]. now rewrite Hv.
Qed.

Lemma hash_errors_cons (x : dict) (l : list dict) :
  hash_errors (x :: l) = (hash_errors [x] ++ hash_errors l)%list.
Proof. unfold hash_errors. cbn [flat_map]. now rewrite app_nil_r. Qed.

(** The rewritten ledger: the walk collects the same lines, the links and
    types still match, and the one error is the hash of the rewritten
    receipt. *)
Lemma rewritten_chain_rejected (lot : string) (n : nat) (chain : list dict) :
  walked_chain lot (pre ++ r :: post)%list chain ->
  In r chain ->
  exists chain' rs,
    verify_chain lot {| ledger := (pre ++ r' :: post)%list; ticks := n |}
    = ({| ledger := (pre ++ r' :: post)%list; ticks := S n |},
       Return (chain_report lot (clock n) [mismatch r] chain' rs))
    /\ List.length chain' = 5%nat.
Proof.
  intros (d & e & t & p & c & -> & Hd & He & Hlink & Ht & Hp & Hc & Hv) Hin.
  pose proof Hd as Hd0. pose proof He as He0.
  unfold _find_distribution_by_lot in Hd0. apply found_by_type_truthy in Hd0 as (_ & Hdty & _).
  unfold _find_encapsulation_by_lot in He0. apply found_by_type_truthy in He0 as (_ & Hety & _).
  unfold _find_distribution_by_lot in Hd. apply find_rewritten in Hd.
  2:{ rewrite !rewritten_field by (cbn; tauto). reflexivity. }
  unfold _find_encapsulation_by_lot in He. apply find_rewritten in He.
  2:{ rewrite !rewritten_field by (cbn; tauto). reflexivity. }
  destruct Hd as (d' & Hsd & Hd). destruct He as (e' & Hse & He).
  destruct (hop_rewritten Hse Ht) as (t' & Hst & Ht').
  destruct (hop_rewritten Hst Hp) as (p' & Hsp & Hp').
  destruct (hop_rewritten Hsp Hc) as (c' & Hsc & Hc').
  pose proof Ht as (_ & _ & Htty). pose proof Hp as (_ & _ & Hpty).
  pose proof Hc as (_ & _ & Hcty). apply py_eq_str_r in Htty, Hpty, Hcty.
  assert (Hty' : forall x x', rewritten x x' -> get x' "receipt_type" = get x "receipt_type")
    by (intros; apply rewritten_get; [assumption | cbn; tauto]).
  exists [d'; e'; t'; p'; c'].
  rewrite verify_chain_unfold. unfold tick. cbn [ledger ticks].
  pose proof Hd as Hd1. pose proof He as He1.
  apply found_by_type_truthy in Hd1 as (Hdt & _ & _).
  apply found_by_type_truthy in He1 as (Het & _ & _).
  fold (_find_distribution_by_lot lot (pre ++ r' :: post)%list) in Hd.
  fold (_find_encapsulation_by_lot lot (pre ++ r' :: post)%list) in He.
  rewrite (proj2 (present_some _ d') (conj Hd Hdt)).
  rewrite (proj2 (present_some _ e') (conj He Het)).
  unfold link_errors.
  rewrite (rewritten_get Hsd), (rewritten_get Hse), Hlink by (cbn; tauto). cbn [negb].
  rewrite (@walk_back_hops ["testing"; "processing"; "catch"] _ e' [t'; p'; c'] [d'; e'] []).
  2:{ cbn [hops]. auto. }
  cbn [fst snd app].
  destruct (@by_type_returns [d'; e'; t'; p'; c'] []) as [rs Hrs].
  { repeat constructor;
      erewrite Hty' by eassumption;
      try rewrite Hdty; try rewrite Hety; try rewrite Htty; try rewrite Hpty;
      try rewrite Hcty; reflexivity. }
  rewrite Hrs. exists rs. split; [|reflexivity].
  cbn [forallb] in Hv.
  apply andb_true_iff in Hv as [Hvd Hv]. apply andb_true_iff in Hv as [Hve Hv].
  apply andb_true_iff in Hv as [Hvt Hv]. apply andb_true_iff in Hv as [Hvp Hv].
  apply andb_true_iff in Hv as [Hvc _].
  assert (Herrs : hash_errors [d'; e'; t'; p'; c'] = [mismatch r]).
  { rewrite (hash_errors_cons d'), (hash_errors_cons e'), (hash_errors_cons t'),
      (hash_errors_cons p').
    destruct (hash_errors_rewritten Hsd Hvd) as [[Ed ->]|[Ed ->]];
    destruct (hash_errors_rewritten Hse Hve) as [[Ee ->]|[Ee ->]];
    destruct (hash_errors_rewritten Hst Hvt) as [[Et ->]|[Et ->]];
    destruct (hash_errors_rewritten Hsp Hvp) as [[Ep ->]|[Ep ->]];
    destruct (hash_errors_rewritten Hsc Hvc) as [[Ec ->]|[Ec ->]];
    try reflexivity; exfalso;
    try (cbn [In] in Hin; intuition congruence);
    congruence. }
  now rewrite Herrs.
Qed.

End Rewritten.

(** Two different texts with one SHA-256 digest and one BLAKE3 digest. *)
Definition collision (a b : bytes) : Prop :=
  a <> b /\ sha256 a = sha256 b /\ blake3 a = blake3 b.

Lemma collision_or_not (a b : bytes) : a <> b -> collision a b \/ no_collision a b.
Proof.
  intro Hne. destruct (string_dec (dual_hash a) (dual_hash b)) as [E|N].
  - left. split; [exact Hne|]. now apply dual_hash_parts.
  - right. intro E. contradiction.
Qed.

(** Texts with different SHA-256 digests are no collision, whatever BLAKE3
    is. *)
Lemma sha256_rules_out_collision (a b : bytes) :
  String.eqb (hex (sha256 a)) (hex (sha256 b)) = false -> ~ collision a b.
Proof. intros H (_ & E & _). now apply hex_differs in H. Qed.

(** A field given a value of another JSON text changes the text that is
    hashed. *)
Lemma changed_field_changes_text (r : dict) (k : string) (v v' : value) :
  lookup r k = Some v ->
  is_hash_field k = false ->
  json_dumps v' <> json_dumps v ->
  canonical_bytes (without_hashes (dict_set r k v')) <> canonical_bytes (without_hashes r).
Proof.
  intros Hk Hf Hne Heq. unfold canonical_bytes in Heq. apply encode_utf8_inj in Heq.
  revert Heq. apply (@one_off_json_dumps k v' v); [|exact Hne].
  unfold without_hashes.
  apply (one_off_filter (fun key => negb (is_hash_field key))); [|now rewrite Hf].
  assert (Hoff : one_off k v v' r (dict_set r k v')) by now apply one_off_dict_set.
  clear - Hoff. induction Hoff; constructor; auto.
Qed.

Lemma link_field_not_hash_field (k : string) :
  ~ In k ["payload_hash"; "merkle_root"; "previous_hash"; "receipt_type"; "lot_number"] ->
  is_hash_field k = false.
Proof.
  intro H. destruct (is_hash_field k) eqn:E; [|reflexivity].
  exfalso. apply H. unfold is_hash_field in E.
  apply orb_true_iff in E as [E|E]; apply String.eqb_eq in E; subst; cbn; tauto.
Qed.

(** C3, as amended.  Giving one field of a receipt that stores its
    recomputed hash, other than the two hash fields, a value of another JSON
    text makes the recomputation of [verify_single_receipt] fail, unless the
    text before and the text after collide: they are two texts with one
    SHA-256 digest and one BLAKE3 digest.  And rewriting in that way the
    line of a receipt of a valid chain, in a field that no lookup of the
    walk reads, makes [verify_chain] report [chain_valid = false] with the
    hash mismatch of that receipt as its one error, unless the two texts
    collide: the walk still collects five receipts and reports no broken
    link. *)
Theorem tampering_is_detected :
  (forall (r : dict) (k : string) (v v' : value),
      hash_recomputes r ->
      lookup r k = Some v ->
      is_hash_field k = false ->
      json_dumps v' <> json_dumps v ->
      verify_single_receipt (dict_set r k v') = false
      \/ collision (canonical_bytes (without_hashes (dict_set r k v')))
           (canonical_bytes (without_hashes r)))
  /\ (forall (lot : string) (n : nat) (pre post chain : list dict) (r : dict) (k : string)
             (v v' : value),
         valid_chain lot (pre ++ r :: post)%list chain ->
         In r chain ->
         ~ In r pre ->
         lookup r k = Some v ->
         ~ In k ["payload_hash"; "merkle_root"; "previous_hash"; "receipt_type"; "lot_number"] ->
         json_dumps v' <> json_dumps v ->
         (exists res,
            result_of (verify_chain lot
                         {| ledger := (pre ++ dict_set r k v' :: post)%list; ticks := n |})
            = Return res
            /\ chain_valid res = false
            /\ chain_length res = 5%nat
            /\ errors res
               = ["Hash verification failed for " ++ py_str (get r "receipt_type")
                  ++ " receipt"])
         \/ collision (canonical_bytes (without_hashes (dict_set r k v')))
              (canonical_bytes (without_hashes r))).
Proof.
  split.
  - intros r k v v' Hv Hk Hf Hne.
    destruct (collision_or_not (@changed_field_changes_text r k v v' Hk Hf Hne))
      as [Hclash|Hfree]; [now right | left].
    apply verify_single_receipt_recomputes in Hv.
    now apply (@tampered_receipt_fails r k v v').
  - intros lot n pre post chain r k v v' Hvalid Hin Hpre Hk Hlink Hne.
    destruct (collision_or_not
                (@changed_field_changes_text r k v v' Hk (link_field_not_hash_field Hlink) Hne))
      as [Hclash|Hfree]; [now right | left].
    apply valid_chain_walked in Hvalid.
    destruct (@rewritten_chain_rejected pre post r k v v' Hpre Hk Hlink Hne Hfree lot n chain
                Hvalid Hin) as (chain' & rs & Hrun & Hlen).
    rewrite Hrun. eexists. split; [reflexivity|].
    cbn [chain_report chain_valid chain_length errors]. rewrite Hlen. auto.
Qed.

(* ------------------------------------------------------------------ *)
(** ** Rounding to two places against a whole limit *)

Lemma leb_compare_not_gt (x y : float) :
  (x <=? y)%float = true -> PrimFloat.compare x y <> FGt.
Proof.
  rewrite FloatAxioms.leb_spec, FloatAxioms.compare_spec. unfold SFleb.
  destruct (SFcompare (Prim2SF x) (Prim2SF y)) as [[]|]; cbn; congruence.
Qed.

Lemma ltb_leb_false (x y : float) : (x <? y)%float = true -> (y <=? x)%float = false.
Proof.
  intro H.
  destruct (is_nan x) eqn:Hx; [now rewrite ltb_nan_l in H|].
  destruct (is_nan y) eqn:Hy; [now rewrite ltb_nan_r in H|].
  rewrite (@leb_false_ltb y x Hy Hx), H. reflexivity.
Qed.

(** The sign a result carries, when it has one. *)
Definition has_sign (s : bool) (x : spec_float) : Prop :=
  match x with
  | S754_zero s' | S754_infinity s' | S754_finite s' _ _ => s' = s
  | S754_nan => True
  end.

Lemma binary_round_aux_sign (s : bool) (mx ex : Z) (lx : location) :
  has_sign s (binary_round_aux prec emax s mx ex lx).
Proof.
  unfold binary_round_aux.
  destruct (shr_fexp prec emax mx ex lx) as [mrs e1].
  destruct (shr_fexp prec emax _ e1 loc_Exact) as [mrs' e2].
  destruct (shr_m mrs'); [exact eq_refl| |exact I].
  destruct (e2 <=? emax - prec)%Z; exact eq_refl.
Qed.

Lemma binary_round_sign (s : bool) (m : positive) (e : Z) :
  has_sign s (binary_round prec emax s m e).
Proof.
  unfold binary_round. destruct (shl_align m e _) as [mz ez].
  apply binary_round_aux_sign.
Qed.

Lemma SFldexp_sign (s : bool) (x : spec_float) (e : Z) :
  has_sign s x -> has_sign s (SFldexp prec emax x e).
Proof.
  destruct x as [s'|s'| |s' m' e']; cbn; intro H; try exact H.
  subst s'. apply binary_round_sign.
Qed.

Lemma of_uint63_sign (n : int) : has_sign false (Prim2SF (of_uint63 n)).
Proof.
  rewrite FloatAxioms.of_uint63_spec. unfold binary_normalize.
  pose proof (Uint63.to_Z_bounded n) as Hb.
  destruct (Uint63.to_Z n) as [|p|p]; [exact eq_refl|apply binary_round_sign|lia].
Qed.

Lemma SFdiv_negative (q : Z) (d : positive) :
  has_sign true (SFdiv prec emax (PyFloat.finite_of_Z true q) (S754_finite false d 0)).
Proof.
  destruct q as [|p|p]; cbn [PyFloat.finite_of_Z SFdiv xorb]; try exact eq_refl.
  destruct (SFdiv_core_binary prec emax (Z.pos p) 0 (Z.pos d) 0) as [[mz ez] lz].
  apply binary_round_aux_sign.
Qed.

Lemma negative_not_above (x : spec_float) (m : positive) (e : Z) :
  has_sign true x -> SFcompare x (S754_finite false m e) <> Some Gt.
Proof. destruct x as [s|s| |s m' e']; cbn; intro H; try subst s; discriminate. Qed.

(** A float read back from a negative result is not above a positive one. *)
Lemma SF2Prim_negative_not_above (x : spec_float) (y : float) (m : positive) (e : Z) :
  has_sign true x -> Prim2SF y = S754_finite false m e ->
  PrimFloat.compare (SF2Prim x) y <> FGt.
Proof.
  intros Hx Hy. rewrite FloatAxioms.compare_spec, Hy.
  assert (Hs : has_sign true (Prim2SF (SF2Prim x))).
  { destruct x as [s|s| |s m' e']; cbn in Hx; try subst s; try exact eq_refl; try exact I.
    unfold SF2Prim. cbv beta iota zeta. rewrite FloatAxioms.opp_spec, Z_ldexp_spec.
    pose proof (@SFldexp_sign false _ e' (of_uint63_sign (of_Z (Z.pos m')))) as H.
    destruct (SFldexp prec emax _ e') as [s|s| |s m2 e2]; cbn in H |- *;
      try subst s; first [exact eq_refl | exact I]. }
  pose proof (@negative_not_above _ m e Hs) as H.
  destruct (SFcompare _ _) as [[]|]; cbn; congruence.
Qed.

Lemma digits2_size (p : positive) : digits2_pos p = Pos.size p.
Proof. induction p; cbn; congruence. Qed.

Lemma canonical_mantissa_bound (m : positive) (e : Z) :
  canonical_mantissa prec emax m e = true -> (Z.pos m < 2 ^ 53)%Z.
Proof.
  unfold canonical_mantissa, fexp. intro H. apply Z.eqb_eq in H.
  rewrite digits2_size in H. change prec with 53%Z in H.
  assert (Hs : (Z.pos (Pos.size m) <= 53)%Z) by lia.
  pose proof (Pos.size_gt m) as Hg.
  apply Pos2Z.pos_lt_pos in Hg. rewrite Pos2Z.inj_pow in Hg.
  eapply Z.lt_le_trans; [exact Hg|]. apply Z.pow_le_mono_r; lia.
Qed.

Lemma div_half_even_le (n d b : Z) :
  (0 < d)%Z -> (0 <= n <= b * d)%Z -> (0 <= PyFloat.div_half_even n d <= b)%Z.
Proof.
  intros Hd Hn. unfold PyFloat.div_half_even.
  pose proof (Z.div_mod n d ltac:(lia)) as E.
  pose proof (Z.mod_pos_bound n d Hd) as Hr.
  assert (Hq : (0 <= n / d)%Z) by (apply Z.div_pos; lia).
  set (q := (n / d)%Z) in *. set (r := (n mod d)%Z) in *.
  assert (Hqb : (q <= b)%Z) by nia.
  destruct (2 * r <? d)%Z eqn:H1; [lia|].
  apply Z.ltb_ge in H1.
  assert (q < b)%Z by nia.
  destruct (d <? 2 * r)%Z; [lia|]. destruct (Z.even q); lia.
Qed.

Lemma Prim2SF_26 : Prim2SF 26 = S754_finite false 7318349394477056 (-48).
Proof. vm_compute. reflexivity. Qed.

Lemma scaled_le_2600 (m : positive) (e : Z) :
  (Z.pos m < 2 ^ 53)%Z ->
  (e < -48 \/ (e = -48 /\ Z.pos m <= 7318349394477056))%Z ->
  (0 <= PyFloat.scaled m e 2 <= 2600)%Z.
Proof.
  intros Hm He. unfold PyFloat.scaled.
  destruct (0 <=? e)%Z eqn:E0; [apply Z.leb_le in E0; lia|].
  change (10 ^ 2)%Z with 100%Z. change (2 ^ 53)%Z with 9007199254740992%Z in Hm.
  apply div_half_even_le.
  - apply Z.pow_pos_nonneg; lia.
  - split; [lia|]. destruct He as [He|[-> Hm']].
    + assert (H49 : (2 ^ 49 <= 2 ^ (- e))%Z) by (apply Z.pow_le_mono_r; lia).
      change (2 ^ 49)%Z with 562949953421312%Z in H49. lia.
    + change (2 ^ (- -48))%Z with 281474976710656%Z. lia.
Qed.

(** Whether [q / 100], read as a float, is not above 26. *)
Definition round_check (q : Z) : bool :=
  negb (num_gtb
          (NFloat (SF2Prim (SFdiv prec emax (PyFloat.finite_of_Z false q)
                                            (PyFloat.finite_of_Z false (10 ^ 2)))))
          (NFloat 26)).

Lemma round_check_all : forallb round_check (map Z.of_nat (seq 0 2601)) = true.
Proof. vm_compute. reflexivity. Qed.

Lemma round_check_range (q : Z) : (0 <= q <= 2600)%Z -> round_check q = true.
Proof.
  intro H. pose proof round_check_all as A. rewrite forallb_forall in A. apply A.
  apply in_map_iff. exists (Z.to_nat q). split; [lia|]. apply in_seq. lia.
Qed.

(** A float that is not above 26 is not above 26 once rounded to two
    places. *)
Lemma round2_not_above_26 (x : float) :
  (x <=? 26)%float = true ->
  num_gtb (NFloat (PyFloat.round x 2)) (NFloat 26) = false.
Proof.
  intro H.
  assert (Hid : PyFloat.round x 2 = x -> num_gtb (NFloat (PyFloat.round x 2)) (NFloat 26) = false).
  { intros ->. unfold num_gtb, num_compare. pose proof (@leb_compare_not_gt x 26 H) as Hc.
    destruct (PrimFloat.compare x 26); congruence. }
  unfold PyFloat.round in *.
  destruct (Prim2SF x) as [s|s| |s m e] eqn:E; try (apply Hid; reflexivity).
  clear Hid. destruct s.
  - unfold num_gtb, num_compare.
    pose proof (@SF2Prim_negative_not_above _ 26 _ _
                  (SFdiv_negative (PyFloat.scaled m e 2) 100) Prim2SF_26) as Hc.
    change (PyFloat.finite_of_Z false (10 ^ 2)) with (S754_finite false 100 0).
    destruct (PrimFloat.compare _ 26); congruence.
  - pose proof (Prim2SF_valid x) as Hv. rewrite E in Hv. cbn [valid_binary] in Hv.
    unfold bounded in Hv. apply andb_prop in Hv. destruct Hv as [Hv _].
    apply canonical_mantissa_bound in Hv.
    rewrite FloatAxioms.leb_spec, E, Prim2SF_26 in H. unfold SFleb in H.
    cbn [SFcompare] in H.
    assert (Hq : (0 <= PyFloat.scaled m e 2 <= 2600)%Z).
    { apply scaled_le_2600; [exact Hv|].
      destruct (Z.compare_spec e (-48)) as [He|He|He]; [|now left|discriminate].
      right. split; [exact He|].
      pose proof (Pos.compare_spec m 7318349394477056) as Hm.
      unfold Pos.compare in Hm. clear Hv. revert H.
      destruct Hm as [Hm|Hm|Hm]; intro H; [| |discriminate].
      + subst m. apply Z.le_refl.
      + apply Z.lt_le_incl. exact (Pos2Z.pos_lt_pos _ _ Hm). }
    apply round_check_range in Hq. unfold round_check in Hq.
    now apply negb_true_iff in Hq.
Qed.

(* ------------------------------------------------------------------ *)
(** ** [create_testing_receipt] *)

Lemma prefix_app (s t : string) : String.prefix s (s ++ t) = true.
Proof.
  induction s as [|c s IH]; cbn; [now destruct t|].
  destruct (ascii_dec c c) as [_|N]; [exact IH | now destruct N].
Qed.

Lemma contains_suffix (needle pre : string) : contains needle (pre ++ needle) = true.
Proof.
  induction pre as [|c pre IH].
  - cbn [String.append]. destruct needle as [|d needle]; [reflexivity|].
    cbn [contains]. rewrite <- (string_app_nil_r (String d needle)) at 2.
    now rewrite prefix_app.
  - cbn [String.append contains]. rewrite IH. apply orb_true_r.
Qed.

Lemma all_pass_eq (mercury pcbs dioxins : float) :
  truthy (get (validate_contaminants mercury pcbs dioxins) "all_pass")
  = (mercury <=? limit "mercury_ppm")%float
    && (pcbs <=? limit "pcbs_ppm")%float
    && (dioxins <=? limit "dioxins_pg_per_g")%float.
Proof. reflexivity. Qed.

Lemma totox_eq (peroxide anisidine : float) :
  get (validate_oxidation peroxide anisidine) "totox"
  = VFloat (PyFloat.round (2 * peroxide + anisidine) 2).
Proof. reflexivity. Qed.

Lemma oxidation_pass_eq (peroxide anisidine : float) :
  get (validate_oxidation peroxide anisidine) "oxidation_pass"
  = VBool ((peroxide <=? limit "peroxide_meq_per_kg")%float
           && (anisidine <=? limit "anisidine")%float
           && (2 * peroxide + anisidine <=? limit "totox")%float).
Proof. reflexivity. Qed.

(** The test [create_testing_receipt] stops on: a contaminant check that
    did not pass, or the recorded (two-place) TOTOX above its ceiling. *)
Definition breach (mercury pcbs dioxins peroxide anisidine : float) : bool :=
  negb (truthy (get (validate_contaminants mercury pcbs dioxins) "all_pass"))
  || num_gtb (NFloat (PyFloat.round (2 * peroxide + anisidine) 2)) (NFloat (limit "totox")).

(** With a known certificate type and a hash in dual form, a call writes
    one testing receipt, which verifies and carries the three results; it
    stops, naming the receipt's hash, exactly on a [breach]. *)
Lemma testing_run (lab_name lab_cert_type lab_cert_id lab_cert_hash batch_id : string)
    (mercury_ppm pcbs_ppm dioxins_pg_per_g epa_mg dha_mg label_claim_mg
       peroxide_meq_per_kg anisidine : float)
    (previous_hash : string) (tenant_id : option string) (w : World) :
  mem_str lab_cert_type LAB_CERT_TYPES = true ->
  contains_char ":" lab_cert_hash = true ->
  exists (r : dict) (h : string) (out : outcome dict),
    create_testing_receipt lab_name lab_cert_type lab_cert_id lab_cert_hash batch_id
      mercury_ppm pcbs_ppm dioxins_pg_per_g epa_mg dha_mg label_claim_mg
      peroxide_meq_per_kg anisidine previous_hash tenant_id w
    = ({| ledger := (ledger w ++ [r])%list; ticks := S (ticks w) |}, out)
    /\ (breach mercury_ppm pcbs_ppm dioxins_pg_per_g peroxide_meq_per_kg anisidine = true ->
        exists msg, out = Raise (StopRule msg) /\ contains h msg = true)
    /\ (breach mercury_ppm pcbs_ppm dioxins_pg_per_g peroxide_meq_per_kg anisidine = false ->
        out = Return r)
    /\ get r "receipt_type" = VStr "testing"
    /\ get r "payload_hash" = VStr h
    /\ verify_single_receipt r = true
    /\ get r "contaminants"
       = VDict (validate_contaminants mercury_ppm pcbs_ppm dioxins_pg_per_g)
    /\ get r "oxidation" = VDict (validate_oxidation peroxide_meq_per_kg anisidine)
    /\ get r "overall_pass"
       = VBool (truthy (get (validate_contaminants mercury_ppm pcbs_ppm dioxins_pg_per_g)
                          "all_pass")
                && truthy (get (validate_potency epa_mg dha_mg label_claim_mg) "potency_pass")
                && truthy (get (validate_oxidation peroxide_meq_per_kg anisidine)
                             "oxidation_pass")).
Proof.
  intros Hcert Hhash. unfold create_testing_receipt, breach.
  rewrite Hcert, Hhash. cbn [negb]. cbv zeta. unfold _emit_testing.
  match goal with
  | |- context [emit_receipt "testing" ?p _] => set (payload := p)
  end.
  set (env := envelope "testing" (clock (ticks w)) (opt_str tenant_id) payload).
  assert (Hnd : NoDup (keys payload)) by (subst payload; nodup_keys).
  assert (Hplain : forall k, In k (keys env) -> is_hash_field k = false).
  { intros k Hk. apply envelope_keys in Hk. subst payload. cbn in Hk.
    intuition (subst k; reflexivity). }
  destruct (verify_sealed_plain env Hplain) as (Hver & _ & Hget).
  exists (sealed env), (dual_hash (canonical_bytes env)).
  assert (Hfield : forall k v, is_hash_field k = false -> In (k, v) payload ->
                     get (sealed env) k = v).
  { intros k v Hk Hin. now apply sealed_payload_field. }
  rewrite totox_eq.
  exists (if negb (truthy (get (validate_contaminants mercury_ppm pcbs_ppm dioxins_pg_per_g)
                             "all_pass"))
          then Raise (StopRule
                 ("CONTAMINANT_EXCEED: "
                  ++ String.concat ", "
                       (failed_contaminants
                          (validate_contaminants mercury_ppm pcbs_ppm dioxins_pg_per_g)
                          mercury_ppm pcbs_ppm dioxins_pg_per_g)
                  ++ ". Receipt emitted: " ++ py_str (get (sealed env) "payload_hash")))
          else if num_gtb (NFloat (PyFloat.round (2 * peroxide_meq_per_kg + anisidine) 2))
                    (NFloat (limit "totox"))
          then Raise (StopRule
                 ("TOTOX_EXCEED: "
                  ++ py_str (VFloat (PyFloat.round (2 * peroxide_meq_per_kg + anisidine) 2))
                  ++ " > " ++ str_float (limit "totox")
                  ++ ". Receipt emitted: " ++ py_str (get (sealed env) "payload_hash")))
          else Return (sealed env)).
  split; [|split; [|split; [|split; [|split; [exact Hget|split;
    [exact Hver|split; [|split]]]]]]].
  - destruct (negb (truthy (get (validate_contaminants mercury_ppm pcbs_ppm dioxins_pg_per_g)
                              "all_pass"))) eqn:Hc.
    + unfold bind. rewrite emit_receipt_unfold. fold env. unfold raise. reflexivity.
    + unfold bind at 1. unfold lift. cbn [gt_num num_of].
      destruct (num_gtb _ _) eqn:Hr.
      * unfold bind. rewrite emit_receipt_unfold. fold env. unfold raise. reflexivity.
      * rewrite emit_receipt_unfold. fold env. reflexivity.
  - intro Hb. destruct (negb (truthy _)) eqn:Hc; cbn [orb] in Hb.
    + eexists. split; [reflexivity|]. rewrite Hget. cbn [py_str].
      rewrite <- !string_app_assoc. apply contains_suffix.
    + rewrite Hb. eexists. split; [reflexivity|]. rewrite Hget. cbn [py_str].
      rewrite <- !string_app_assoc. apply contains_suffix.
  - intro Hb. apply orb_false_iff in Hb. destruct Hb as [Hc Hr]. now rewrite Hc, Hr.
  - apply sealed_receipt_type. subst payload. keys_absent.
  - apply Hfield; [reflexivity|]. subst payload. cbn. tauto.
  - apply Hfield; [reflexivity|]. subst payload. cbn. tauto.
  - apply Hfield; [reflexivity|]. subst payload. cbn. tauto.
Qed.

Lemma ltb_num_gtb (x y : float) :
  (y <? x)%float = true -> num_gtb (NFloat x) (NFloat y) = true.
Proof.
  rewrite FloatAxioms.ltb_spec. unfold SFltb, num_gtb, num_compare.
  rewrite FloatAxioms.compare_spec, (SFcompare_antisym (Prim2SF y) (Prim2SF x)).
  destruct (SFcompare (Prim2SF y) (Prim2SF x)) as [[]|]; cbn; congruence.
Qed.

(** X1 (what the code keeps of C4).  With a known certificate type and a
    hash in dual form, when a contaminant is above its ceiling or the TOTOX
    rounded to two places is above 26.0, [create_testing_receipt] appends
    the testing receipt to the ledger and then raises the stop rule; the
    receipt verifies, and the message contains its [payload_hash]. *)
Theorem breach_receipt_persisted_before_stop
    (lab_name lab_cert_type lab_cert_id lab_cert_hash batch_id : string)
    (mercury_ppm pcbs_ppm dioxins_pg_per_g epa_mg dha_mg label_claim_mg
       peroxide_meq_per_kg anisidine : float)
    (previous_hash : string) (tenant_id : option string) (w : World) :
  mem_str lab_cert_type LAB_CERT_TYPES = true ->
  contains_char ":" lab_cert_hash = true ->
  (limit "mercury_ppm" <? mercury_ppm)%float = true
  \/ (limit "pcbs_ppm" <? pcbs_ppm)%float = true
  \/ (limit "dioxins_pg_per_g" <? dioxins_pg_per_g)%float = true
  \/ (limit "totox" <? PyFloat.round (2 * peroxide_meq_per_kg + anisidine) 2)%float = true ->
  exists (r : dict) (h msg : string),
    create_testing_receipt lab_name lab_cert_type lab_cert_id lab_cert_hash batch_id
      mercury_ppm pcbs_ppm dioxins_pg_per_g epa_mg dha_mg label_claim_mg
      peroxide_meq_per_kg anisidine previous_hash tenant_id w
    = ({| ledger := (ledger w ++ [r])%list; ticks := S (ticks w) |}, Raise (StopRule msg))
    /\ get r "receipt_type" = VStr "testing"
    /\ get r "payload_hash" = VStr h
    /\ verify_single_receipt r = true
    /\ contains h msg = true.
Proof.
  intros Hcert Hhash Hb.
  destruct (@testing_run lab_name lab_cert_type lab_cert_id lab_cert_hash batch_id
              mercury_ppm pcbs_ppm dioxins_pg_per_g epa_mg dha_mg label_claim_mg
              peroxide_meq_per_kg anisidine previous_hash tenant_id w Hcert Hhash)
    as (r & h & out & Hrun & Hstop & _ & Htype & Hhash' & Hver & _).
  destruct Hstop as (msg & -> & Hmsg).
  - unfold breach. rewrite all_pass_eq.
    destruct Hb as [H|[H|[H|H]]].
    + now rewrite (@ltb_leb_false _ _ H).
    + rewrite (@ltb_leb_false _ _ H), andb_false_r. reflexivity.
    + rewrite (@ltb_leb_false _ _ H), andb_false_r. reflexivity.
    + rewrite (@ltb_num_gtb _ _ H). apply orb_true_r.
  - exists r, h, msg. repeat split; assumption.
Qed.

(** C4 at an input where it fails.  With peroxide 3.001 and anisidine 20.0
    the TOTOX is 26.002, above 26.0; the stop test reads the TOTOX rounded
    to two places, 26.0, so the call returns its receipt and raises nothing. *)
Theorem totox_above_ceiling_not_stopped (w : World) :
  (limit "totox" <? 2 * 0x1.8020c49ba5e35p+1 + 20)%float = true
  /\ exists r : dict,
       create_testing_receipt "Lab" "ISO17025" "L-1" "a:b" "BATCH-1"
         0 0 0 600 400 1000 0x1.8020c49ba5e35p+1 20 "p:q" None w
       = ({| ledger := (ledger w ++ [r])%list; ticks := S (ticks w) |}, Return r)
       /\ get r "oxidation" = VDict (validate_oxidation 0x1.8020c49ba5e35p+1 20)
       /\ get (validate_oxidation 0x1.8020c49ba5e35p+1 20) "totox" = VFloat 26
       /\ get (validate_oxidation 0x1.8020c49ba5e35p+1 20) "oxidation_pass" = VBool false.
Proof.
  split; [vm_compute; reflexivity|].
  destruct (@testing_run "Lab" "ISO17025" "L-1" "a:b" "BATCH-1"
              0 0 0 600 400 1000 0x1.8020c49ba5e35p+1 20 "p:q" None w
              eq_refl eq_refl)
    as (r & h & out & Hrun & _ & Hpass & _ & _ & _ & _ & Hox & _).
  exists r. rewrite Hrun, Hpass by (vm_compute; reflexivity).
  split; [reflexivity|]. split; [exact Hox|]. split; vm_compute; reflexivity.
Qed.

(** C10.  For a call that passes the checks of its arguments (a known
    certificate type and a certificate hash in dual form): if every
    contaminant is within its ceiling and the TOTOX is at most 26.0, but
    peroxide is above 5.0 or anisidine above 20.0, then
    [create_testing_receipt] raises nothing; it appends and returns a
    testing receipt whose [oxidation.oxidation_pass] and [overall_pass] are
    both false. *)
Theorem oxidation_failure_recorded_not_raised
    (lab_name lab_cert_type lab_cert_id lab_cert_hash batch_id : string)
    (mercury_ppm pcbs_ppm dioxins_pg_per_g epa_mg dha_mg label_claim_mg
       peroxide_meq_per_kg anisidine : float)
    (previous_hash : string) (tenant_id : option string) (w : World) :
  mem_str lab_cert_type LAB_CERT_TYPES = true ->
  contains_char ":" lab_cert_hash = true ->
  (mercury_ppm <=? limit "mercury_ppm")%float = true ->
  (pcbs_ppm <=? limit "pcbs_ppm")%float = true ->
  (dioxins_pg_per_g <=? limit "dioxins_pg_per_g")%float = true ->
  (2 * peroxide_meq_per_kg + anisidine <=? limit "totox")%float = true ->
  (limit "peroxide_meq_per_kg" <? peroxide_meq_per_kg)%float = true
  \/ (limit "anisidine" <? anisidine)%float = true ->
  exists (r oxidation : dict),
    create_testing_receipt lab_name lab_cert_type lab_cert_id lab_cert_hash batch_id
      mercury_ppm pcbs_ppm dioxins_pg_per_g epa_mg dha_mg label_claim_mg
      peroxide_meq_per_kg anisidine previous_hash tenant_id w
    = ({| ledger := (ledger w ++ [r])%list; ticks := S (ticks w) |}, Return r)
    /\ get r "receipt_type" = VStr "testing"
    /\ verify_single_receipt r = true
    /\ get r "oxidation" = VDict oxidation
    /\ get oxidation "oxidation_pass" = VBool false
    /\ get r "overall_pass" = VBool false.
Proof.
  intros Hcert Hhash Hm Hp Hd Ht Hox.
  destruct (@testing_run lab_name lab_cert_type lab_cert_id lab_cert_hash batch_id
              mercury_ppm pcbs_ppm dioxins_pg_per_g epa_mg dha_mg label_claim_mg
              peroxide_meq_per_kg anisidine previous_hash tenant_id w Hcert Hhash)
    as (r & h & out & Hrun & _ & Hpass & Htype & _ & Hver & _ & Hoxid & Hall).
  assert (Hfail : get (validate_oxidation peroxide_meq_per_kg anisidine) "oxidation_pass"
                  = VBool false).
  { rewrite oxidation_pass_eq. f_equal.
    destruct Hox as [H|H]; rewrite (@ltb_leb_false _ _ H); [reflexivity|].
    now rewrite andb_false_r. }
  exists r, (validate_oxidation peroxide_meq_per_kg anisidine).
  rewrite Hrun, Hpass.
  - repeat split; try assumption.
    rewrite Hall, Hfail. cbn [truthy]. now rewrite andb_false_r.
  - unfold breach. rewrite all_pass_eq, Hm, Hp, Hd. cbn [andb negb orb].
    change (limit "totox") with 26%float in Ht |- *.
    now apply round2_not_above_26.
Qed.

End Core.

(* ------------------------------------------------------------------ *)
(** * Concrete runs

    The theorems above at concrete inputs.  A short digest stands for
    BLAKE3, the first eight bytes of the data; SHA-256 is the real one. *)

Local Open Scope string_scope.

Definition short_digest (data : bytes) : bytes := firstn 8 data.

(** Readings of the clock, one microsecond apart. *)
Definition sample_clock (n : nat) : string :=
  "2025-01-31T12:00:00.00000" ++ str_int (Z.of_nat n) ++ "+00:00".

(** A date check that accepts every text that is not empty. *)
Definition nonempty_date (s : string) : bool := negb (String.eqb s "").

(** The world before any call: no ledger file. *)
Definition fresh : World := {| ledger := []; ticks := 0 |}.

Definition sample_payload : dict :=
  [("species", VStr "Engraulis ringens"); ("fishery_registry", VStr "PRODUCE Peru")].

(** The five stage calls of one lot, each given the hash of the receipt
    before it. *)
Definition sample_lot : string := "LOT-TEST-CHAIN-01".

Definition hash_of (r : dict) : string := py_str (get r "payload_hash").

Definition sample_calls : M (list dict) :=
  (catch <- create_catch_receipt short_digest sample_clock
              "Engraulis ringens" "PRODUCE Peru" "a:b" "MSC" (Some "MSC-TEST") (Some "c:d") None ;;
   processing <- create_processing_receipt short_digest sample_clock
              "FAC-01" "Test Facility" "NSF" "NSF-001" "e:f" "BP-CHAIN-TEST"
              "MolecularDistillation" 240 1000 147 (hash_of catch) None ;;
   testing <- create_testing_receipt short_digest sample_clock
              "Test Lab" "ISO17025" "ISO-001" "g:h" "BP-CHAIN-TEST"
              0x1.47ae147ae147bp-6 0x1.eb851eb851eb8p-6 0x1.3333333333333p+0
              420 300 700 3 10 (hash_of processing) None ;;
   encap <- create_encapsulation_receipt short_digest sample_clock nonempty_date
              "BOT-01" "Test Bottling" "NSF" "NSF-BOT-001" "i:j" sample_lot
              "2025-01-31T14:00:00Z" "BP-CHAIN-TEST" 90 1000 (hash_of testing) None ;;
   dist <- create_distribution_receipt short_digest sample_clock
              "DIST-01" "Test Dist" "WH-01" "Test City" sample_lot None (hash_of encap) None ;;
   ret [catch; processing; testing; encap; dist])%py.

Definition sample_receipts : list dict :=
  Eval vm_compute in
    match result_of (sample_calls fresh) with
    | Return rs => rs
    | Raise _ => []
    end.

Definition sample_catch : dict := nth 0 sample_receipts [].
Definition sample_processing : dict := nth 1 sample_receipts [].
Definition sample_testing : dict := nth 2 sample_receipts [].
Definition sample_encapsulation : dict := nth 3 sample_receipts [].
Definition sample_distribution : dict := nth 4 sample_receipts [].

(** The ledger after the five calls. *)
Definition sample_world : World := world_of (sample_calls fresh).

(** The five calls as stage calls, from the empty ledger. *)
Definition sample_stage_calls : list stage_call :=
  [ CallCatch "Engraulis ringens" "PRODUCE Peru" "a:b" "MSC" (Some "MSC-TEST") (Some "c:d") None;
    CallProcessing "FAC-01" "Test Facility" "NSF" "NSF-001" "e:f" "BP-CHAIN-TEST"
      "MolecularDistillation" 240 1000 147 (hash_of sample_catch) None;
    CallTesting "Test Lab" "ISO17025" "ISO-001" "g:h" "BP-CHAIN-TEST"
      0x1.47ae147ae147bp-6 0x1.eb851eb851eb8p-6 0x1.3333333333333p+0
      420 300 700 3 10 (hash_of sample_processing) None;
    CallEncapsulation "BOT-01" "Test Bottling" "NSF" "NSF-BOT-001" "i:j" sample_lot
      "2025-01-31T14:00:00Z" "BP-CHAIN-TEST" 90 1000 (hash_of sample_testing) None;
    CallDistribution "DIST-01" "Test Dist" "WH-01" "Test City" sample_lot None
      (hash_of sample_encapsulation) None ].

Definition run_stages (calls : list stage_call) (w : World) : World :=
  fold_left
    (fun (w : World) (c : stage_call) =>
       world_of (run_stage short_digest sample_clock nonempty_date c w))
    calls w.

(** The world one reading of the clock later. *)
Definition later : World := {| ledger := []; ticks := 1 |}.

(** A cold-chain record with a maximum of 9.5 degrees, and the receipts of
    a lot that was kept too warm, diluted and mislabelled: its distribution
    receipt first, its processing receipt second, and third the testing
    receipt of a batch with too much mercury and 72% of the omega-3 of its
    label (the call that writes it stops, after the receipt is in the
    ledger). *)
Definition warm_cold_chain : dict :=
  [ ("enabled", VBool true);
    ("avg_temp_c", VFloat 6);
    ("min_temp_c", VFloat 2);
    ("max_temp_c", VFloat 9.5);
    ("duration_days", VInt 90);
    ("deviations_count", VInt 1);
    ("temp_log_hash", VStr "m:n");
    ("cold_chain_pass", VBool false) ].

Definition suspect_calls : M (list dict) :=
  (dist <- create_distribution_receipt short_digest sample_clock
             "DIST-01" "Test Dist" "WH-01" "Test City" sample_lot (Some warm_cold_chain)
             "p:q" None ;;
   processing <- create_processing_receipt short_digest sample_clock
             "FAC-01" "Test Facility" "NSF" "NSF-001" "e:f" "BP-CHAIN-TEST"
             "MolecularDistillation" 240 1000 250 "r:s" None ;;
   ret [dist; processing])%py.

Definition suspect_world : World :=
  world_of (create_testing_receipt short_digest sample_clock
              "Test Lab" "ISO17025" "ISO-001" "g:h" "BP-CHAIN-TEST"
              0.5 0x1.eb851eb851eb8p-6 0x1.3333333333333p+0 420 300 1000 3 10 "t:u" None
              (world_of (suspect_calls fresh))).

Definition suspect_chain : list dict := Eval vm_compute in ledger suspect_world.

(** What [run_all_fraud_checks] returns on that chain, and the world it
    leaves. *)
Definition suspect_findings : list dict :=
  Eval vm_compute in
    match result_of (run_all_fraud_checks short_digest sample_clock suspect_chain suspect_world) with
    | Return found => found
    | Raise _ => []
    end.

Definition checked_world : World :=
  world_of (run_all_fraud_checks short_digest sample_clock suspect_chain suspect_world).

(** Inequalities of texts and of receipts, decided by evaluation. *)
Ltac texts_differ := apply String.eqb_neq; vm_compute; reflexivity.

Ltac fields_differ key :=
  let H := fresh "H" in
  intro H; apply (f_equal (fun r : dict => py_str (get r key))) in H;
  revert H; texts_differ.

Ltac hashes_differ :=
  let H := fresh "H" in
  intro H; apply (f_equal py_str) in H; revert H; texts_differ.

Ltac sha256_differ := apply sha256_differs; vm_compute; reflexivity.

(** ** C1 *)

Lemma emit_receipt_verifies_sample :
  (forall k : string, In k (keys sample_payload) -> is_hash_field k = false)
  /\ exists receipt : dict,
       emit_receipt short_digest sample_clock "catch" sample_payload VNone fresh
       = ({| ledger := [receipt]; ticks := 1 |}, Return receipt)
       /\ verify_single_receipt short_digest receipt = true.
Proof.
  assert (H : forall k : string, In k (keys sample_payload) -> is_hash_field k = false).
  { intros k [<-|[<-|[]]]; reflexivity. }
  split; [exact H|].
  destruct (@emit_receipt_verifies short_digest sample_clock "catch" sample_payload VNone
              fresh H) as (receipt & Hrun & Hver & _).
  exists receipt. split; [exact Hrun | exact Hver].
Defined.

(** A payload that brings its own [merkle_root]: [emit_receipt] hashes the
    receipt with that field, and [verify_single_receipt] recomputes the hash
    without it.  Whatever BLAKE3 is, the SHA-256 halves differ, so the
    returned receipt does not verify. *)
Lemma emit_receipt_hash_field_in_payload :
  ~ exists (blake3 : bytes -> bytes) (r : dict),
      result_of (emit_receipt blake3 sample_clock "catch" [("merkle_root", VStr "x")] VNone fresh)
      = Return r
      /\ verify_single_receipt blake3 r = true.
Proof.
  intros (blake3 & r & Hrun & Hver).
  rewrite emit_receipt_unfold in Hrun. cbn [result_of snd] in Hrun.
  apply Return_inj in Hrun. subst r.
  apply verified_stored_hash in Hver. rewrite sealed_payload_hash in Hver.
  apply VStr_inj in Hver. apply dual_hash_parts in Hver. destruct Hver as [Hsha _].
  revert Hsha. apply hex_differs. vm_compute. reflexivity.
Defined.

(** ** C2 and C3: the chain of the sample lot *)

Lemma sample_ledger :
  ledger sample_world
  = [sample_catch; sample_processing; sample_testing; sample_encapsulation;
     sample_distribution].
Proof. vm_compute. reflexivity. Qed.

(** A receipt stores its recomputed hash, by running the recomputation. *)
Ltac recomputes := apply verify_single_receipt_recomputes; vm_compute; reflexivity.

Ltac all_recompute := repeat (apply Forall_cons; [recomputes|]); apply Forall_nil.

(** A report of [verify_chain], by running it. *)
Ltac by_running :=
  lazymatch goal with
  | |- exists res, ?run = Return res /\ _ =>
      let v := eval vm_compute in run in
      lazymatch v with
      | Return ?r =>
          exists r; split; [vm_compute; reflexivity | repeat split; vm_compute; reflexivity]
      end
  end.

(** A receipt is the first of a list with a property: the receipts before
    it differ from it in a field the property fixes. *)
Ltac is_first before after :=
  exists before, after; split; [reflexivity|]; split;
  [ first [ reflexivity | split; vm_compute; reflexivity ]
  | let x := fresh "x" in
    let Hin := fresh "Hin" in
    let H := fresh "H" in
    intros x Hin H; cbn [In] in Hin; unfold stage_of_lot, same_hash in H;
    repeat (destruct Hin as [<-|Hin];
            [ lazymatch type of H with
              | _ /\ _ => destruct H as [H _]
              | _ => idtac
              end;
              revert H; hashes_differ |]);
    exact Hin ].

Lemma sample_chain_built :
  built_chain short_digest sample_lot sample_catch sample_processing sample_testing
    sample_encapsulation sample_distribution.
Proof.
  constructor.
  - all_recompute.
  - vm_compute. reflexivity.
  - vm_compute. reflexivity.
  - split; vm_compute; reflexivity.
Qed.

Lemma sample_chain_found_first :
  found_first sample_lot
    [sample_catch; sample_processing; sample_testing; sample_encapsulation;
     sample_distribution]
    sample_catch sample_processing sample_testing sample_encapsulation sample_distribution.
Proof.
  split; [|split; [|split; [|split]]].
  - is_first [sample_catch; sample_processing; sample_testing; sample_encapsulation]
             (@nil dict).
  - is_first [sample_catch; sample_processing; sample_testing] [sample_distribution].
  - is_first [sample_catch; sample_processing] [sample_encapsulation; sample_distribution].
  - is_first [sample_catch] [sample_testing; sample_encapsulation; sample_distribution].
  - is_first (@nil dict)
             [sample_processing; sample_testing; sample_encapsulation; sample_distribution].
Qed.

Lemma verify_chain_valid_iff_sample :
  built_chain short_digest sample_lot sample_catch sample_processing sample_testing
    sample_encapsulation sample_distribution
  /\ found_first sample_lot
       [sample_catch; sample_processing; sample_testing; sample_encapsulation;
        sample_distribution]
       sample_catch sample_processing sample_testing sample_encapsulation sample_distribution
  /\ exists res : chain_result,
       result_of (verify_chain short_digest sample_clock sample_lot
                    {| ledger := [sample_catch; sample_processing; sample_testing;
                                  sample_encapsulation; sample_distribution];
                       ticks := 5 |})
       = Return res
       /\ chain_valid res = true /\ chain_length res = 5%nat /\ errors res = [].
Proof.
  split; [exact sample_chain_built|]. split; [exact sample_chain_found_first|].
  exact (proj2 (proj2 (@verify_chain_valid_iff short_digest sample_clock))
           sample_lot
           {| ledger := [sample_catch; sample_processing; sample_testing;
                         sample_encapsulation; sample_distribution];
              ticks := 5 |}
           sample_catch sample_processing sample_testing
           sample_encapsulation sample_distribution sample_chain_built
           sample_chain_found_first).
Defined.

(** A distribution receipt of the sample lot that names another previous
    hash, written before the five calls of the lot. *)
Definition stray_calls : M (list dict) :=
  (stray <- create_distribution_receipt short_digest sample_clock
              "DIST-02" "Other Dist" "WH-02" "Other City" sample_lot None "p:q" None ;;
   chain <- sample_calls ;;
   ret (stray :: chain))%py.

Definition stray_receipts : list dict :=
  Eval vm_compute in
    match result_of (stray_calls fresh) with
    | Return rs => rs
    | Raise _ => []
    end.

Definition stray_distribution : dict := nth 0 stray_receipts [].
Definition later_catch : dict := nth 1 stray_receipts [].
Definition later_processing : dict := nth 2 stray_receipts [].
Definition later_testing : dict := nth 3 stray_receipts [].
Definition later_encapsulation : dict := nth 4 stray_receipts [].
Definition later_distribution : dict := nth 5 stray_receipts [].

Definition stray_world : World := world_of (stray_calls fresh).

(** The lot has its five receipts, fully built and untampered, in a ledger
    of receipts that all store their recomputed hash; but the first
    distribution receipt of the lot is the earlier one, which names another
    previous hash, and [verify_chain] reports the lot invalid. *)
Lemma earlier_distribution_receipt_breaks_built_chain :
  ledger stray_world
  = [stray_distribution; later_catch; later_processing; later_testing; later_encapsulation;
     later_distribution]
  /\ hash_recomputes short_digest stray_distribution
  /\ built_chain short_digest sample_lot later_catch later_processing later_testing
       later_encapsulation later_distribution
  /\ exists res : chain_result,
       result_of (verify_chain short_digest sample_clock sample_lot stray_world) = Return res
       /\ chain_valid res = false
       /\ chain_length res = 5%nat
       /\ errors res
          = ["Distribution previous_hash does not match encapsulation payload_hash"].
Proof.
  split; [vm_compute; reflexivity|]. split; [recomputes|]. split.
  - constructor.
    + all_recompute.
    + vm_compute. reflexivity.
    + vm_compute. reflexivity.
    + split; vm_compute; reflexivity.
  - by_running.
Defined.

(** The processing receipt with its [yield_output_kg] rewritten from 147.0
    to 999.0. *)
Definition tampered_processing : dict :=
  dict_set sample_processing "yield_output_kg" (VFloat 999).

Lemma tampering_is_detected_sample :
  hash_recomputes short_digest sample_processing
  /\ lookup sample_processing "yield_output_kg" = Some (VFloat 147)
  /\ json_dumps (VFloat 999) <> json_dumps (VFloat 147)
  /\ verify_single_receipt short_digest tampered_processing = false
  /\ exists res : chain_result,
       result_of (verify_chain short_digest sample_clock sample_lot
                    {| ledger := [sample_catch; tampered_processing; sample_testing;
                                  sample_encapsulation; sample_distribution];
                       ticks := 5 |})
       = Return res
       /\ chain_valid res = false
       /\ chain_length res = 5%nat
       /\ errors res = ["Hash verification failed for processing receipt"].
Proof.
  assert (Hno : ~ collision short_digest
                    (canonical_bytes (without_hashes tampered_processing))
                    (canonical_bytes (without_hashes sample_processing)))
    by (apply sha256_rules_out_collision; vm_compute; reflexivity).
  assert (Hstored : hash_recomputes short_digest sample_processing) by recomputes.
  assert (Hfield : lookup sample_processing "yield_output_kg" = Some (VFloat 147))
    by (vm_compute; reflexivity).
  assert (Htext : json_dumps (VFloat 999) <> json_dumps (VFloat 147)) by texts_differ.
  destruct (@tampering_is_detected short_digest sample_clock) as [Hone Hledger].
  split; [exact Hstored|]. split; [exact Hfield|]. split; [exact Htext|]. split.
  - destruct (Hone sample_processing "yield_output_kg" (VFloat 147) (VFloat 999)
                Hstored Hfield eq_refl Htext) as [H|H]; [exact H | contradiction].
  - destruct (Hledger sample_lot 5%nat [sample_catch]
                [sample_testing; sample_encapsulation; sample_distribution]
                [sample_distribution; sample_encapsulation; sample_testing; sample_processing;
                 sample_catch]
                sample_processing "yield_output_kg" (VFloat 147) (VFloat 999)) as [H|H];
      [ exact (built_chain_valid sample_chain_built sample_chain_found_first)
      | cbn [In]; tauto
      | intros [H|[]]; revert H; fields_differ "receipt_type"
      | exact Hfield
      | cbn [In]; intuition discriminate
      | exact Htext
      | exact H
      | contradiction ].
Defined.

(** The distribution receipt of the sample lot with its [lot_number]
    rewritten: the ledger was valid for the lot and one stored field, not a
    hash field, has another value; [verify_chain] reports the lot invalid,
    but its one error is that it finds no distribution receipt: it reports
    no hash mismatch. *)
Lemma rewritten_lot_number_reports_no_hash_mismatch :
  valid_chain short_digest sample_lot
    [sample_catch; sample_processing; sample_testing; sample_encapsulation;
     sample_distribution]
    [sample_distribution; sample_encapsulation; sample_testing; sample_processing;
     sample_catch]
  /\ lookup sample_distribution "lot_number" = Some (VStr sample_lot)
  /\ json_dumps (VStr "LOT-OTHER") <> json_dumps (VStr sample_lot)
  /\ exists res : chain_result,
       result_of (verify_chain short_digest sample_clock sample_lot
                    {| ledger := [sample_catch; sample_processing; sample_testing;
                                  sample_encapsulation;
                                  dict_set sample_distribution "lot_number" (VStr "LOT-OTHER")];
                       ticks := 5 |})
       = Return res
       /\ chain_valid res = false
       /\ errors res = ["No distribution receipt found for lot LOT-TEST-CHAIN-01"].
Proof.
  split; [exact (built_chain_valid sample_chain_built sample_chain_found_first)|].
  split; [vm_compute; reflexivity|]. split; [texts_differ|].
  by_running.
Defined.

(** ** C5 *)

Lemma sample_world_reachable :
  reachable short_digest sample_clock nonempty_date sample_world.
Proof.
  assert (E : sample_world = run_stages sample_stage_calls fresh)
    by (vm_compute; reflexivity).
  rewrite E. unfold run_stages, sample_stage_calls. cbn [fold_left].
  repeat apply reachable_step. apply reachable_start.
Qed.

Lemma lot_number_unique_sample :
  existsb (has_lot sample_lot) (ledger sample_world) = true
  /\ (exists msg : string,
        create_encapsulation_receipt short_digest sample_clock nonempty_date
          "BOT-02" "Other Bottling" "USP" "USP-002" "k:l" sample_lot
          "2025-02-01T09:00:00Z" "BP-CHAIN-TEST" 60 500 (hash_of sample_testing) None
          sample_world
        = (sample_world, Raise (StopRule msg)))
  /\ reachable short_digest sample_clock nonempty_date sample_world
  /\ (List.length (filter (has_lot sample_lot) (ledger sample_world)) <= 1)%nat.
Proof.
  assert (Hlot : existsb (has_lot sample_lot) (ledger sample_world) = true)
    by (vm_compute; reflexivity).
  destruct (@lot_number_unique short_digest sample_clock nonempty_date) as [Hstop Hone].
  split; [exact Hlot|]. split; [|split].
  - exact (Hstop "BOT-02" "Other Bottling" "USP" "USP-002" "k:l" sample_lot
             "2025-02-01T09:00:00Z" "BP-CHAIN-TEST" 60%Z 500%float (hash_of sample_testing)
             None sample_world Hlot).
  - exact sample_world_reachable.
  - exact (Hone sample_world sample_world_reachable sample_lot).
Defined.

(** ** C6 *)

Lemma suspect_checks_run :
  run_all_fraud_checks short_digest sample_clock suspect_chain suspect_world
  = (checked_world, Return suspect_findings).
Proof. vm_compute. reflexivity. Qed.

Lemma fraud_checks_follow_list_order_sample :
  map (fun r : dict => get r "receipt_type") suspect_chain
  = [VStr "distribution"; VStr "processing"; VStr "testing"]
  /\ exists (w' : World) (found : list dict),
       run_all_fraud_checks short_digest sample_clock suspect_chain suspect_world
       = (w', Return found)
       /\ map (fun a : dict =>
                 (get a "anomaly_type", get a "severity", get a "source_receipt_hash")) found
          = [ (VStr "COLD_CHAIN_DEGRADATION", VStr "FLAG",
               get (nth 0 suspect_chain []) "payload_hash");
              (VStr "YIELD_HIGH", VStr "FLAG", get (nth 1 suspect_chain []) "payload_hash");
              (VStr "LABEL_FRAUD", VStr "FLAG", get (nth 2 suspect_chain []) "payload_hash");
              (VStr "CONTAMINANT_EXCEED", VStr "REJECT",
               get (nth 2 suspect_chain []) "payload_hash") ]
       /\ exists per : list (list dict),
            found = List.concat per
            /\ ledger w' = (ledger suspect_world ++ found)%list
            /\ Forall2 findings_about suspect_chain per.
Proof.
  split; [vm_compute; reflexivity|].
  exists checked_world, suspect_findings.
  split; [exact suspect_checks_run|]. split; [vm_compute; reflexivity|].
  exact (@fraud_checks_follow_list_order short_digest sample_clock suspect_chain
           suspect_findings suspect_world checked_world suspect_checks_run).
Defined.

(** A chain handed over with its distribution receipt before its processing
    and its testing receipt: the cold-chain finding comes back before the
    yield finding and the findings of the testing receipt, that is, not in
    stage order, and is appended to the ledger before them. *)
Lemma fraud_findings_follow_the_chain_not_the_stages :
  map (fun r : dict => get r "receipt_type") suspect_chain
  = [VStr "distribution"; VStr "processing"; VStr "testing"]
  /\ exists (w' : World) (found : list dict),
       run_all_fraud_checks short_digest sample_clock suspect_chain suspect_world
       = (w', Return found)
       /\ map (fun a : dict => get a "anomaly_type") found
          = [VStr "COLD_CHAIN_DEGRADATION"; VStr "YIELD_HIGH"; VStr "LABEL_FRAUD";
             VStr "CONTAMINANT_EXCEED"]
       /\ ledger w' = (ledger suspect_world ++ found)%list.
Proof.
  split; [vm_compute; reflexivity|].
  exists checked_world, suspect_findings.
  split; [exact suspect_checks_run|]. split; vm_compute; reflexivity.
Defined.

(** ** C7 *)

Lemma reemit_changes_payload_hash_sample :
  no_collision short_digest
    (canonical_bytes (envelope "catch" (sample_clock 0) VNone sample_payload))
    (canonical_bytes (envelope "catch" (sample_clock 1) VNone sample_payload))
  /\ ~ In "ts" (keys sample_payload)
  /\ sample_clock 0 <> sample_clock 1
  /\ exists r1 r2 : dict,
       result_of (emit_receipt short_digest sample_clock "catch" sample_payload VNone fresh)
       = Return r1
       /\ result_of (emit_receipt short_digest sample_clock "catch" sample_payload VNone later)
          = Return r2
       /\ get r1 "payload_hash" <> get r2 "payload_hash"
       /\ get r1 "ts" <> get r2 "ts"
       /\ (forall k : string,
             k <> "ts" -> is_hash_field k = false -> lookup r1 k = lookup r2 k).
Proof.
  assert (Hclash : no_collision short_digest
            (canonical_bytes (envelope "catch" (sample_clock 0) VNone sample_payload))
            (canonical_bytes (envelope "catch" (sample_clock 1) VNone sample_payload)))
    by sha256_differ.
  assert (Hts : ~ In "ts" (keys sample_payload)) by (cbn; intuition discriminate).
  assert (Hclock : sample_clock 0 <> sample_clock 1) by texts_differ.
  split; [exact Hclash|]. split; [exact Hts|]. split; [exact Hclock|].
  exact (@reemit_changes_payload_hash short_digest sample_clock "catch" sample_payload VNone
           fresh later Hclash Hts Hclock).
Defined.

(** Two emissions of one payload differ in their [ts] field as well; and a
    payload that brings its own [ts] gets the same [payload_hash] at both
    readings of the clock. *)
Lemma reemit_changes_ts_and_keeps_hash_of_own_ts :
  sample_clock 0 <> sample_clock 1
  /\ (exists r1 r2 : dict,
        result_of (emit_receipt short_digest sample_clock "catch" sample_payload VNone fresh)
        = Return r1
        /\ result_of (emit_receipt short_digest sample_clock "catch" sample_payload VNone later)
           = Return r2
        /\ get r1 "ts" = VStr (sample_clock 0)
        /\ get r2 "ts" = VStr (sample_clock 1))
  /\ (exists r1 r2 : dict,
        result_of (emit_receipt short_digest sample_clock "catch"
                     [("ts", VStr "2025-01-01T00:00:00+00:00")] VNone fresh)
        = Return r1
        /\ result_of (emit_receipt short_digest sample_clock "catch"
                        [("ts", VStr "2025-01-01T00:00:00+00:00")] VNone later)
           = Return r2
        /\ get r1 "payload_hash" = get r2 "payload_hash").
Proof.
  split; [texts_differ|]. split.
  - eexists. eexists. split; [reflexivity|]. split; [reflexivity|].
    split; vm_compute; reflexivity.
  - eexists. eexists. split; [reflexivity|]. split; [reflexivity|].
    vm_compute. reflexivity.
Defined.

(** ** C4 and C10 *)

Lemma breach_receipt_persisted_before_stop_sample :
  mem_str "ISO17025" LAB_CERT_TYPES = true
  /\ contains_char ":" "g:h" = true
  /\ (limit "mercury_ppm" <? 0.5)%float = true
  /\ exists (r : dict) (h msg : string),
       create_testing_receipt short_digest sample_clock
         "Test Lab" "ISO17025" "ISO-001" "g:h" "BP-CHAIN-TEST"
         0.5 0x1.eb851eb851eb8p-6 0x1.3333333333333p+0 420 300 700 3 10 "p:q" None fresh
       = ({| ledger := [r]; ticks := 1 |}, Raise (StopRule msg))
       /\ get r "receipt_type" = VStr "testing"
       /\ get r "payload_hash" = VStr h
       /\ verify_single_receipt short_digest r = true
       /\ contains h msg = true.
Proof.
  split; [reflexivity|]. split; [reflexivity|]. split; [vm_compute; reflexivity|].
  apply (@breach_receipt_persisted_before_stop short_digest sample_clock
           "Test Lab" "ISO17025" "ISO-001" "g:h" "BP-CHAIN-TEST"
           0.5 0x1.eb851eb851eb8p-6 0x1.3333333333333p+0 420 300 700 3 10 "p:q" None fresh).
  - reflexivity.
  - reflexivity.
  - left. vm_compute. reflexivity.
Defined.

Lemma oxidation_failure_recorded_not_raised_sample :
  mem_str "ISO17025" LAB_CERT_TYPES = true
  /\ contains_char ":" "g:h" = true
  /\ (0x1.47ae147ae147bp-6 <=? limit "mercury_ppm")%float = true
  /\ (0x1.eb851eb851eb8p-6 <=? limit "pcbs_ppm")%float = true
  /\ (0x1.3333333333333p+0 <=? limit "dioxins_pg_per_g")%float = true
  /\ (2 * 6 + 10 <=? limit "totox")%float = true
  /\ (limit "peroxide_meq_per_kg" <? 6)%float = true
  /\ exists r oxidation : dict,
       create_testing_receipt short_digest sample_clock
         "Test Lab" "ISO17025" "ISO-001" "g:h" "BP-CHAIN-TEST"
         0x1.47ae147ae147bp-6 0x1.eb851eb851eb8p-6 0x1.3333333333333p+0
         420 300 700 6 10 "p:q" None fresh
       = ({| ledger := [r]; ticks := 1 |}, Return r)
       /\ get r "receipt_type" = VStr "testing"
       /\ verify_single_receipt short_digest r = true
       /\ get r "oxidation" = VDict oxidation
       /\ get oxidation "oxidation_pass" = VBool false
       /\ get r "overall_pass" = VBool false.
Proof.
  repeat (split; [vm_compute; reflexivity|]).
  apply (@oxidation_failure_recorded_not_raised short_digest sample_clock
           "Test Lab" "ISO17025" "ISO-001" "g:h" "BP-CHAIN-TEST"
           0x1.47ae147ae147bp-6 0x1.eb851eb851eb8p-6 0x1.3333333333333p+0
           420 300 700 6 10 "p:q" None fresh);
    try (vm_compute; reflexivity).
  left. vm_compute. reflexivity.
Defined.
